(** * Support Center: appointment scheduling

    A shallow embedding of the Odoo module [support_center]
    (models/support_appointment.py, models/appointment_settings.py and the
    wizards under wizard/), followed by the properties of the scheduling
    and conflict-resolution engine.

    Conventions of the embedding.
    - A naive [datetime] is the number of seconds since 1970-01-01 00:00:00
      ([fields.Datetime.now()] has no microseconds).  A [Datetime] field is
      [option datetime]: [None] is the Python value [False] (SQL NULL).
    - The Float field [duration] (hours) is held as the number of seconds of
      [timedelta(hours=duration)]; it is falsy exactly when it is [0].
    - A [Many2one] field is [option Z]: the id of the target or [None].
    - A table is the list of its rows, as [search] ranges over them
      (archived rows are hidden from [search] by the ORM and are not part of
      the list).  [search domain] keeps the rows that satisfy the domain.
    - A Python exception is the [Raise] case of [result]; the transaction is
      rolled back, so the table the caller sees afterwards is the old one
      (see [commit]). *)

From Stdlib Require Import Ascii String QArith ZArith List Bool Lia Sorting.Sorted.
Import ListNotations.

Local Open Scope Z_scope.

(** ** Exceptions and the error monad *)

Inductive exn : Type :=
| ValidationError (msg : string)
| UserError (msg : string)
| TypeError
| AttributeError
| KeyError
| IntegrityError
| MissingError.

Inductive result (A : Type) : Type :=
| Ok (a : A)
| Raise (e : exn).

Arguments Ok {A} a.
Arguments Raise {A} e.

Definition bind {A B : Type} (m : result A) (k : A -> result B) : result B :=
  match m with
  | Ok a => k a
  | Raise e => Raise e
  end.

Declare Scope result_scope.
Delimit Scope result_scope with result.
Notation "x <- m ;; k" := (bind m (fun x => k))
  (at level 100, m at next level, right associativity) : result_scope.
Notation "m ;;; k" := (bind m (fun _ => k))
  (at level 100, right associativity) : result_scope.

(** The table after a call: a raised exception rolls the transaction back. *)
Definition commit {S : Type} (before : S) (r : result S) : S :=
  match r with
  | Ok after => after
  | Raise _ => before
  end.

(** ** Dates and times *)

Definition datetime : Type := Z.

Definition seconds_per_hour : Z := 3600.
Definition seconds_per_day : Z := 86400.

(** [timedelta(hours=h)] and [timedelta(days=d)] for whole [h] and [d]. *)
Definition hours (h : Z) : Z := h * seconds_per_hour.
Definition days (d : Z) : Z := d * seconds_per_day.

(** [t.replace(hour=0, minute=0, second=0, microsecond=0)] *)
Definition midnight (t : datetime) : datetime :=
  seconds_per_day * (t / seconds_per_day).

(** [t.replace(hour=h)]: minutes and seconds are kept. *)
Definition replace_hour (h : Z) (t : datetime) : datetime :=
  midnight t + hours h + t mod seconds_per_hour.

(** [t.replace(minute=0, second=0, microsecond=0)] *)
Definition replace_minute0 (t : datetime) : datetime :=
  seconds_per_hour * (t / seconds_per_hour).

(** [t.replace(hour=h, minute=0, second=0, microsecond=0)] *)
Definition replace_hour_sharp (h : Z) (t : datetime) : datetime :=
  midnight t + hours h.

(** [t.weekday()]: Monday is 0, Sunday is 6; 1970-01-01 was a Thursday. *)
Definition weekday (t : datetime) : Z :=
  (t / seconds_per_day + 3) mod 7.

(** [range(lo, hi)] *)
Definition range (lo hi : Z) : list Z :=
  map (fun k => lo + Z.of_nat k) (seq 0 (Z.to_nat (hi - lo))).

(** ** Domain leaves on nullable columns

    A comparison with NULL on either side selects no row. *)

Definition leaf_lt (column value : option Z) : bool :=
  match column, value with
  | Some c, Some v => c <? v
  | _, _ => false
  end.

Definition leaf_gt (column value : option Z) : bool :=
  match column, value with
  | Some c, Some v => v <? c
  | _, _ => false
  end.

Definition leaf_ge (column value : option Z) : bool :=
  match column, value with
  | Some c, Some v => v <=? c
  | _, _ => false
  end.

Definition leaf_le (column value : option Z) : bool :=
  match column, value with
  | Some c, Some v => c <=? v
  | _, _ => false
  end.

(** [('col', '=', v)]: with [v = False] the leaf is [col IS NULL]. *)
Definition leaf_eq (column value : option Z) : bool :=
  match column, value with
  | Some c, Some v => c =? v
  | None, None => true
  | _, _ => false
  end.

(** [('id', '!=', v)]: with [v = False] the leaf is [id IS NOT NULL]. *)
Definition leaf_id_ne (column : Z) (value : option Z) : bool :=
  match value with
  | Some v => negb (column =? v)
  | None => true
  end.

Definition search {A : Type} (domain : A -> bool) (table : list A) : list A :=
  filter domain table.

Definition search_count {A : Type} (domain : A -> bool) (table : list A) : Z :=
  Z.of_nat (length (search domain table)).

(** Truth value of a recordset or list: non-empty. *)
Definition truthy {A : Type} (l : list A) : bool :=
  match l with
  | [] => false
  | _ :: _ => true
  end.

(** The environment of a call: clock, current user, groups, mail templates. *)
Record env : Type := {
  now : datetime;
  uid : Z;
  group_support_manager : Z -> bool;
  group_support_technician : Z -> bool;
  template_confirmation : bool;
  template_reminder : bool
}.

(** ** models/support_appointment.py *)

Module SupportAppointment.

Inductive appt_status : Type :=
| draft
| confirmed
| in_progress
| completed
| cancelled.

Definition appt_status_eqb (a b : appt_status) : bool :=
  match a, b with
  | draft, draft
  | confirmed, confirmed
  | in_progress, in_progress
  | completed, completed
  | cancelled, cancelled => true
  | _, _ => false
  end.

(** The fields the scheduling engine reads or writes.  [name],
    [description], [location], [priority], [created_via] and the linked
    ticket are carried by the ORM and never tested by the code below. *)
Record appointment : Type := {
  id : Z;
  customer_id : option Z;
  technician_id : option Z;
  scheduled_date : option datetime;
  duration : Z;
  status : appt_status;
  send_confirmation_email : bool;
  send_reminder_email : bool;
  confirmation_sent : bool;
  reminder_sent : bool;
  end_datetime : option datetime
}.

Definition table : Type := list appointment.

(** [browse(i)] *)
Definition browse (i : Z) (db : table) : option appointment :=
  find (fun a => id a =? i) db.

(** The row [i] replaced by [a'] (an UPDATE of that row). *)
Definition update (i : Z) (a' : appointment) (db : table) : table :=
  map (fun a => if id a =? i then a' else a) db.

(** The id the sequence of the table gives to the next row. *)
Definition next_id (db : table) : Z :=
  1 + fold_right Z.max 0 (map id db).

(** [status in ['confirmed', 'in_progress']] *)
Definition blocking (s : appt_status) : bool :=
  match s with
  | confirmed | in_progress => true
  | _ => false
  end.

(** [_compute_end_datetime]: [scheduled_date + timedelta(hours=duration)]
    when both are truthy, else [False]. *)
Definition _compute_end_datetime
    (scheduled : option datetime) (dur : Z) : option datetime :=
  match scheduled with
  | Some s => if dur =? 0 then None else Some (s + dur)
  | None => None
  end.

(** The domain every conflict search of the module uses:
    [[('technician_id', '=', tech), ('scheduled_date', '<', e1),
      ('end_datetime', '>', s1),
      ('status', 'in', ['confirmed', 'in_progress']), ('id', '!=', excl)]];
    [excl = None] is the search without the last leaf. *)
Definition conflict_domain
    (tech : option Z) (s1 e1 : option datetime) (excl : option (option Z))
    (a : appointment) : bool :=
  leaf_eq (technician_id a) tech
  && leaf_lt (scheduled_date a) e1
  && leaf_gt (end_datetime a) s1
  && blocking (status a)
  && match excl with
     | Some x => leaf_id_ne (id a) x
     | None => true
     end.

Definition find_conflicts
    (db : table) (tech : option Z) (s1 e1 : option datetime)
    (excl : option (option Z)) : table :=
  search (conflict_domain tech s1 e1 excl) db.

(** [_check_appointment_validity] for one record. *)
Definition _check_appointment_validity
    (e : env) (db : table) (record : appointment) : result unit :=
  match scheduled_date record with
  | None => Raise TypeError
  | Some s =>
      if s <=? now e
      then Raise (ValidationError "Cannot schedule appointments in the past.")
      else
        let conflicts :=
          find_conflicts db (technician_id record) (scheduled_date record)
                         (end_datetime record) (Some (Some (id record))) in
        if truthy conflicts
        then Raise (ValidationError
                      "Technician has conflicting appointments at this time")
        else Ok tt
  end.

(** [_check_technician_group] for one record. *)
Definition _check_technician_group
    (e : env) (record : appointment) : result unit :=
  match technician_id record with
  | Some t =>
      if negb (group_support_technician e t)
      then Raise (ValidationError
                    "User must be a member of the Support Technician group")
      else Ok tt
  | None => Ok tt
  end.

(** [_send_confirmation_email] *)
Definition _send_confirmation_email (e : env) (a : appointment) : appointment :=
  if negb (confirmation_sent a) && template_confirmation e
  then {| id := id a; customer_id := customer_id a;
          technician_id := technician_id a;
          scheduled_date := scheduled_date a; duration := duration a;
          status := status a;
          send_confirmation_email := send_confirmation_email a;
          send_reminder_email := send_reminder_email a;
          confirmation_sent := true;
          reminder_sent := reminder_sent a;
          end_datetime := end_datetime a |}
  else a.

(** The values of a [create] call, for the keys the callers of the module
    pass besides the texts; an absent key takes the field default.  A call
    that names another field ([end_datetime], [confirmation_sent],
    [reminder_sent], [active]) is not covered. *)
Record create_vals : Type := {
  v_customer_id : option Z;
  v_technician_id : option Z;
  v_scheduled_date : option datetime;
  v_duration : option Z;
  v_status : option appt_status;
  v_send_confirmation_email : option bool;
  v_send_reminder_email : option bool
}.

Definition default {A : Type} (d : A) (o : option A) : A :=
  match o with
  | Some x => x
  | None => d
  end.

Definition is_some {A : Type} (o : option A) : bool :=
  match o with
  | Some _ => true
  | None => false
  end.

(** [create]: insert the row (required columns are NOT NULL), compute the
    stored [end_datetime], run the constraints, send the confirmation. *)
Definition create (e : env) (vals : create_vals) (db : table)
  : result (appointment * table) :=
  let sched := v_scheduled_date vals in
  let dur := default (hours 1) (v_duration vals) in
  let record :=
    {| id := next_id db;
       customer_id := v_customer_id vals;
       technician_id := v_technician_id vals;
       scheduled_date := sched;
       duration := dur;
       status := default draft (v_status vals);
       send_confirmation_email := default false (v_send_confirmation_email vals);
       send_reminder_email := default false (v_send_reminder_email vals);
       confirmation_sent := false;
       reminder_sent := false;
       end_datetime := _compute_end_datetime sched dur |} in
  if negb (is_some (v_customer_id vals) && is_some (v_technician_id vals)
           && is_some sched)
  then Raise IntegrityError
  else
    (_check_appointment_validity e (db ++ [record]) record ;;;
     _check_technician_group e record ;;;
     let appointment :=
       if send_confirmation_email record
       then _send_confirmation_email e record
       else record in
     Ok (appointment, db ++ [appointment]))%result.

(** The values of a [write] call, for the keys the overridden [write]
    tracks, which are the keys the callers of the module pass: [Some v]
    for a key that is present.  A call that names another field
    ([end_datetime], [confirmation_sent], [reminder_sent]) is not
    covered. *)
Record write_vals : Type := {
  w_status : option appt_status;
  w_technician_id : option Z;
  w_scheduled_date : option datetime;
  w_duration : option Z;
  w_customer_id : option Z
}.

Definition no_vals : write_vals :=
  {| w_status := None; w_technician_id := None; w_scheduled_date := None;
     w_duration := None; w_customer_id := None |}.

Definition assign (vals : write_vals) (a : appointment) : appointment :=
  let sched :=
    match w_scheduled_date vals with
    | Some s => Some s
    | None => scheduled_date a
    end in
  let dur := default (duration a) (w_duration vals) in
  {| id := id a;
     customer_id :=
       match w_customer_id vals with
       | Some c => Some c
       | None => customer_id a
       end;
     technician_id :=
       match w_technician_id vals with
       | Some t => Some t
       | None => technician_id a
       end;
     scheduled_date := sched;
     duration := dur;
     status := default (status a) (w_status vals);
     send_confirmation_email := send_confirmation_email a;
     send_reminder_email := send_reminder_email a;
     confirmation_sent := confirmation_sent a;
     reminder_sent := reminder_sent a;
     end_datetime :=
       if is_some (w_scheduled_date vals) || is_some (w_duration vals)
       then _compute_end_datetime sched dur
       else end_datetime a |}.

(** [write] on the record [i]: the constraints run for the fields named in
    [vals] ([@api.constrains('scheduled_date', 'technician_id',
    'duration')] and [@api.constrains('technician_id')]); a status-only
    write runs none. *)
Definition write (e : env) (i : Z) (vals : write_vals) (db : table)
  : result table :=
  match browse i db with
  | None => Raise MissingError
  | Some a =>
      let record := assign vals a in
      let db' := update i record db in
      ((if is_some (w_scheduled_date vals) || is_some (w_technician_id vals)
           || is_some (w_duration vals)
        then _check_appointment_validity e db' record
        else Ok tt) ;;;
       (if is_some (w_technician_id vals)
        then _check_technician_group e record
        else Ok tt) ;;;
       Ok db')%result
  end.

(** [self.status = s] on one record (a write of the key [status] only). *)
Definition set_status (s : appt_status) (a : appointment) : appointment :=
  assign {| w_status := Some s; w_technician_id := None;
            w_scheduled_date := None; w_duration := None;
            w_customer_id := None |} a.

Definition action_confirm (a : appointment) : appointment :=
  set_status confirmed a.

Definition action_start (a : appointment) : appointment :=
  set_status in_progress a.

Definition action_complete (a : appointment) : appointment :=
  set_status completed a.

Definition action_cancel_direct (a : appointment) : appointment :=
  set_status cancelled a.

(** A lifecycle action called on the record [i] of the table
    ([ensure_one] on a missing record raises). *)
Definition call (action : appointment -> appointment) (i : Z) (db : table)
  : result table :=
  match browse i db with
  | None => Raise MissingError
  | Some a => Ok (update i (action a) db)
  end.

(** [can_edit] *)
Definition can_edit (e : env) (a : appointment) : bool :=
  if group_support_manager e (uid e) then true
  else if leaf_eq (technician_id a) (Some (uid e)) then true
  else false.

(** [_send_reminder_email]: the flag is set only when the template exists;
    the second component tells whether a mail went out. *)
Definition _send_reminder_email (e : env) (a : appointment)
  : appointment * bool :=
  if template_reminder e
  then ({| id := id a; customer_id := customer_id a;
           technician_id := technician_id a;
           scheduled_date := scheduled_date a; duration := duration a;
           status := status a;
           send_confirmation_email := send_confirmation_email a;
           send_reminder_email := send_reminder_email a;
           confirmation_sent := confirmation_sent a;
           reminder_sent := true;
           end_datetime := end_datetime a |}, true)
  else (a, false).

(** The domain of [check_upcoming_reminders]. *)
Definition reminder_domain (start_time end_time : datetime)
    (a : appointment) : bool :=
  leaf_ge (scheduled_date a) (Some start_time)
  && leaf_lt (scheduled_date a) (Some end_time)
  && blocking (status a)
  && Bool.eqb (send_reminder_email a) true
  && Bool.eqb (reminder_sent a) false.

(** The loop of [check_upcoming_reminders] over the selected records:
    each one is re-read from the table, reminded and written back; the
    ids of the appointments a mail was sent for are collected. *)
Fixpoint remind_all (e : env) (selected : list appointment) (db : table)
  : table * list Z :=
  match selected with
  | [] => (db, [])
  | a :: rest =>
      match browse (id a) db with
      | None => remind_all e rest db
      | Some cur =>
          let (cur', sent) := _send_reminder_email e cur in
          let (db', mails) := remind_all e rest (update (id a) cur' db) in
          (db', if sent then id a :: mails else mails)
      end
  end.

(** [check_upcoming_reminders] *)
Definition check_upcoming_reminders (e : env) (db : table) : table * list Z :=
  let tomorrow := now e + hours 24 in
  let start_time := midnight tomorrow in
  let end_time := start_time + days 1 in
  let upcoming_appointments := search (reminder_domain start_time end_time) db in
  remind_all e upcoming_appointments db.

(** [status_restrictions.get(self.status, [])] of [can_edit_field]. *)
Definition status_restrictions (s : appt_status) : list string :=
  match s with
  | completed => ["status"%string]
  | cancelled => []
  | _ => []
  end.

(** [field_name in names] *)
Definition field_in (field_name : string) (names : list string) : bool :=
  existsb (String.eqb field_name) names.

(** [can_edit_field]: the comparison with now is only evaluated for the
    two schedule fields, and raises on an unset date. *)
Definition can_edit_field (e : env) (a : appointment) (field_name : string)
  : result bool :=
  if negb (can_edit e a) then Ok false
  else
    let restricted_fields := status_restrictions (status a) in
    if field_in field_name restricted_fields
       && negb (String.eqb field_name "status")
    then Ok false
    else if field_in field_name ["scheduled_date"%string; "technician_id"%string]
    then
      match scheduled_date a with
      | None => Raise TypeError
      | Some s =>
          if s <=? now e then Ok (group_support_manager e (uid e))
          else Ok true
      end
    else Ok true.

(** The warnings of [get_edit_warnings], in place of their texts. *)
Inductive edit_warning : Type :=
| warn_past
| warn_in_progress
| warn_conflict.

(** [get_edit_warnings]: [vals] holds the keys of the edit ([Some v] for a
    key that is present). *)
Definition get_edit_warnings (e : env) (appointment_id : Z) (vals : write_vals)
    (db : table) : result (list edit_warning) :=
  match browse appointment_id db with
  | None => Raise MissingError
  | Some appointment =>
      match scheduled_date appointment with
      | None => Raise TypeError
      | Some s =>
          let past := if s <=? now e then [warn_past] else [] in
          let running :=
            if appt_status_eqb (status appointment) in_progress
            then [warn_in_progress] else [] in
          if is_some (w_scheduled_date vals) || is_some (w_technician_id vals)
          then
            let new_technician :=
              match w_technician_id vals with
              | Some t => Some t
              | None => technician_id appointment
              end in
            let new_date := default s (w_scheduled_date vals) in
            let new_duration := default (duration appointment) (w_duration vals) in
            let end_datetime := new_date + new_duration in
            let conflicts :=
              find_conflicts db new_technician (Some new_date)
                             (Some end_datetime) (Some (Some appointment_id)) in
            Ok (past ++ running
                ++ (if truthy conflicts then [warn_conflict] else []))
          else Ok (past ++ running)
      end
  end.

(** A term of a domain passed by a caller: one of the operators ['&'],
    ['|'] and ['!'] of the prefix notation, or a leaf, given by the rows it
    accepts. *)
Inductive domain_term : Type :=
| AND_OPERATOR
| OR_OPERATOR
| NOT_OPERATOR
| leaf (accepts : appointment -> bool).

(** A domain is read in prefix notation: from its last term to its first,
    a leaf pushes its value on a stack, ['!'] negates the value on top,
    ['&'] and ['|'] replace the two values on top by their conjunction or
    disjunction.  What is left are the values of the expressions of the
    domain, the first on top; [None] when an operator finds too few
    operands.  [value] gives the value of a leaf. *)
Fixpoint domain_stack (value : (appointment -> bool) -> bool)
    (domain : list domain_term) : option (list bool) :=
  match domain with
  | [] => Some []
  | term :: rest =>
      match domain_stack value rest with
      | None => None
      | Some stack =>
          match term, stack with
          | leaf accepts, _ => Some (value accepts :: stack)
          | NOT_OPERATOR, x :: stack' => Some (negb x :: stack')
          | AND_OPERATOR, x :: y :: stack' => Some ((x && y) :: stack')
          | OR_OPERATOR, x :: y :: stack' => Some ((x || y) :: stack')
          | _, _ => None
          end
      end
  end.

(** The rows a domain accepts: its expressions are joined by an implicit
    ['&']. *)
Definition domain_accepts (domain : list domain_term) (a : appointment)
  : bool :=
  match domain_stack (fun accepts => accepts a) domain with
  | Some stack => forallb (fun x => x) stack
  | None => false
  end.

(** [search(domain)] with a domain of the caller; a domain in which an
    operator lacks an operand is refused ([None]), whatever the rows are. *)
Definition search_domain (domain : list domain_term) (db : table)
  : option table :=
  match domain_stack (fun _ => true) domain with
  | Some _ => Some (search (domain_accepts domain) db)
  | None => None
  end.

(** [get_calendar_data]: the security leaf is appended to the domain of
    the caller as its last term.  The rows are returned; the projection on
    [fields] is left out. *)
Definition get_calendar_data (e : env) (domain : list domain_term)
    (db : table) : option table :=
  let domain :=
    if negb (group_support_manager e (uid e))
    then domain ++ [leaf (fun a => leaf_eq (technician_id a) (Some (uid e)))]
    else domain in
  search_domain domain db.




(** The dictionary [generate_weekly_stats] returns. *)
Record weekly_stats : Type := {
  stats_total : Z;
  stats_completed : Z;
  stats_cancelled : Z;
  stats_in_progress : Z
}.

(** [len(records.filtered(lambda a: a.status == s))] *)
Definition count_status (s : appt_status) (records : list appointment) : Z :=
  Z.of_nat (length (filter (fun a => appt_status_eqb (status a) s) records)).

(** [generate_weekly_stats] *)
Definition generate_weekly_stats (e : env) (db : table) : weekly_stats :=
  let week_start := now e - days 7 in
  let week_end := now e in
  let appointments_this_week :=
    search (fun a => leaf_ge (scheduled_date a) (Some week_start)
                     && leaf_le (scheduled_date a) (Some week_end)) db in
  {| stats_total := Z.of_nat (length appointments_this_week);
     stats_completed := count_status completed appointments_this_week;
     stats_cancelled := count_status cancelled appointments_this_week;
     stats_in_progress := count_status in_progress appointments_this_week |}.

End SupportAppointment.

(** ** The slot scan shared by the two suggestion wizards

    [_find_available_slots] (quick-create wizard) and
    [_find_alternative_slots] (reschedule wizard) run the same two nested
    loops; they differ in the test that skips a slot before the search
    ([skip]) and in the search itself ([free]: no conflicting appointment). *)

Section SlotScan.

Variable skip : datetime -> bool.
Variable free : datetime -> bool.

(** [for hour in range(8, 17): ...] with its [break] at five slots. *)
Fixpoint scan_hours (check_date : datetime) (hs : list Z)
    (slots : list datetime) : list datetime :=
  match hs with
  | [] => slots
  | hour :: rest =>
      let slot_start := replace_hour hour check_date in
      if skip slot_start then scan_hours check_date rest slots
      else if free slot_start then
        let slots' := slots ++ [slot_start] in
        if 5 <=? Z.of_nat (length slots') then slots'
        else scan_hours check_date rest slots'
      else scan_hours check_date rest slots
  end.

(** [for day_offset in range(7): ...] with the weekend [continue] and the
    outer [break]. *)
Fixpoint scan_days (start_date : datetime) (offsets : list Z)
    (slots : list datetime) : list datetime :=
  match offsets with
  | [] => slots
  | day_offset :: rest =>
      let check_date := start_date + days day_offset in
      if 5 <=? weekday check_date then scan_days start_date rest slots
      else
        let slots' := scan_hours check_date (range 8 17) slots in
        if 5 <=? Z.of_nat (length slots') then slots'
        else scan_days start_date rest slots'
  end.

End SlotScan.

(** ** wizard/appointment_wizard.py *)

Module AppointmentQuickCreateWizard.

Import SupportAppointment.

Record wizard : Type := {
  customer_id : option Z;
  technician_id : option Z;
  scheduled_date : option datetime;
  duration : Z;
  send_confirmation_email : bool;
  send_reminder_email : bool;
  conflicts_found : bool
}.

Definition set_conflicts_found (b : bool) (w : wizard) : wizard :=
  {| customer_id := customer_id w; technician_id := technician_id w;
     scheduled_date := scheduled_date w; duration := duration w;
     send_confirmation_email := send_confirmation_email w;
     send_reminder_email := send_reminder_email w;
     conflicts_found := b |}.

(** [_check_technician_availability] *)
Definition _check_technician_availability (db : table) (w : wizard) : wizard :=
  if negb (is_some (technician_id w) && is_some (scheduled_date w)
           && negb (duration w =? 0))
  then set_conflicts_found false w
  else
    let end_datetime := option_map (fun s => s + duration w) (scheduled_date w) in
    let conflicts :=
      find_conflicts db (technician_id w) (scheduled_date w) end_datetime None in
    set_conflicts_found (truthy conflicts) w.

(** [_onchange_check_conflicts] *)
Definition _onchange_check_conflicts (db : table) (w : wizard) : wizard :=
  if is_some (technician_id w) && is_some (scheduled_date w)
     && negb (duration w =? 0)
  then _check_technician_availability db w
  else w.

(** [_validate_appointment_data] *)
Definition _validate_appointment_data (e : env) (w : wizard) : result unit :=
  if conflicts_found w
  then Raise (ValidationError
                "Cannot create appointment due to scheduling conflicts")
  else
    match scheduled_date w with
    | None => Raise TypeError
    | Some s =>
        if s <=? now e
        then Raise (ValidationError "Cannot schedule appointments in the past.")
        else if negb (match technician_id w with
                      | Some t => group_support_technician e t
                      | None => false
                      end)
        then Raise (ValidationError
                      "The selected user is not a support technician.")
        else if duration w <=? 0
        then Raise (ValidationError
                      "Appointment duration must be greater than 0.")
        else Ok tt
    end.

(** [_prepare_appointment_values] *)
Definition _prepare_appointment_values (w : wizard) : create_vals :=
  {| v_customer_id := customer_id w;
     v_technician_id := technician_id w;
     v_scheduled_date := scheduled_date w;
     v_duration := Some (duration w);
     v_status := Some draft;
     v_send_confirmation_email := Some (send_confirmation_email w);
     v_send_reminder_email := Some (send_reminder_email w) |}.

(** [action_create_appointment] *)
Definition action_create_appointment (e : env) (w : wizard) (db : table)
  : result (appointment * table) :=
  (_validate_appointment_data e w ;;;
   create e (_prepare_appointment_values w) db)%result.

(** The search of [_find_available_slots] for one slot: [not conflicts]. *)
Definition slot_free (db : table) (w : wizard) (slot_start : datetime) : bool :=
  let slot_end := slot_start + duration w in
  search_count
    (conflict_domain (technician_id w) (Some slot_start) (Some slot_end) None)
    db =? 0.

(** [_find_available_slots]: the [datetime] of each suggestion. *)
Definition _find_available_slots (e : env) (w : wizard) (db : table)
  : list datetime :=
  let start_date := replace_hour_sharp 8 (now e) in
  scan_days (fun _ => false) (slot_free db w) start_date (range 0 7) [].

(** [action_suggest_times]: the suggestions handed to the next form. *)
Definition action_suggest_times (e : env) (w : wizard) (db : table)
  : result (list datetime) :=
  if negb (is_some (technician_id w)) || (duration w =? 0)
  then Raise (UserError "Please select a technician and duration first.")
  else
    let suggestions := _find_available_slots e w db in
    if negb (truthy suggestions)
    then Raise (UserError "No available slots found for the next 7 days.")
    else Ok suggestions.

(** The domain of the busy search of [get_available_technicians]. *)
Definition busy_domain (date_start date_end : datetime) (a : appointment)
  : bool :=
  leaf_lt (SupportAppointment.scheduled_date a) (Some date_end)
  && leaf_gt (end_datetime a) (Some date_start)
  && blocking (status a).

(** [records.mapped('technician_id')]: the users the rows point to, each
    once. *)
Fixpoint mapped_technician (records : list appointment) : list Z :=
  match records with
  | [] => []
  | a :: rest =>
      let others := mapped_technician rest in
      match SupportAppointment.technician_id a with
      | Some t => if existsb (Z.eqb t) others then others else t :: others
      | None => others
      end
  end.

(** [get_available_technicians]: [users] are the ids of the user table. *)
Definition get_available_technicians (e : env) (users : list Z)
    (date_start date_end : datetime) (db : table) : list Z :=
  let all_technicians := filter (group_support_technician e) users in
  let busy_technicians :=
    mapped_technician (search (busy_domain date_start date_end) db) in
  filter (fun u => negb (existsb (Z.eqb u) busy_technicians)) all_technicians.

End AppointmentQuickCreateWizard.

(** ** wizard/appointment_reschedule.py *)

Module AppointmentReschedule.

Import SupportAppointment.

Record wizard : Type := {
  appointment_id : Z;
  current_date : option datetime;
  current_technician : option Z;
  new_date : option datetime;
  new_technician_id : option Z;
  notify_customer : bool;
  notify_technician : bool;
  conflicts_found : bool
}.

(** The related field [duration = appointment_id.duration]. *)
Definition duration (db : table) (w : wizard) : Z :=
  match browse (appointment_id w) db with
  | Some a => SupportAppointment.duration a
  | None => 0
  end.

Definition set_conflicts_found (b : bool) (w : wizard) : wizard :=
  {| appointment_id := appointment_id w; current_date := current_date w;
     current_technician := current_technician w; new_date := new_date w;
     new_technician_id := new_technician_id w;
     notify_customer := notify_customer w;
     notify_technician := notify_technician w;
     conflicts_found := b |}.

(** [a or b] on two Many2one values. *)
Definition or_else (a b : option Z) : option Z :=
  match a with
  | Some _ => a
  | None => b
  end.

(** [_check_reschedule_conflicts] *)
Definition _check_reschedule_conflicts (db : table) (w : wizard)
  : result wizard :=
  let check_technician := or_else (new_technician_id w) (current_technician w) in
  match check_technician with
  | None => Ok (set_conflicts_found false w)
  | Some _ =>
      match new_date w with
      | None => Raise TypeError
      | Some nd =>
          let end_datetime := nd + duration db w in
          let conflicts :=
            find_conflicts db check_technician (Some nd) (Some end_datetime)
                           (Some (Some (appointment_id w))) in
          Ok (set_conflicts_found (truthy conflicts) w)
      end
  end.

(** [_onchange_check_conflicts] *)
Definition _onchange_check_conflicts (db : table) (w : wizard)
  : result wizard :=
  if is_some (new_date w) && negb (duration db w =? 0)
  then _check_reschedule_conflicts db w
  else Ok w.

(** [_validate_reschedule] *)
Definition _validate_reschedule (e : env) (w : wizard) (a : appointment)
  : result unit :=
  if conflicts_found w
  then Raise (ValidationError "Cannot reschedule due to conflicts")
  else
    match new_date w with
    | None => Raise TypeError
    | Some nd =>
        if nd <=? now e
        then Raise (ValidationError "Cannot reschedule to a past date.")
        else if appt_status_eqb (status a) completed
        then Raise (ValidationError
                      "Cannot reschedule a completed appointment.")
        else if appt_status_eqb (status a) cancelled
        then Raise (ValidationError
                      "Cannot reschedule a cancelled appointment.")
        else if negb (can_edit e a)
        then Raise (ValidationError
                      "You do not have permission to reschedule this appointment.")
        else Ok tt
    end.

(** [update_vals] of [action_reschedule] *)
Definition update_vals (w : wizard) : write_vals :=
  {| w_status := None;
     w_technician_id := new_technician_id w;
     w_scheduled_date := new_date w;
     w_duration := None;
     w_customer_id := None |}.

(** [action_reschedule]: validate, then write the appointment (the model
    constraints run inside [write]); the audit note and the notifications
    leave the table as it is. *)
Definition action_reschedule (e : env) (w : wizard) (db : table)
  : result table :=
  match browse (appointment_id w) db with
  | None => Raise MissingError
  | Some a =>
      (_validate_reschedule e w a ;;;
       write e (appointment_id w) (update_vals w) db)%result
  end.

(** The search of [_find_alternative_slots] for one slot. *)
Definition slot_free (db : table) (w : wizard) (technician : option Z)
    (slot_start : datetime) : bool :=
  let slot_end := slot_start + duration db w in
  search_count
    (conflict_domain technician (Some slot_start) (Some slot_end)
                     (Some (Some (appointment_id w))))
    db =? 0.

(** [_find_alternative_slots]: [self.current_date.replace(...)] on an
    unset [current_date] raises in the first working-day iteration. *)
Definition _find_alternative_slots (e : env) (w : wizard)
    (technician : option Z) (db : table) : result (list datetime) :=
  let start_date := replace_hour_sharp 8 (now e) in
  match current_date w with
  | None => Raise AttributeError
  | Some cd =>
      Ok (scan_days (fun slot_start => slot_start =? replace_minute0 cd)
                    (slot_free db w technician) start_date (range 0 7) [])
  end.

(** [action_suggest_alternatives] *)
Definition action_suggest_alternatives (e : env) (w : wizard) (db : table)
  : result (list datetime) :=
  let technician := or_else (new_technician_id w) (current_technician w) in
  if negb (is_some technician)
  then Raise (UserError "Please select a technician first.")
  else
    (suggestions <- _find_alternative_slots e w technician db ;;
     if negb (truthy suggestions)
     then Raise (UserError "No alternative slots found for the next 7 days.")
     else Ok suggestions)%result.

End AppointmentReschedule.

(** ** wizard/appointment_cancel.py *)

Module AppointmentCancel.

Import SupportAppointment.

Inductive cancel_reason : Type :=
| customer_request
| customer_unavailable
| technician_unavailable
| emergency
| equipment_issue
| weather
| rescheduled
| duplicate
| other.

(** [reason] is [None] while the selection is still empty on the form. *)
Record wizard : Type := {
  appointment_id : Z;
  reason : option cancel_reason;
  notify_customer : bool;
  notify_technician : bool;
  refund_required : bool
}.

Definition set_defaults (w : wizard) (customer technician refund : bool)
  : wizard :=
  {| appointment_id := appointment_id w; reason := reason w;
     notify_customer := customer; notify_technician := technician;
     refund_required := refund |}.

(** [_onchange_reason_defaults] *)
Definition _onchange_reason_defaults (w : wizard) : wizard :=
  match reason w with
  | Some customer_request => set_defaults w false true true
  | Some technician_unavailable => set_defaults w true false false
  | Some rescheduled => set_defaults w false false false
  | _ => set_defaults w true true false
  end.

(** [_validate_cancellation] *)
Definition _validate_cancellation (e : env) (appointment : appointment)
  : result unit :=
  if appt_status_eqb (status appointment) cancelled
  then Raise (ValidationError "This appointment is already cancelled.")
  else if appt_status_eqb (status appointment) completed
  then Raise (ValidationError "Cannot cancel a completed appointment.")
  else if negb (can_edit e appointment)
  then Raise (ValidationError
                "You do not have permission to cancel this appointment.")
  else if appt_status_eqb (status appointment) in_progress
  then Raise (UserError
                "This appointment is currently in progress. Please contact the technician before cancelling.")
  else Ok tt.

(** [_log_cancellation]: the lookup of the reason label raises on an
    empty reason; the note itself goes to the chatter. *)
Definition _log_cancellation (w : wizard) : result unit :=
  match reason w with
  | Some _ => Ok tt
  | None => Raise KeyError
  end.

(** [action_cancel_appointment]: the notifications and the refund
    activity that follow the log leave the table as it is. *)
Definition action_cancel_appointment (e : env) (w : wizard) (db : table)
  : result table :=
  match browse (appointment_id w) db with
  | None => Raise MissingError
  | Some a =>
      (_validate_cancellation e a ;;;
       db' <- write e (appointment_id w)
                    {| w_status := Some cancelled; w_technician_id := None;
                       w_scheduled_date := None; w_duration := None;
                       w_customer_id := None |} db ;;
       _log_cancellation w ;;;
       Ok db')%result
  end.

End AppointmentCancel.

(** ** models/appointment_settings.py *)

Module AppointmentSettings.

(** A Python float as the comparisons of the constraints see it: a number,
    an infinity, or NaN, to which every comparison answers False. *)
Inductive pyfloat : Type :=
| Num (q : Q)
| PosInf
| NegInf
| NaN.

(** [x <= y] *)
Definition float_le (x y : pyfloat) : bool :=
  match x, y with
  | NaN, _ | _, NaN => false
  | Num p, Num q => Qle_bool p q
  | NegInf, _ => true
  | _, PosInf => true
  | _, _ => false
  end.

(** [x < y] *)
Definition float_lt (x y : pyfloat) : bool :=
  match x, y with
  | NaN, _ | _, NaN => false
  | Num p, Num q => negb (Qle_bool q p)
  | NegInf, NegInf | PosInf, PosInf => false
  | NegInf, _ => true
  | _, PosInf => true
  | _, _ => false
  end.

(** The Float fields are Python floats.  [working_days] is [None] for an
    empty Char field. *)
Record settings : Type := {
  id : Z;
  technician_id : option Z;
  working_hours_start : pyfloat;
  working_hours_end : pyfloat;
  working_days : option string;
  max_daily_appointments : Z;
  default_duration : pyfloat;
  advance_booking_days : Z;
  buffer_time : pyfloat
}.

Definition table : Type := list settings.

Definition browse (i : Z) (db : table) : option settings :=
  find (fun s => id s =? i) db.

Definition update (i : Z) (s' : settings) (db : table) : table :=
  map (fun s => if id s =? i then s' else s) db.

Definition next_id (db : table) : Z :=
  1 + fold_right Z.max 0 (map id db).

(** [_check_working_hours] *)
Definition _check_working_hours (record : settings) : result unit :=
  if float_le (working_hours_end record) (working_hours_start record)
  then Raise (ValidationError
                "Working hours end time must be after start time")
  else if float_lt (working_hours_start record) (Num 0)
          || float_lt (Num 24) (working_hours_start record)
  then Raise (ValidationError "Working hours start must be between 0 and 24")
  else if float_lt (working_hours_end record) (Num 0)
          || float_lt (Num 24) (working_hours_end record)
  then Raise (ValidationError "Working hours end must be between 0 and 24")
  else Ok tt.

(** [s.split(',')] *)
Fixpoint split_comma (s : string) : list string :=
  match s with
  | EmptyString => [EmptyString]
  | String c rest =>
      if Ascii.eqb c ","%char then EmptyString :: split_comma rest
      else
        match split_comma rest with
        | piece :: pieces => String c piece :: pieces
        | [] => [String c EmptyString]
        end
  end.

Section WithInt.

(** Python's [int(d.strip())] on one piece of the [working_days] string;
    [None] stands for [ValueError]. *)
Variable py_int_strip : string -> option Z.

(** [[int(d.strip()) for d in s.split(',')]]; [None] for [ValueError]. *)
Fixpoint parse_days (pieces : list string) : option (list Z) :=
  match pieces with
  | [] => Some []
  | d :: rest =>
      match py_int_strip d with
      | None => None
      | Some day =>
          match parse_days rest with
          | None => None
          | Some days => Some (day :: days)
          end
      end
  end.

(** [_check_working_days] *)
Definition _check_working_days (record : settings) : result unit :=
  match working_days record with
  | None | Some EmptyString => Ok tt
  | Some s =>
      match parse_days (split_comma s) with
      | Some days =>
          if existsb (fun day => (day <? 1) || (7 <? day)) days
          then Raise (ValidationError
                        "Working days must be comma-separated numbers from 1-7 (1=Monday, 7=Sunday)")
          else Ok tt
      | None =>
          Raise (ValidationError
                   "Working days must be comma-separated numbers from 1-7 (1=Monday, 7=Sunday)")
      end
  end.

(** [_check_positive_values] *)
Definition _check_positive_values (record : settings) : result unit :=
  if max_daily_appointments record <=? 0
  then Raise (ValidationError
                "Maximum daily appointments must be greater than 0")
  else if advance_booking_days record <=? 0
  then Raise (ValidationError "Advance booking days must be greater than 0")
  else Ok tt.

(** The domain [[('technician_id', '=', t), ('id', '!=', i)]]. *)
Definition other_with_technician (t : Z) (i : Z) (s : settings) : bool :=
  leaf_eq (technician_id s) (Some t) && leaf_id_ne (id s) (Some i).

(** [_check_unique_technician]: only a record with a technician is
    checked. *)
Definition _check_unique_technician (db : table) (record : settings)
  : result unit :=
  match technician_id record with
  | Some t =>
      let existing := search (other_with_technician t (id record)) db in
      if truthy existing
      then Raise (ValidationError
                    "Configuration already exists for technician")
      else Ok tt
  | None => Ok tt
  end.

(** The values of a [create] call; an absent key takes the field default. *)
Record create_vals : Type := {
  v_technician_id : option Z;
  v_working_hours_start : option pyfloat;
  v_working_hours_end : option pyfloat;
  v_working_days : option (option string);
  v_max_daily_appointments : option Z;
  v_default_duration : option pyfloat;
  v_advance_booking_days : option Z;
  v_buffer_time : option pyfloat
}.

Definition default {A : Type} (d : A) (o : option A) : A :=
  match o with
  | Some x => x
  | None => d
  end.

Definition is_some {A : Type} (o : option A) : bool :=
  match o with
  | Some _ => true
  | None => false
  end.

(** [create]: every constraint runs on the new record. *)
Definition create (vals : create_vals) (db : table)
  : result (settings * table) :=
  let record :=
    {| id := next_id db;
       technician_id := v_technician_id vals;
       working_hours_start := default (Num 8) (v_working_hours_start vals);
       working_hours_end := default (Num 17) (v_working_hours_end vals);
       working_days := default (Some "1,2,3,4,5"%string) (v_working_days vals);
       max_daily_appointments := default 8 (v_max_daily_appointments vals);
       default_duration := default (Num 1) (v_default_duration vals);
       advance_booking_days := default 30 (v_advance_booking_days vals);
       buffer_time := default (Num (1 # 2)) (v_buffer_time vals) |} in
  let db' := db ++ [record] in
  (_check_working_hours record ;;;
   _check_working_days record ;;;
   _check_positive_values record ;;;
   _check_unique_technician db' record ;;;
   Ok (record, db'))%result.

(** The values of a [write] call: [Some v] for a key that is present
    ([Some None] writes [False]). *)
Record write_vals : Type := {
  w_technician_id : option (option Z);
  w_working_hours_start : option pyfloat;
  w_working_hours_end : option pyfloat;
  w_working_days : option (option string);
  w_max_daily_appointments : option Z;
  w_advance_booking_days : option Z
}.

Definition assign (vals : write_vals) (s : settings) : settings :=
  {| id := id s;
     technician_id := default (technician_id s) (w_technician_id vals);
     working_hours_start :=
       default (working_hours_start s) (w_working_hours_start vals);
     working_hours_end :=
       default (working_hours_end s) (w_working_hours_end vals);
     working_days := default (working_days s) (w_working_days vals);
     max_daily_appointments :=
       default (max_daily_appointments s) (w_max_daily_appointments vals);
     default_duration := default_duration s;
     advance_booking_days :=
       default (advance_booking_days s) (w_advance_booking_days vals);
     buffer_time := buffer_time s |}.

(** [write] on the record [i]: each constraint runs when one of its
    fields is among the keys of [vals]. *)
Definition write (i : Z) (vals : write_vals) (db : table) : result table :=
  match browse i db with
  | None => Raise MissingError
  | Some s =>
      let record := assign vals s in
      let db' := update i record db in
      ((if is_some (w_working_hours_start vals)
           || is_some (w_working_hours_end vals)
        then _check_working_hours record else Ok tt) ;;;
       (if is_some (w_working_days vals)
        then _check_working_days record else Ok tt) ;;;
       (if is_some (w_max_daily_appointments vals)
           || is_some (w_advance_booking_days vals)
        then _check_positive_values record else Ok tt) ;;;
       (if is_some (w_technician_id vals)
        then _check_unique_technician db' record else Ok tt) ;;;
       Ok db')%result
  end.

(** [search(domain, limit=1)] *)
Definition search1 (domain : settings -> bool) (db : table) : option settings :=
  find domain db.

(** [get_settings_for_technician]: the technician's record, else the
    global one, else a new default global record. *)
Definition get_settings_for_technician (technician : option Z) (db : table)
  : result (settings * table) :=
  match search1 (fun s => leaf_eq (technician_id s) technician) db with
  | Some technician_settings => Ok (technician_settings, db)
  | None =>
      match search1 (fun s => leaf_eq (technician_id s) None) db with
      | Some global_settings => Ok (global_settings, db)
      | None =>
          create {| v_technician_id := None;
                    v_working_hours_start := Some (Num 8);
                    v_working_hours_end := Some (Num 17);
                    v_working_days := Some (Some "1,2,3,4,5"%string);
                    v_max_daily_appointments := Some 8;
                    v_default_duration := Some (Num 1);
                    v_advance_booking_days := Some 30;
                    v_buffer_time := Some (Num (1 # 2)) |} db
      end
  end.

(** [get_working_days_list]; [None] for the [ValueError] of a string
    that does not parse. *)
Definition get_working_days_list (s : settings) : option (list Z) :=
  match working_days s with
  | None | Some EmptyString => Some [1; 2; 3; 4; 5]
  | Some str => parse_days (split_comma str)
  end.

(** [date.isoweekday()]: Monday is 1, Sunday is 7. *)
Definition isoweekday (date : datetime) : Z := weekday date + 1.

(** [is_working_day] *)
Definition is_working_day (s : settings) (date : datetime) : option bool :=
  match get_working_days_list s with
  | Some working => Some (existsb (Z.eqb (isoweekday date)) working)
  | None => None
  end.

(** [is_working_hour] *)
Definition is_working_hour (s : settings) (time_float : pyfloat) : bool :=
  float_le (working_hours_start s) time_float
  && float_le time_float (working_hours_end s).

(** The tables the public operations build from the empty one. *)
Inductive reachable : table -> Prop :=
| reach_empty : reachable []
| reach_create vals db record db' :
    reachable db -> create vals db = Ok (record, db') -> reachable db'
| reach_write i vals db db' :
    reachable db -> write i vals db = Ok db' -> reachable db'
| reach_get technician db record db' :
    reachable db ->
    get_settings_for_technician technician db = Ok (record, db') ->
    reachable db'.

End WithInt.

End AppointmentSettings.

(** * Definitions used by the statements *)

Section CancelStatements.

Import AppointmentCancel.

(** The three flags a cancellation reason presets. *)
Definition flags (w : wizard) : bool * bool * bool :=
  (notify_customer w, notify_technician w, refund_required w).

(** The wizard after the user picked the reason [r] on the form. *)
Definition with_reason (r : option cancel_reason) (w : wizard) : wizard :=
  {| appointment_id := appointment_id w; reason := r;
     notify_customer := notify_customer w;
     notify_technician := notify_technician w;
     refund_required := refund_required w |}.

End CancelStatements.

Section LifecycleStatements.

Import SupportAppointment.


Inductive action : Type :=
| confirm
| start
| complete
| cancel.

(** The method behind each action and the status it writes. *)
Definition run (act : action) : appointment -> appointment :=
  match act with
  | confirm => action_confirm
  | start => action_start
  | complete => action_complete
  | cancel => action_cancel_direct
  end.

Definition target (act : action) : appt_status :=
  match act with
  | confirm => confirmed
  | start => in_progress
  | complete => completed
  | cancel => cancelled
  end.

(** The same appointment with another status. *)
Definition with_status (s : appt_status) (a : appointment) : appointment :=
  {| id := id a; customer_id := customer_id a;
     technician_id := technician_id a;
     scheduled_date := scheduled_date a; duration := duration a;
     status := s;
     send_confirmation_email := send_confirmation_email a;
     send_reminder_email := send_reminder_email a;
     confirmation_sent := confirmation_sent a;
     reminder_sent := reminder_sent a;
     end_datetime := end_datetime a |}.

(** A sample appointment: technician 7, customer 3, one hour from
    1970-01-12 09:00 (a Monday). *)
Definition sample (i : Z) (s : appt_status) : appointment :=
  {| id := i; customer_id := Some 3; technician_id := Some 7;
     scheduled_date := Some 982800; duration := 3600; status := s;
     send_confirmation_email := false; send_reminder_email := true;
     confirmation_sent := false; reminder_sent := false;
     end_datetime := Some 986400 |}.

End LifecycleStatements.

(** A sample environment at time [t]: user 1 is a support manager, users 7
    and 8 are support technicians, both mail templates exist. *)
Definition sample_env (t : datetime) : env :=
  {| now := t; uid := 1;
     group_support_manager := fun u => u =? 1;
     group_support_technician := fun u => (u =? 7) || (u =? 8);
     template_confirmation := true;
     template_reminder := true |}.

Section RescheduleStatements.

Import AppointmentReschedule SupportAppointment.

(** The technician of the appointment after the reschedule: the new one
    when the wizard names one, else the current one. *)
Definition technician_after (w : wizard) (a : appointment) : option Z :=
  or_else (new_technician_id w) (technician_id a).

(** The conflict query for the new (technician, interval) of a reschedule,
    the target itself left out. *)
Definition reschedule_conflicts (db : table) (w : wizard) (a : appointment)
    (nd : datetime) : table :=
  find_conflicts db (technician_after w a) (Some nd) (Some (nd + duration a))
                 (Some (Some (id a))).

(** A reschedule wizard for the appointment [i], to the date [nd], keeping
    the technician. *)
Definition sample_reschedule (i : Z) (nd : datetime) : wizard :=
  {| appointment_id := i; current_date := Some 982800;
     current_technician := Some 7; new_date := Some nd;
     new_technician_id := None; notify_customer := true;
     notify_technician := true; conflicts_found := false |}.

(** The sample appointment with no duration: its stored end is empty. *)
Definition sample_zero (i : Z) (s : appt_status) : appointment :=
  {| id := i; customer_id := Some 3; technician_id := Some 7;
     scheduled_date := Some 1069200; duration := 0; status := s;
     send_confirmation_email := false; send_reminder_email := true;
     confirmation_sent := false; reminder_sent := false;
     end_datetime := None |}.

End RescheduleStatements.

Section BookingStatements.

Import SupportAppointment.

(** No technician is double-booked: two different appointments of one
    technician, both confirmed or in_progress, never have overlapping
    half-open intervals (s1 < e2 and s2 < e1). *)
Definition no_double_booking (db : table) : Prop :=
  forall a b sa ea sb eb,
    In a db -> In b db -> id a <> id b ->
    technician_id a = technician_id b ->
    blocking (status a) = true -> blocking (status b) = true ->
    scheduled_date a = Some sa -> end_datetime a = Some ea ->
    scheduled_date b = Some sb -> end_datetime b = Some eb ->
    ~ (sa < eb /\ sb < ea).

(** The values of a one-hour draft appointment of technician 7 for
    customer 3 that starts at [s]. *)
Definition draft_vals (s : datetime) : create_vals :=
  {| v_customer_id := Some 3; v_technician_id := Some 7;
     v_scheduled_date := Some s; v_duration := Some 3600;
     v_status := Some draft;
     v_send_confirmation_email := None; v_send_reminder_email := None |}.

(** Two drafts of technician 7 on 1970-01-12, 09:00-10:00 and 09:30-10:30,
    are created and then both confirmed. *)
Definition two_drafts_confirmed : result table :=
  (p1 <- create (sample_env 0) (draft_vals 982800) [] ;;
   p2 <- create (sample_env 0) (draft_vals 984600) (snd p1) ;;
   db3 <- call action_confirm (id (fst p1)) (snd p2) ;;
   call action_confirm (id (fst p2)) db3)%result.

(** The same requests in the other order: the first draft is confirmed
    before the second is created. *)
Definition confirm_then_create : result (appointment * table) :=
  (p1 <- create (sample_env 0) (draft_vals 982800) [] ;;
   db2 <- call action_confirm (id (fst p1)) (snd p1) ;;
   create (sample_env 0) (draft_vals 984600) db2)%result.

(** A one-hour appointment of technician 7 without reminder, as
    [draft_vals] creates it. *)
Definition booked (i : Z) (s : datetime) (st : appt_status) : appointment :=
  {| id := i; customer_id := Some 3; technician_id := Some 7;
     scheduled_date := Some s; duration := 3600; status := st;
     send_confirmation_email := false; send_reminder_email := false;
     confirmation_sent := false; reminder_sent := false;
     end_datetime := Some (s + 3600) |}.

End BookingStatements.

Section ReminderStatements.

Import SupportAppointment.

(** The window of the reminder sweep run at [e]: the day of now + 24h. *)
Definition reminder_window (e : env) : datetime * datetime :=
  (midnight (now e + hours 24), midnight (now e + hours 24) + days 1).

(** Two sweeps in a row, the second on the table the first left; the mails
    of both. *)
Definition sweep_twice (e1 e2 : env) (db : table) : table * list Z :=
  let (db1, mails1) := check_upcoming_reminders e1 db in
  let (db2, mails2) := check_upcoming_reminders e2 db1 in
  (db2, mails1 ++ mails2).

(** The confirmed sample appointment on 1970-01-12 09:00 with the reminder
    asked for, as the sweep of 1970-01-11 10:00 finds it. *)
Definition reminder_table : table := [sample 1 confirmed; sample 2 draft].

(** 1970-01-11 10:00, the day before the sample appointment. *)
Definition day_before : datetime := 900000.

End ReminderStatements.

(** ** The slot suggestions, as the algorithm is described *)

(** The hourly slots of one day, none on Saturday or Sunday. *)
Definition day_slots (start_date : datetime) (day_offset : Z) : list datetime :=
  let check_date := start_date + days day_offset in
  if 5 <=? weekday check_date then []
  else map (fun hour => replace_hour hour check_date) (range 8 17).

(** Every candidate of the seven days, day by day and hour by hour. *)
Definition slot_grid (start_date : datetime) : list datetime :=
  flat_map (day_slots start_date) (range 0 7).

(** The first five candidates that are not skipped and are free. *)
Definition first_five (skip free : datetime -> bool) (start_date : datetime)
  : list datetime :=
  firstn 5 (filter (fun s => negb (skip s) && free s) (slot_grid start_date)).

(** What holds of a list of suggestions computed at [e]: at most five, in
    chronological order, each at a whole hour from 8 to 16 of a weekday
    among today and the six days after, hence not before 08:00 today, and
    each free. *)
Definition suggestions_ok (e : env) (free : datetime -> Prop)
    (slots : list datetime) : Prop :=
  (length slots <= 5)%nat
  /\ StronglySorted Z.lt slots
  /\ forall slot, In slot slots ->
       (exists d h, 0 <= d < 7 /\ 8 <= h < 17
                    /\ slot = midnight (now e) + days d + hours h)
       /\ weekday slot < 5
       /\ midnight (now e) + hours 8 <= slot
       /\ free slot.

(** A quick-create wizard for technician 7 and a one-hour appointment. *)
Definition sample_wizard : AppointmentQuickCreateWizard.wizard :=
  {| AppointmentQuickCreateWizard.customer_id := Some 3;
     AppointmentQuickCreateWizard.technician_id := Some 7;
     AppointmentQuickCreateWizard.scheduled_date := Some 982800;
     AppointmentQuickCreateWizard.duration := 3600;
     AppointmentQuickCreateWizard.send_confirmation_email := false;
     AppointmentQuickCreateWizard.send_reminder_email := false;
     AppointmentQuickCreateWizard.conflicts_found := false |}.

(** Monday 1970-01-12 at 15:30. *)
Definition monday_afternoon : datetime := 1006200.

Section SettingsStatements.

Import AppointmentSettings.

(** At most one settings record per technician. *)
Definition one_per_technician (db : table) : Prop :=
  forall a b t,
    In a db -> In b db ->
    technician_id a = Some t -> technician_id b = Some t -> a = b.

(** At most one global (technician-less) settings record. *)
Definition one_global (db : table) : Prop :=
  forall a b,
    In a db -> In b db ->
    technician_id a = None -> technician_id b = None -> a = b.

(** What the operations keep: the ids are unique, and two rows with the
    same technician have the same id. *)
Definition settings_invariant (db : table) : Prop :=
  NoDup (map id db)
  /\ forall a b t, In a db -> In b db ->
                   technician_id a = Some t -> technician_id b = Some t ->
                   id a = id b.

(** [int] on the one-digit strings, enough for the default working days. *)
Definition digit_int (s : string) : option Z :=
  match s with
  | String c EmptyString =>
      let n := Z.of_nat (nat_of_ascii c) - 48 in
      if (0 <=? n) && (n <=? 9) then Some n else None
  | _ => None
  end.

(** The values of a settings record of the technician [t] (or a global one)
    with every other field at its default. *)
Definition settings_vals (t : option Z) : create_vals :=
  {| v_technician_id := t; v_working_hours_start := None;
     v_working_hours_end := None; v_working_days := None;
     v_max_daily_appointments := None; v_default_duration := None;
     v_advance_booking_days := None; v_buffer_time := None |}.

(** The default settings record with the id [i] and the technician [t]. *)
Definition default_settings (i : Z) (t : option Z) : settings :=
  {| id := i; technician_id := t;
     working_hours_start := Num 8; working_hours_end := Num 17;
     working_days := Some "1,2,3,4,5"%string;
     max_daily_appointments := 8; default_duration := Num 1;
     advance_booking_days := 30; buffer_time := Num (1 # 2) |}.

End SettingsStatements.

(** * Definitions used by the further statements *)

Section CreationStatements.

Import SupportAppointment.

(** The values of an appointment of technician [t] for customer [c] that
    starts at [s] and lasts [d], with status [st]. *)
Definition booking_vals (c t : Z) (s : datetime) (d : Z) (st : appt_status)
  : create_vals :=
  {| v_customer_id := Some c; v_technician_id := Some t;
     v_scheduled_date := Some s; v_duration := Some d;
     v_status := Some st;
     v_send_confirmation_email := None; v_send_reminder_email := None |}.

(** The ids are unique and no technician is double-booked. *)
Definition booking_invariant (db : table) : Prop :=
  NoDup (map id db) /\ no_double_booking db.

(** A write names one of the fields of the scheduling constraint. *)
Definition names_schedule (vals : write_vals) : bool :=
  is_some (w_scheduled_date vals) || is_some (w_technician_id vals)
  || is_some (w_duration vals).

End CreationStatements.

Section WizardStatements.

Import AppointmentQuickCreateWizard.

(** The wizard after the date [s] was entered on the form. *)
Definition with_scheduled_date (s : datetime) (w : wizard) : wizard :=
  {| customer_id := customer_id w; technician_id := technician_id w;
     scheduled_date := Some s; duration := duration w;
     send_confirmation_email := send_confirmation_email w;
     send_reminder_email := send_reminder_email w;
     conflicts_found := conflicts_found w |}.

(** Monday 1970-01-12 at 07:00. *)
Definition monday_morning : datetime := 975600.

End WizardStatements.

Section FlagStatements.

Import SupportAppointment.

(** The confirmed sample appointment 1 after its reminder was sent. *)
Definition reminded_sample : appointment :=
  fst (_send_reminder_email (sample_env 0) (sample 1 confirmed)).

(** The table with [reminded_sample] after its reschedule to 10:00. *)
Definition reminded_rescheduled : table :=
  commit [reminded_sample]
    (AppointmentReschedule.action_reschedule (sample_env 0)
       (sample_reschedule 1 986400) [reminded_sample]).

End FlagStatements.

Section EditStatements.

Import SupportAppointment.

(** The technician, the start and the duration an edit with the keys
    [vals] asks for. *)
Definition edited_technician (vals : write_vals) (a : appointment) : option Z :=
  match w_technician_id vals with
  | Some t => Some t
  | None => technician_id a
  end.

Definition edited_date (vals : write_vals) (s0 : datetime) : datetime :=
  default s0 (w_scheduled_date vals).

Definition edited_duration (vals : write_vals) (a : appointment) : Z :=
  default (duration a) (w_duration vals).

(** The edit names the date or the technician. *)
Definition names_date_or_technician (vals : write_vals) : bool :=
  is_some (w_scheduled_date vals) || is_some (w_technician_id vals).

(** The edit that moves an appointment to the date [s]. *)
Definition move_to (s : datetime) : write_vals :=
  {| w_status := None; w_technician_id := None; w_scheduled_date := Some s;
     w_duration := None; w_customer_id := None |}.

(** The appointments of the trailing week, as [generate_weekly_stats]
    selects them. *)
Definition this_week (e : env) (db : table) : list appointment :=
  search (fun a => leaf_ge (scheduled_date a) (Some (now e - days 7))
                   && leaf_le (scheduled_date a) (Some (now e))) db.

(** The sample environment at time [t] as user 8 sees it: a technician
    who is not a manager. *)
Definition technician_env (t : datetime) : env :=
  {| now := t; uid := 8;
     group_support_manager := fun u => u =? 1;
     group_support_technician := fun u => (u =? 7) || (u =? 8);
     template_confirmation := true;
     template_reminder := true |}.



End EditStatements.

Section SettingsValidity.

Import AppointmentSettings.

(** A working hour as [_check_working_hours] lets it through: a number
    from 0 to 24, or NaN. *)
Definition hour_or_nan (x : pyfloat) : Prop :=
  x = NaN \/ exists q, x = Num q /\ (0 <= q)%Q /\ (q <= 24)%Q.

(** A settings record whose working hours are NaN or inside the day, with
    the start before the end when both are numbers, and with positive
    limits. *)
Definition valid_settings (s : settings) : Prop :=
  hour_or_nan (working_hours_start s)
  /\ hour_or_nan (working_hours_end s)
  /\ (forall p q, working_hours_start s = Num p ->
                  working_hours_end s = Num q -> (p < q)%Q)
  /\ 0 < max_daily_appointments s
  /\ 0 < advance_booking_days s.

(** The values of a global record whose working hours start at NaN, with
    no working days and every other field at its default. *)
Definition nan_start_vals : create_vals :=
  {| v_technician_id := None; v_working_hours_start := Some NaN;
     v_working_hours_end := None; v_working_days := Some None;
     v_max_daily_appointments := None; v_default_duration := None;
     v_advance_booking_days := None; v_buffer_time := None |}.

End SettingsValidity.

Section ConsistencyStatements.

Import AppointmentReschedule SupportAppointment.

(** Every stored end is the one computed from the stored start and
    duration. *)
Definition ends_consistent (db : table) : Prop :=
  forall a, In a db ->
    end_datetime a = _compute_end_datetime (scheduled_date a) (duration a).

(** The reschedule wizard after the date [s] was entered on the form. *)
Definition with_new_date (s : datetime) (w : wizard) : wizard :=
  {| appointment_id := appointment_id w; current_date := current_date w;
     current_technician := current_technician w; new_date := Some s;
     new_technician_id := new_technician_id w;
     notify_customer := notify_customer w;
     notify_technician := notify_technician w;
     conflicts_found := conflicts_found w |}.

End ConsistencyStatements.

(** * Properties *)

(** ** Domain leaves and recordsets *)

Lemma leaf_lt_spec (column value : option Z) :
  leaf_lt column value = true <->
  exists c v, column = Some c /\ value = Some v /\ c < v.
Proof.
  destruct column as [c|], value as [v|]; simpl; split;
    try discriminate; try (intros (c' & v' & H1 & H2 & _); discriminate).
  - intros H. exists c, v. apply Z.ltb_lt in H. auto.
  - intros (c' & v' & H1 & H2 & H3). inversion H1; inversion H2; subst.
    now apply Z.ltb_lt.
Qed.

Lemma leaf_gt_spec (column value : option Z) :
  leaf_gt column value = true <->
  exists c v, column = Some c /\ value = Some v /\ v < c.
Proof.
  destruct column as [c|], value as [v|]; simpl; split;
    try discriminate; try (intros (c' & v' & H1 & H2 & _); discriminate).
  - intros H. exists c, v. apply Z.ltb_lt in H. auto.
  - intros (c' & v' & H1 & H2 & H3). inversion H1; inversion H2; subst.
    now apply Z.ltb_lt.
Qed.

Lemma leaf_eq_Some (column : option Z) (v : Z) :
  leaf_eq column (Some v) = true <-> column = Some v.
Proof.
  destruct column as [c|]; simpl; split; try discriminate.
  - intros H. apply Z.eqb_eq in H. now subst.
  - intros H. inversion H. apply Z.eqb_refl.
Qed.

Lemma leaf_id_ne_spec (i : Z) (value : option Z) :
  leaf_id_ne i value = true <-> value <> Some i.
Proof.
  destruct value as [v|]; simpl.
  - rewrite negb_true_iff, Z.eqb_neq. split; intros H; congruence.
  - split; [discriminate | reflexivity].
Qed.

Lemma truthy_false {A : Type} (l : list A) : truthy l = false <-> l = [].
Proof. destruct l; simpl; split; congruence. Qed.

Lemma blocking_spec (s : SupportAppointment.appt_status) :
  SupportAppointment.blocking s = true <->
  s = SupportAppointment.confirmed \/ s = SupportAppointment.in_progress.
Proof.
  destruct s; simpl; split; intros H; auto; try discriminate;
    destruct H; discriminate.
Qed.

Lemma appt_status_eqb_spec (a b : SupportAppointment.appt_status) :
  SupportAppointment.appt_status_eqb a b = true <-> a = b.
Proof. destruct a, b; simpl; split; congruence. Qed.

(** ** Reason-based defaults of the cancellation wizard *)

Section ReasonDefaults.

Import AppointmentCancel.

(** C7: selecting a cancellation reason presets (notify_customer,
    notify_technician, refund_required): customer_request gives (false,
    true, true), technician_unavailable (true, false, false), rescheduled
    (false, false, false), and every other reason (also an empty
    selection) (true, true, false), whatever the flags were before; the
    reason and the appointment of the wizard are kept. *)
Theorem reason_defaults_table (w : wizard) :
  flags (_onchange_reason_defaults (with_reason (Some customer_request) w))
    = (false, true, true)
  /\ flags (_onchange_reason_defaults (with_reason (Some technician_unavailable) w))
    = (true, false, false)
  /\ flags (_onchange_reason_defaults (with_reason (Some rescheduled) w))
    = (false, false, false)
  /\ (forall r,
        In r [Some customer_unavailable; Some emergency; Some equipment_issue;
              Some weather; Some duplicate; Some other; None] ->
        flags (_onchange_reason_defaults (with_reason r w)) = (true, true, false))
  /\ (forall r,
        reason (_onchange_reason_defaults (with_reason r w)) = r
        /\ appointment_id (_onchange_reason_defaults (with_reason r w))
           = appointment_id w).
Proof.
  repeat split; try reflexivity.
  - intros r Hr. simpl in Hr.
    repeat (destruct Hr as [<- | Hr]; [reflexivity|]). contradiction.
  - destruct r as [[]|]; reflexivity.
  - destruct r as [[]|]; reflexivity.
Qed.

End ReasonDefaults.

(** ** The status lifecycle *)

Section Lifecycle.

Import SupportAppointment.




End Lifecycle.

(** ** The conflict query *)

Section ConflictQuery.

Import SupportAppointment.

Lemma conflict_domain_spec (tech : Z) (s1 e1 : datetime)
    (excl : option (option Z)) (a : appointment) :
  conflict_domain (Some tech) (Some s1) (Some e1) excl a = true <->
  technician_id a = Some tech
  /\ (status a = confirmed \/ status a = in_progress)
  /\ (exists s2 e2, scheduled_date a = Some s2 /\ end_datetime a = Some e2
                    /\ s1 < e2 /\ s2 < e1)
  /\ excl <> Some (Some (id a)).
Proof.
  unfold conflict_domain.
  rewrite !andb_true_iff, leaf_eq_Some, leaf_lt_spec, leaf_gt_spec,
    blocking_spec.
  assert (Hx : match excl with
               | Some x => leaf_id_ne (id a) x
               | None => true
               end = true <-> excl <> Some (Some (id a))).
  { destruct excl as [x|].
    - rewrite leaf_id_ne_spec. split; intros H; congruence.
    - split; [discriminate | reflexivity]. }
  rewrite Hx. split.
  - intros ((((Ht & (s2 & e1' & Hs & He1 & Hlt)) & (e2 & s1' & He & Hs1 & Hgt))
              & Hb) & Hex).
    inversion He1; inversion Hs1; subst.
    repeat split; auto. exists s2, e2. auto.
  - intros (Ht & Hb & (s2 & e2 & Hs & He & H1 & H2) & Hex).
    repeat split; auto.
    + exists s2, e1. auto.
    + exists e2, s1. auto.
Qed.

(** A row whose stored [end_datetime] is empty satisfies no conflict
    domain. *)
Lemma conflict_domain_no_end (tech : option Z) (s1 e1 : option datetime)
    (excl : option (option Z)) (a : appointment) :
  end_datetime a = None -> conflict_domain tech s1 e1 excl a = false.
Proof.
  intros H. unfold conflict_domain. rewrite H.
  destruct (leaf_eq (technician_id a) tech), (leaf_lt (scheduled_date a) e1);
    reflexivity.
Qed.

(** A search whose interval has no end selects nothing. *)
Lemma find_conflicts_no_end (db : table) (tech : option Z)
    (s1 : option datetime) (excl : option (option Z)) :
  find_conflicts db tech s1 None excl = [].
Proof.
  unfold find_conflicts, search.
  induction db as [|a db IH]; simpl; [reflexivity|].
  assert (H : conflict_domain tech s1 None excl a = false).
  { unfold conflict_domain.
    destruct (leaf_eq (technician_id a) tech), (scheduled_date a);
      reflexivity. }
  rewrite H. exact IH.
Qed.

(** C3: the conflict query over a technician and [s1, e1) returns exactly
    the rows of that technician with status confirmed or in_progress whose
    interval [s2, e2) satisfies s1 < e2 and s2 < e1, the row of the
    exclusion id left out; a row that ends exactly at s1 or starts exactly
    at e1 is never returned, and the excluded row is never returned.  The
    reschedule wizard raises its conflict flag exactly when this query,
    run for its technician and new interval without the appointment
    itself, returns a row, and the model constraint on a record dated in
    the future passes exactly when the query for the record returns none. *)
Theorem conflict_query_exact (db : table) (tech : Z) (s1 e1 : datetime)
    (excl : option (option Z)) (a : appointment) (e : env) :
  (In a (find_conflicts db (Some tech) (Some s1) (Some e1) excl) <->
   In a db
   /\ technician_id a = Some tech
   /\ (status a = confirmed \/ status a = in_progress)
   /\ (exists s2 e2, scheduled_date a = Some s2 /\ end_datetime a = Some e2
                     /\ s1 < e2 /\ s2 < e1)
   /\ excl <> Some (Some (id a)))
  /\ (end_datetime a = Some s1 ->
      ~ In a (find_conflicts db (Some tech) (Some s1) (Some e1) excl))
  /\ (scheduled_date a = Some e1 ->
      ~ In a (find_conflicts db (Some tech) (Some s1) (Some e1) excl))
  /\ ~ In a (find_conflicts db (Some tech) (Some s1) (Some e1)
                            (Some (Some (id a))))
  /\ (forall w : AppointmentReschedule.wizard,
        AppointmentReschedule.new_technician_id w = Some tech ->
        AppointmentReschedule.new_date w = Some s1 ->
        e1 = s1 + AppointmentReschedule.duration db w ->
        exists w',
          AppointmentReschedule._check_reschedule_conflicts db w = Ok w'
          /\ AppointmentReschedule.conflicts_found w'
             = truthy (find_conflicts db (Some tech) (Some s1) (Some e1)
                         (Some (Some (AppointmentReschedule.appointment_id w)))))
  /\ (scheduled_date a = Some s1 -> now e < s1 ->
      (_check_appointment_validity e db a = Ok tt <->
       find_conflicts db (technician_id a) (Some s1) (end_datetime a)
                      (Some (Some (id a))) = [])).
Proof.
  assert (Hiff : forall x,
    In a (find_conflicts db (Some tech) (Some s1) (Some e1) x) <->
    In a db
    /\ technician_id a = Some tech
    /\ (status a = confirmed \/ status a = in_progress)
    /\ (exists s2 e2, scheduled_date a = Some s2 /\ end_datetime a = Some e2
                      /\ s1 < e2 /\ s2 < e1)
    /\ x <> Some (Some (id a))).
  { intros x. unfold find_conflicts, search.
    rewrite filter_In, conflict_domain_spec. tauto. }
  split; [apply Hiff|].
  split; [|split; [|split; [|split]]].
  - intros He Hin. apply Hiff in Hin.
    destruct Hin as (_ & _ & _ & (s2 & e2 & _ & He2 & Hlt & _) & _).
    rewrite He in He2. inversion He2. lia.
  - intros Hs Hin. apply Hiff in Hin.
    destruct Hin as (_ & _ & _ & (s2 & e2 & Hs2 & _ & _ & Hlt) & _).
    rewrite Hs in Hs2. inversion Hs2. lia.
  - intros Hin. apply Hiff in Hin.
    destruct Hin as (_ & _ & _ & _ & Hne). now apply Hne.
  - intros w Ht Hd ->.
    unfold AppointmentReschedule._check_reschedule_conflicts.
    rewrite Ht, Hd. simpl. eexists. split; reflexivity.
  - intros Hs Hlt. unfold _check_appointment_validity. rewrite Hs.
    assert (Hnow : (s1 <=? now e) = false) by (apply Z.leb_gt; lia).
    rewrite Hnow.
    destruct (find_conflicts db (technician_id a) (Some s1) (end_datetime a)
                (Some (Some (id a)))); simpl; split; congruence.
Qed.

End ConflictQuery.

(** ** Rows of the appointment table *)

Section Rows.

Import SupportAppointment.

Lemma browse_Some (i : Z) (db : table) (a : appointment) :
  browse i db = Some a -> In a db /\ id a = i.
Proof.
  unfold browse. intros H. apply find_some in H.
  destruct H as [Hin Hid]. apply Z.eqb_eq in Hid. auto.
Qed.

Lemma browse_update (i : Z) (db : table) (a r : appointment) :
  browse i db = Some a -> id r = i -> browse i (update i r db) = Some r.
Proof.
  unfold browse, update. intros H Hr.
  induction db as [|x db IH]; simpl in *; [discriminate|].
  destruct (id x =? i) eqn:Hx.
  - rewrite Hr, Z.eqb_refl. reflexivity.
  - rewrite Hx. auto.
Qed.

Lemma In_update (i : Z) (db : table) (r x : appointment) :
  In x (update i r db) ->
  (x = r /\ exists a, In a db /\ id a = i) \/ (In x db /\ id x <> i).
Proof.
  unfold update. intros H. apply in_map_iff in H.
  destruct H as (a & Ha & Hin).
  destruct (id a =? i) eqn:Hi.
  - left. split; [auto|]. exists a. apply Z.eqb_eq in Hi. auto.
  - right. subst x. apply Z.eqb_neq in Hi. auto.
Qed.

(** The conflict search that leaves the row [i] out does not see what
    [update i] changed. *)
Lemma find_conflicts_update (i : Z) (r : appointment) (db : table)
    (tech : option Z) (s1 e1 : option datetime) :
  id r = i ->
  find_conflicts (update i r db) tech s1 e1 (Some (Some i))
  = find_conflicts db tech s1 e1 (Some (Some i)).
Proof.
  intros Hr. unfold find_conflicts, search, update.
  induction db as [|x db IH]; simpl; [reflexivity|].
  destruct (id x =? i) eqn:Hx.
  - assert (H1 : conflict_domain tech s1 e1 (Some (Some i)) r = false).
    { unfold conflict_domain. simpl. rewrite Hr, Z.eqb_refl. simpl.
      now rewrite andb_false_r. }
    assert (H2 : conflict_domain tech s1 e1 (Some (Some i)) x = false).
    { unfold conflict_domain. simpl. rewrite Hx. simpl.
      now rewrite andb_false_r. }
    rewrite H1, H2. exact IH.
  - destruct (conflict_domain tech s1 e1 (Some (Some i)) x); simpl;
      now rewrite IH.
Qed.

End Rows.

(** ** Appointments without a duration *)

Section ZeroDuration.

Import SupportAppointment.

(** C10: with a duration of 0, or without a scheduled date, the derived
    end_datetime is False and not scheduled_date + duration; a row in that
    state satisfies no conflict search, whatever its status; and the model
    accepts a duration of 0 both in create (any status, also confirmed,
    and whatever the table holds) and in write, the only tests being the
    date in the future and the technician group. *)
Theorem zero_duration_never_conflicts :
  (forall s, _compute_end_datetime s 0 = None)
  /\ (forall d, _compute_end_datetime None d = None)
  /\ (forall s d, d <> 0 -> _compute_end_datetime (Some s) d = Some (s + d))
  /\ (forall a db tech s1 e1 excl,
        end_datetime a = _compute_end_datetime (scheduled_date a) (duration a) ->
        duration a = 0 \/ scheduled_date a = None ->
        ~ In a (find_conflicts db tech s1 e1 excl))
  /\ (forall e db c t s st,
        now e < s -> group_support_technician e t = true ->
        exists a,
          create e {| v_customer_id := Some c; v_technician_id := Some t;
                      v_scheduled_date := Some s; v_duration := Some 0;
                      v_status := Some st;
                      v_send_confirmation_email := None;
                      v_send_reminder_email := None |} db
          = Ok (a, db ++ [a])
          /\ duration a = 0 /\ end_datetime a = None /\ status a = st)
  /\ (forall e db i a s,
        browse i db = Some a -> scheduled_date a = Some s -> now e < s ->
        exists a',
          write e i {| w_status := None; w_technician_id := None;
                       w_scheduled_date := None; w_duration := Some 0;
                       w_customer_id := None |} db
          = Ok (update i a' db)
          /\ browse i (update i a' db) = Some a'
          /\ duration a' = 0 /\ end_datetime a' = None).
Proof.
  split; [intros [s|]; reflexivity|].
  split; [reflexivity|].
  split.
  { intros s d Hd. unfold _compute_end_datetime.
    apply Z.eqb_neq in Hd. now rewrite Hd. }
  split.
  { intros a db tech s1 e1 excl Hend Hz Hin.
    assert (He : end_datetime a = None).
    { rewrite Hend. destruct Hz as [Hz | Hz]; rewrite Hz.
      - destruct (scheduled_date a); reflexivity.
      - reflexivity. }
    unfold find_conflicts, search in Hin. apply filter_In in Hin.
    destruct Hin as [_ Hdom].
    rewrite (conflict_domain_no_end tech s1 e1 excl a He) in Hdom.
    discriminate. }
  split.
  { intros e db c t s st Hs Ht. eexists.
    unfold create. simpl.
    unfold _check_appointment_validity. simpl.
    assert (Hnow : (s <=? now e) = false) by (apply Z.leb_gt; lia).
    rewrite Hnow, find_conflicts_no_end. simpl.
    unfold _check_technician_group. simpl. rewrite Ht. simpl.
    repeat split. }
  { intros e db i a s Hb Hsd Hs.
    destruct (browse_Some _ _ _ Hb) as [_ Hid].
    eexists. unfold write. rewrite Hb. simpl.
    unfold _check_appointment_validity. simpl. rewrite Hsd.
    assert (Hnow : (s <=? now e) = false) by (apply Z.leb_gt; lia).
    rewrite Hnow, find_conflicts_no_end. simpl.
    split; [reflexivity|].
    split; [apply (browse_update i db a); [exact Hb | exact Hid]|].
    split; [reflexivity | simpl; rewrite Hsd; reflexivity]. }
Qed.

End ZeroDuration.

(** ** The model constraints *)

Section Constraints.

Import SupportAppointment.

Lemma bind_Ok {A B : Type} (m : result A) (k : A -> result B) (b : B) :
  bind m k = Ok b <-> exists a, m = Ok a /\ k a = Ok b.
Proof.
  destruct m as [a|x]; simpl; split.
  - intros H. exists a. auto.
  - intros (a' & Ha & Hk). inversion Ha. now subst.
  - discriminate.
  - intros (a' & Ha & _). discriminate.
Qed.

(** [_check_appointment_validity] passes exactly when the date is set and
    strictly in the future and the conflict search is empty. *)
Lemma check_appointment_validity_Ok (e : env) (db : table) (r : appointment) :
  _check_appointment_validity e db r = Ok tt <->
  exists s, scheduled_date r = Some s /\ now e < s
            /\ find_conflicts db (technician_id r) (Some s) (end_datetime r)
                              (Some (Some (id r))) = [].
Proof.
  unfold _check_appointment_validity.
  destruct (scheduled_date r) as [s|]; split.
  - destruct (s <=? now e) eqn:Hs; [discriminate|].
    destruct (truthy _) eqn:Ht; [discriminate|].
    intros _. exists s. apply Z.leb_gt in Hs. apply truthy_false in Ht. auto.
  - intros (s' & Hs' & Hlt & Hnil). inversion Hs'; subst s'.
    assert (Hs : (s <=? now e) = false) by (apply Z.leb_gt; lia).
    now rewrite Hs, Hnil.
  - discriminate.
  - intros (s' & Hs' & _). discriminate.
Qed.

Lemma check_technician_group_Ok (e : env) (r : appointment) :
  _check_technician_group e r = Ok tt <->
  forall t, technician_id r = Some t -> group_support_technician e t = true.
Proof.
  unfold _check_technician_group.
  destruct (technician_id r) as [t|]; split.
  - destruct (group_support_technician e t) eqn:Hg; [|discriminate].
    intros _ t' Ht'. inversion Ht'. now subst.
  - intros H. now rewrite (H t eq_refl).
  - intros _ t Ht. discriminate.
  - reflexivity.
Qed.

(** A write of the status alone runs no constraint. *)
Lemma write_status_only (e : env) (i : Z) (s : appt_status) (db : table)
    (a : appointment) :
  browse i db = Some a ->
  write e i {| w_status := Some s; w_technician_id := None;
               w_scheduled_date := None; w_duration := None;
               w_customer_id := None |} db
  = Ok (update i (with_status s a) db).
Proof. intros H. unfold write. rewrite H. reflexivity. Qed.

End Constraints.

(** ** The cancellation wizard *)

Section Cancellation.

Import SupportAppointment AppointmentCancel.

Lemma validate_cancellation_in_progress (e : env) (a : appointment) :
  status a = in_progress ->
  _validate_cancellation e a
  = if can_edit e a
    then Raise (UserError
                  "This appointment is currently in progress. Please contact the technician before cancelling.")
    else Raise (ValidationError
                  "You do not have permission to cancel this appointment.").
Proof.
  intros H. unfold _validate_cancellation. rewrite H. simpl.
  destruct (can_edit e a); reflexivity.
Qed.

(** C6 as stated fails on its in_progress part: no reason and no setting of
    the flags lets the wizard cancel an in_progress appointment, so there
    is nothing the operator can acknowledge to then proceed.  For the
    manager of the sample environment the call raises the UserError
    whatever the wizard holds. *)
Lemma in_progress_has_no_acknowledgement :
  (forall r nc nt rr,
     action_cancel_appointment (sample_env 0)
       {| appointment_id := 1; reason := r; notify_customer := nc;
          notify_technician := nt; refund_required := rr |}
       [sample 1 in_progress]
     = Raise (UserError
                "This appointment is currently in progress. Please contact the technician before cancelling."))
  /\ ~ (exists e w db a db',
          browse (appointment_id w) db = Some a
          /\ status a = in_progress
          /\ action_cancel_appointment e w db = Ok db').
Proof.
  split; [reflexivity|].
  intros (e & w & db & a & db' & Hb & Hs & Hok).
  unfold action_cancel_appointment in Hok. rewrite Hb in Hok.
  rewrite (validate_cancellation_in_progress e a Hs) in Hok.
  destruct (can_edit e a); discriminate.
Qed.

(** C6, amended: the cancellation wizard always fails on a completed
    appointment and on an already cancelled one, whatever the reason and
    the flags; on an in_progress appointment it always fails as well, with
    the UserError that asks to contact the technician when the user may
    edit the appointment and with the permission error otherwise, and the
    wizard holds no acknowledgement that would let the operator proceed;
    in every rejection the table, and so the status of the appointment, is
    unchanged.  A draft or confirmed appointment that the user may edit is
    cancelled once a reason is chosen. *)
Theorem cancellation_rejections (e : env) (w : wizard) (db : table)
    (a : appointment) :
  browse (appointment_id w) db = Some a ->
  (status a = completed ->
   action_cancel_appointment e w db
   = Raise (ValidationError "Cannot cancel a completed appointment."))
  /\ (status a = cancelled ->
      action_cancel_appointment e w db
      = Raise (ValidationError "This appointment is already cancelled."))
  /\ (status a = in_progress ->
      action_cancel_appointment e w db
      = if can_edit e a
        then Raise (UserError
                      "This appointment is currently in progress. Please contact the technician before cancelling.")
        else Raise (ValidationError
                      "You do not have permission to cancel this appointment."))
  /\ (forall x, action_cancel_appointment e w db = Raise x ->
      commit db (action_cancel_appointment e w db) = db
      /\ browse (appointment_id w) (commit db (action_cancel_appointment e w db))
         = Some a)
  /\ (status a = draft \/ status a = confirmed ->
      can_edit e a = true -> reason w <> None ->
      action_cancel_appointment e w db
      = Ok (update (appointment_id w) (with_status cancelled a) db)).
Proof.
  intros Hb. unfold action_cancel_appointment. rewrite Hb.
  split; [|split; [|split; [|split]]].
  - intros Hs. unfold _validate_cancellation. now rewrite Hs.
  - intros Hs. unfold _validate_cancellation. now rewrite Hs.
  - intros Hs. rewrite (validate_cancellation_in_progress e a Hs).
    destruct (can_edit e a); reflexivity.
  - intros x Hx. rewrite Hx. simpl. auto.
  - intros Hs Hedit Hr.
    unfold _validate_cancellation. rewrite Hedit.
    rewrite (write_status_only e _ cancelled db a Hb).
    unfold _log_cancellation.
    destruct (reason w); [|congruence].
    destruct Hs as [Hs | Hs]; rewrite Hs; reflexivity.
Qed.

(** The rejections of [cancellation_rejections] on the sample table: a
    completed appointment and a wizard with the reason customer_request. *)
Lemma cancellation_rejections_witness :
  action_cancel_appointment (sample_env 0)
    {| appointment_id := 1; reason := Some customer_request;
       notify_customer := false; notify_technician := true;
       refund_required := true |}
    [sample 1 completed]
  = Raise (ValidationError "Cannot cancel a completed appointment.").
Proof.
  apply (cancellation_rejections (sample_env 0)
           {| appointment_id := 1; reason := Some customer_request;
              notify_customer := false; notify_technician := true;
              refund_required := true |}
           [sample 1 completed] (sample 1 completed)); reflexivity.
Defined.

End Cancellation.

(** ** The reschedule wizard *)

Section Reschedule.

Import AppointmentReschedule SupportAppointment.

Lemma validate_reschedule_Ok (e : env) (w : wizard) (a : appointment) :
  _validate_reschedule e w a = Ok tt <->
  conflicts_found w = false
  /\ (exists nd, new_date w = Some nd /\ now e < nd)
  /\ status a <> completed /\ status a <> cancelled
  /\ can_edit e a = true.
Proof.
  unfold _validate_reschedule. split.
  - destruct (conflicts_found w); [discriminate|].
    destruct (new_date w) as [nd|]; [|discriminate].
    destruct (nd <=? now e) eqn:Hnd; [discriminate|].
    destruct (appt_status_eqb (status a) completed) eqn:Hc; [discriminate|].
    destruct (appt_status_eqb (status a) cancelled) eqn:Hx; [discriminate|].
    destruct (can_edit e a); [|discriminate].
    intros _. apply Z.leb_gt in Hnd.
    repeat split; auto.
    + exists nd. auto.
    + intros H. apply appt_status_eqb_spec in H. congruence.
    + intros H. apply appt_status_eqb_spec in H. congruence.
  - intros (Hf & (nd & Hnd & Hlt) & Hc & Hx & Hedit).
    rewrite Hf, Hnd, Hedit.
    assert (H1 : (nd <=? now e) = false) by (apply Z.leb_gt; lia).
    rewrite H1.
    destruct (status a); simpl; congruence.
Qed.

Lemma assign_update_vals (w : wizard) (a : appointment) (nd : datetime) :
  new_date w = Some nd ->
  id (assign (update_vals w) a) = id a
  /\ scheduled_date (assign (update_vals w) a) = Some nd
  /\ technician_id (assign (update_vals w) a) = technician_after w a
  /\ end_datetime (assign (update_vals w) a)
     = _compute_end_datetime (Some nd) (duration a)
  /\ duration (assign (update_vals w) a) = duration a
  /\ status (assign (update_vals w) a) = status a.
Proof.
  intros H. unfold assign, update_vals, technician_after, or_else. simpl.
  rewrite H. simpl. repeat split.
  destruct (new_technician_id w); reflexivity.
Qed.

(** [action_reschedule] succeeds exactly when the wizard validation, the
    model constraint on the rewritten row and the technician-group
    constraint all pass. *)
Lemma action_reschedule_Ok (e : env) (w : wizard) (db db' : table)
    (a : appointment) :
  browse (appointment_id w) db = Some a ->
  action_reschedule e w db = Ok db' <->
  conflicts_found w = false
  /\ status a <> completed /\ status a <> cancelled
  /\ can_edit e a = true
  /\ (forall t, new_technician_id w = Some t ->
                group_support_technician e t = true)
  /\ exists nd,
       new_date w = Some nd /\ now e < nd
       /\ find_conflicts db (technician_after w a) (Some nd)
                         (_compute_end_datetime (Some nd) (duration a))
                         (Some (Some (id a))) = []
       /\ db' = update (id a) (assign (update_vals w) a) db.
Proof.
  intros Hb. destruct (browse_Some _ _ _ Hb) as [_ Hid].
  unfold action_reschedule. rewrite Hb, bind_Ok. split.
  - intros ([] & Hval & Hw).
    apply validate_reschedule_Ok in Hval.
    destruct Hval as (Hf & (nd & Hnd & Hlt) & Hc & Hx & Hedit).
    destruct (assign_update_vals w a nd Hnd)
      as (Ha1 & Ha2 & Ha3 & Ha4 & Ha5 & Ha6).
    unfold write in Hw. rewrite Hb in Hw.
    apply bind_Ok in Hw. destruct Hw as ([] & Hchk & Hw).
    apply bind_Ok in Hw. destruct Hw as ([] & Hgrp & Hw).
    inversion Hw; subst db'; clear Hw.
    replace (is_some (w_scheduled_date (update_vals w))) with true in Hchk
      by (simpl; now rewrite Hnd).
    simpl in Hchk. apply check_appointment_validity_Ok in Hchk.
    destruct Hchk as (s & Hs & Hlt' & Hnil).
    rewrite Ha2 in Hs. inversion Hs; subst s.
    rewrite Ha1, Ha3, Ha4, <- Hid in Hnil.
    rewrite find_conflicts_update in Hnil by (now rewrite Ha1).
    repeat split; auto.
    + intros t Ht.
      replace (is_some (w_technician_id (update_vals w))) with true in Hgrp
        by (simpl; now rewrite Ht).
      apply check_technician_group_Ok with (t := t) in Hgrp; auto.
      rewrite Ha3. unfold technician_after. now rewrite Ht.
    + exists nd. rewrite <- Hid. repeat split; auto.
  - intros (Hf & Hc & Hx & Hedit & Hgrp & nd & Hnd & Hlt & Hnil & ->).
    destruct (assign_update_vals w a nd Hnd)
      as (Ha1 & Ha2 & Ha3 & Ha4 & Ha5 & Ha6).
    exists tt. split.
    + apply validate_reschedule_Ok. repeat split; auto. exists nd. auto.
    + unfold write. rewrite Hb.
      replace (is_some (w_scheduled_date (update_vals w))) with true
        by (simpl; now rewrite Hnd).
      simpl orb. cbv iota.
      assert (Hchk : _check_appointment_validity e
                       (update (appointment_id w) (assign (update_vals w) a) db)
                       (assign (update_vals w) a) = Ok tt).
      { apply check_appointment_validity_Ok. exists nd.
        rewrite Ha1, Ha3, Ha4, <- Hid.
        rewrite find_conflicts_update by (now rewrite Ha1).
        repeat split; assumption. }
      rewrite Hchk. simpl bind.
      assert (Hg : (if is_some (w_technician_id (update_vals w))
                    then _check_technician_group e (assign (update_vals w) a)
                    else Ok tt) = Ok tt).
      { simpl. destruct (new_technician_id w) as [t|] eqn:Ht; simpl; auto.
        apply check_technician_group_Ok. intros t' Ht'.
        rewrite Ha3 in Ht'. unfold technician_after in Ht'.
        rewrite Ht in Ht'. simpl in Ht'. inversion Ht'; subst. auto. }
      simpl in Hg. rewrite Hg. simpl. now rewrite Hid.
Qed.

(** C5 as stated fails for a target without duration: its stored end is
    empty, the conflict search of the model constraint then selects
    nothing, and the reschedule goes through although the new start lies
    inside a confirmed appointment of the same technician; the end after
    the reschedule is empty and not the new start plus the duration. *)
Lemma reschedule_of_zero_duration_is_not_checked :
  reschedule_conflicts [sample 1 confirmed; sample_zero 2 draft]
    (sample_reschedule 2 984600) (sample_zero 2 draft) 984600
  = [sample 1 confirmed]
  /\ action_reschedule (sample_env 0) (sample_reschedule 2 984600)
       [sample 1 confirmed; sample_zero 2 draft]
     = Ok [sample 1 confirmed;
           {| id := 2; customer_id := Some 3; technician_id := Some 7;
              scheduled_date := Some 984600; duration := 0; status := draft;
              send_confirmation_email := false; send_reminder_email := true;
              confirmation_sent := false; reminder_sent := false;
              end_datetime := None |}]
  /\ (None : option datetime) <> Some (984600 + duration (sample_zero 2 draft)).
Proof. repeat split. discriminate. Qed.

(** C5, amended: the reschedule raises, and leaves the table as it was,
    whenever the target is completed or cancelled, whenever the new start
    is not strictly after now, and, for a target whose duration is not 0,
    whenever the conflict query for the new technician and [new start, new
    start + duration) without the target returns a row; on success the row
    of the target holds the new scheduled_date, the new technician when one
    was given and the old one otherwise, the same duration and status, and
    its end_datetime is the new start plus the duration when the duration
    is not 0 (and empty when it is 0).  A reschedule that meets none of the
    rejections, by a user who may edit the appointment and to a technician
    of the technician group, succeeds. *)
Theorem reschedule_contract (e : env) (w : wizard) (db : table)
    (a : appointment) :
  browse (appointment_id w) db = Some a ->
  (status a = completed \/ status a = cancelled ->
   exists x, action_reschedule e w db = Raise x)
  /\ (forall nd, new_date w = Some nd -> nd <= now e ->
      exists x, action_reschedule e w db = Raise x)
  /\ (forall nd, new_date w = Some nd -> duration a <> 0 ->
      reschedule_conflicts db w a nd <> [] ->
      exists x, action_reschedule e w db = Raise x)
  /\ (forall x, action_reschedule e w db = Raise x ->
      commit db (action_reschedule e w db) = db)
  /\ (forall db', action_reschedule e w db = Ok db' ->
      exists nd a',
        new_date w = Some nd
        /\ db' = update (id a) a' db
        /\ browse (appointment_id w) db' = Some a'
        /\ id a' = id a
        /\ scheduled_date a' = Some nd
        /\ technician_id a' = technician_after w a
        /\ duration a' = duration a
        /\ status a' = status a
        /\ end_datetime a' = _compute_end_datetime (Some nd) (duration a)
        /\ (duration a <> 0 -> end_datetime a' = Some (nd + duration a)))
  /\ (forall nd,
        conflicts_found w = false -> new_date w = Some nd -> now e < nd ->
        status a <> completed -> status a <> cancelled ->
        can_edit e a = true ->
        (forall t, new_technician_id w = Some t ->
                   group_support_technician e t = true) ->
        duration a <> 0 -> reschedule_conflicts db w a nd = [] ->
        exists db', action_reschedule e w db = Ok db').
Proof.
  intros Hb.
  assert (Hcases :
            (forall db', action_reschedule e w db = Ok db' -> False) ->
            exists x, action_reschedule e w db = Raise x).
  { intros H. destruct (action_reschedule e w db) as [db'|x] eqn:Hr.
    - exfalso. apply (H db'). reflexivity.
    - exists x. reflexivity. }
  destruct (browse_Some _ _ _ Hb) as [_ Hid].
  split; [|split; [|split; [|split; [|split]]]].
  - intros Hs. apply Hcases. intros db' Hok.
    apply (action_reschedule_Ok e w db db' a Hb) in Hok.
    destruct Hok as (_ & Hc & Hx & _). destruct Hs; contradiction.
  - intros nd Hnd Hle. apply Hcases. intros db' Hok.
    apply (action_reschedule_Ok e w db db' a Hb) in Hok.
    destruct Hok as (_ & _ & _ & _ & _ & nd' & Hnd' & Hlt & _).
    rewrite Hnd in Hnd'. inversion Hnd'. lia.
  - intros nd Hnd Hdur Hconf. apply Hcases. intros db' Hok.
    apply (action_reschedule_Ok e w db db' a Hb) in Hok.
    destruct Hok as (_ & _ & _ & _ & _ & nd' & Hnd' & _ & Hnil & _).
    rewrite Hnd in Hnd'. inversion Hnd'; subst nd'.
    apply Hconf. unfold reschedule_conflicts.
    unfold _compute_end_datetime in Hnil.
    apply Z.eqb_neq in Hdur. rewrite Hdur in Hnil. exact Hnil.
  - intros x Hx. rewrite Hx. reflexivity.
  - intros db' Hok.
    apply (action_reschedule_Ok e w db db' a Hb) in Hok.
    destruct Hok as (_ & _ & _ & _ & _ & nd & Hnd & _ & _ & ->).
    destruct (assign_update_vals w a nd Hnd)
      as (Ha1 & Ha2 & Ha3 & Ha4 & Ha5 & Ha6).
    exists nd, (assign (update_vals w) a).
    repeat split; auto.
    + rewrite Hid. apply (browse_update _ db a); [exact Hb|].
      now rewrite Ha1.
    + intros Hdur. rewrite Ha4. unfold _compute_end_datetime.
      apply Z.eqb_neq in Hdur. now rewrite Hdur.
  - intros nd Hf Hnd Hlt Hc Hx Hedit Hgrp Hdur Hnil.
    exists (update (id a) (assign (update_vals w) a) db).
    apply (action_reschedule_Ok e w db _ a Hb).
    repeat split; auto. exists nd. repeat split; auto.
    unfold _compute_end_datetime. apply Z.eqb_neq in Hdur. rewrite Hdur.
    exact Hnil.
Qed.

(** [reschedule_contract] on the sample table: the confirmed appointment 1
    moved to 10:00 of the same day, with no other appointment around; the
    new end is 11:00. *)
Lemma reschedule_contract_witness :
  exists db',
    action_reschedule (sample_env 0) (sample_reschedule 1 986400)
      [sample 1 confirmed] = Ok db'.
Proof.
  apply (proj2 (proj2 (proj2 (proj2 (proj2
           (reschedule_contract (sample_env 0) (sample_reschedule 1 986400)
              [sample 1 confirmed] (sample 1 confirmed) eq_refl)))))
           986400);
    try reflexivity; try discriminate.
Defined.

End Reschedule.

(** ** Double booking *)

Section DoubleBooking.

Import SupportAppointment.

(** C1 fails on the code: [action_confirm] writes the status without the
    conflict search that [create] and [write] run, so two overlapping
    drafts of one technician can both be confirmed; the table then holds a
    double booking.  With the first draft confirmed before the second is
    created, [create] rejects the second. *)
Theorem confirm_runs_no_conflict_check :
  two_drafts_confirmed
  = Ok [booked 1 982800 confirmed; booked 2 984600 confirmed]
  /\ ~ no_double_booking [booked 1 982800 confirmed; booked 2 984600 confirmed]
  /\ confirm_then_create
     = Raise (ValidationError
                "Technician has conflicting appointments at this time").
Proof.
  split; [reflexivity|]. split; [|reflexivity].
  intros H.
  apply (H (booked 1 982800 confirmed) (booked 2 984600 confirmed)
           982800 986400 984600 988200); simpl; auto; try reflexivity.
  - discriminate.
  - lia.
Qed.

End DoubleBooking.

(** ** The reminder sweep *)

Section Reminders.

Import SupportAppointment.

Lemma send_reminder_id (e : env) (a : appointment) :
  id (fst (_send_reminder_email e a)) = id a.
Proof. unfold _send_reminder_email. destruct (template_reminder e); reflexivity. Qed.

Lemma send_reminder_flag (e : env) (a : appointment) :
  snd (_send_reminder_email e a) = true ->
  reminder_sent (fst (_send_reminder_email e a)) = true.
Proof.
  unfold _send_reminder_email. destruct (template_reminder e); simpl;
    [reflexivity | discriminate].
Qed.

Lemma send_reminder_keeps_flag (e : env) (a : appointment) :
  reminder_sent a = true ->
  reminder_sent (fst (_send_reminder_email e a)) = true.
Proof.
  unfold _send_reminder_email. destruct (template_reminder e); simpl; auto.
Qed.

Lemma update_ids (i : Z) (r : appointment) (db : table) :
  id r = i -> map id (update i r db) = map id db.
Proof.
  intros Hr. unfold update. rewrite map_map. apply map_ext_in.
  intros a _. destruct (id a =? i) eqn:Ha; [|reflexivity].
  apply Z.eqb_eq in Ha. congruence.
Qed.

(** One step of the loop of [remind_all], with its pairs opened. *)
Lemma remind_all_cons (e : env) (a : appointment) (rest : list appointment)
    (db : table) :
  remind_all e (a :: rest) db
  = match browse (id a) db with
    | None => remind_all e rest db
    | Some cur =>
        let step := _send_reminder_email e cur in
        let after := remind_all e rest (update (id a) (fst step) db) in
        (fst after, if snd step then id a :: snd after else snd after)
    end.
Proof.
  cbn [remind_all]. destruct (browse (id a) db) as [cur|]; [|reflexivity].
  destruct (_send_reminder_email e cur) as [cur' sent].
  cbv zeta. cbn [fst snd].
  destruct (remind_all e rest (update (id a) cur' db)) as [db' mails].
  reflexivity.
Qed.

(** The sweep keeps the rows and their ids. *)
Lemma remind_all_ids (e : env) (sel : list appointment) (db : table) :
  map id (fst (remind_all e sel db)) = map id db.
Proof.
  revert db. induction sel as [|a rest IH]; intros db; [reflexivity|].
  rewrite remind_all_cons.
  destruct (browse (id a) db) as [cur|] eqn:Hb; [|apply IH].
  cbv zeta. cbn [fst]. rewrite IH. apply update_ids.
  rewrite send_reminder_id. now destruct (browse_Some _ _ _ Hb).
Qed.

(** Each selected record gets at most one mail. *)
Lemma remind_all_count (e : env) (sel : list appointment) (db : table) (i : Z) :
  (count_occ Z.eq_dec (snd (remind_all e sel db)) i
   <= count_occ Z.eq_dec (map id sel) i)%nat.
Proof.
  revert db. induction sel as [|a rest IH]; intros db; [simpl; lia|].
  rewrite remind_all_cons.
  destruct (browse (id a) db) as [cur|] eqn:Hb.
  - cbv zeta. cbn [snd map].
    specialize (IH (update (id a) (fst (_send_reminder_email e cur)) db)).
    destruct (snd (_send_reminder_email e cur)).
    + simpl. destruct (Z.eq_dec (id a) i); lia.
    + simpl. destruct (Z.eq_dec (id a) i); lia.
  - specialize (IH db). simpl. destruct (Z.eq_dec (id a) i); lia.
Qed.

(** A row flagged as reminded stays flagged through the sweep. *)
Lemma remind_all_keeps_flag (e : env) (sel : list appointment) (db : table)
    (i : Z) :
  (forall x, In x db -> id x = i -> reminder_sent x = true) ->
  forall x, In x (fst (remind_all e sel db)) -> id x = i ->
            reminder_sent x = true.
Proof.
  revert db. induction sel as [|a rest IH]; intros db Hdb; [exact Hdb|].
  rewrite remind_all_cons.
  destruct (browse (id a) db) as [cur|] eqn:Hb; [|now apply IH].
  cbv zeta. cbn [fst]. apply IH.
  intros x Hx Hid. apply In_update in Hx.
  destruct (browse_Some _ _ _ Hb) as [Hin Hcur].
  destruct Hx as [[-> _] | [Hx _]]; [|now apply Hdb].
  apply send_reminder_keeps_flag. apply Hdb; [exact Hin|].
  now rewrite send_reminder_id in Hid.
Qed.

(** A mail to the appointment [i] leaves the rows of [i] flagged. *)
Lemma remind_all_sent_flag (e : env) (sel : list appointment) (db : table)
    (i : Z) :
  In i (snd (remind_all e sel db)) ->
  forall x, In x (fst (remind_all e sel db)) -> id x = i ->
            reminder_sent x = true.
Proof.
  revert db. induction sel as [|a rest IH]; intros db; [intros []|].
  rewrite remind_all_cons.
  destruct (browse (id a) db) as [cur|] eqn:Hb; [|apply IH].
  cbv zeta. cbn [fst snd].
  destruct (snd (_send_reminder_email e cur)) eqn:Hsent; [|apply IH].
  intros [Hi | Hi]; [|now apply IH].
  apply remind_all_keeps_flag.
  intros x Hx Hid. apply In_update in Hx.
  destruct Hx as [[-> _] | [_ Hne]]; [|congruence].
  now apply send_reminder_flag.
Qed.

(** With the template in place every selected record of the table gets its
    mail. *)
Lemma remind_all_sends (e : env) (sel : list appointment) (db : table) :
  template_reminder e = true ->
  (forall a, In a sel -> In (id a) (map id db)) ->
  snd (remind_all e sel db) = map id sel.
Proof.
  intros Ht. revert db. induction sel as [|a rest IH]; intros db Hsel;
    [reflexivity|].
  rewrite remind_all_cons.
  destruct (browse (id a) db) as [cur|] eqn:Hb.
  - cbv zeta. cbn [snd map].
    assert (Hs : snd (_send_reminder_email e cur) = true)
      by (unfold _send_reminder_email; now rewrite Ht).
    rewrite Hs. f_equal. apply IH.
    intros b Hbin. rewrite update_ids.
    + apply Hsel. now right.
    + rewrite send_reminder_id. now destruct (browse_Some _ _ _ Hb).
  - exfalso. assert (Hin : In (id a) (map id db)) by (apply Hsel; now left).
    apply in_map_iff in Hin. destruct Hin as (x & Hx & Hin).
    unfold browse in Hb. apply (find_none _ _ Hb) in Hin.
    rewrite Hx, Z.eqb_refl in Hin. discriminate.
Qed.

Lemma count_occ_filter_ids (f : appointment -> bool) (db : table) (i : Z) :
  (count_occ Z.eq_dec (map id (filter f db)) i
   <= count_occ Z.eq_dec (map id db) i)%nat.
Proof.
  induction db as [|a db IH]; simpl; [lia|].
  destruct (f a); simpl; destruct (Z.eq_dec (id a) i); lia.
Qed.

(** One sweep over a table with unique ids mails each appointment at most
    once. *)
Lemma sweep_count (e : env) (db : table) (i : Z) :
  NoDup (map id db) ->
  (count_occ Z.eq_dec (snd (check_upcoming_reminders e db)) i <= 1)%nat.
Proof.
  intros Hnd. unfold check_upcoming_reminders. cbv zeta.
  eapply Nat.le_trans; [apply remind_all_count|].
  eapply Nat.le_trans; [apply count_occ_filter_ids|].
  now apply NoDup_count_occ.
Qed.

(** C9: the reminder sweep run twice, the second time on the table the
    first run left (same window or any other, with or without the mail
    template), sends at most one reminder per appointment of a table with
    unique ids: a record is selected only while reminder_sent is false, a
    sent reminder sets reminder_sent on its row, so no record selected by
    the second run was already reminded by the first.  With the template
    in place the first run does remind every record it selects. *)
Theorem reminder_sweep_at_most_once (e1 e2 : env) (db : table) :
  NoDup (map id db) ->
  (forall i, (count_occ Z.eq_dec (snd (sweep_twice e1 e2 db)) i <= 1)%nat)
  /\ (forall a,
        In a (search (reminder_domain (fst (reminder_window e2))
                                      (snd (reminder_window e2)))
                     (fst (check_upcoming_reminders e1 db))) ->
        reminder_sent a = false
        /\ ~ In (id a) (snd (check_upcoming_reminders e1 db)))
  /\ (forall i x,
        In i (snd (check_upcoming_reminders e1 db)) ->
        In x (fst (check_upcoming_reminders e1 db)) -> id x = i ->
        reminder_sent x = true)
  /\ (template_reminder e1 = true ->
      snd (check_upcoming_reminders e1 db)
      = map id (search (reminder_domain (fst (reminder_window e1))
                                        (snd (reminder_window e1))) db)).
Proof.
  intros Hnd.
  assert (Hflag : forall i x,
            In i (snd (check_upcoming_reminders e1 db)) ->
            In x (fst (check_upcoming_reminders e1 db)) -> id x = i ->
            reminder_sent x = true).
  { intros i x Hi Hx Hid. unfold check_upcoming_reminders in Hi, Hx.
    cbv zeta in Hi, Hx.
    exact (remind_all_sent_flag e1 _ db i Hi x Hx Hid). }
  assert (Hsel : forall a,
            In a (search (reminder_domain (fst (reminder_window e2))
                                          (snd (reminder_window e2)))
                         (fst (check_upcoming_reminders e1 db))) ->
            reminder_sent a = false
            /\ ~ In (id a) (snd (check_upcoming_reminders e1 db))).
  { intros a Ha. unfold search in Ha. apply filter_In in Ha.
    destruct Ha as [Hin Hdom]. unfold reminder_domain in Hdom.
    apply andb_true_iff in Hdom. destruct Hdom as [_ Hrs].
    apply Bool.eqb_prop in Hrs. split; [exact Hrs|].
    intros Hmail. rewrite (Hflag (id a) a Hmail Hin eq_refl) in Hrs.
    discriminate. }
  split; [|split; [exact Hsel | split; [exact Hflag|]]].
  - intros i. unfold sweep_twice.
    destruct (check_upcoming_reminders e1 db) as [db1 mails1] eqn:H1.
    destruct (check_upcoming_reminders e2 db1) as [db2 mails2] eqn:H2.
    cbn [snd]. rewrite count_occ_app.
    assert (Hc1 : (count_occ Z.eq_dec mails1 i <= 1)%nat).
    { replace mails1 with (snd (check_upcoming_reminders e1 db))
        by (now rewrite H1).
      now apply sweep_count. }
    assert (Hnd1 : NoDup (map id db1)).
    { replace db1 with (fst (check_upcoming_reminders e1 db))
        by (now rewrite H1).
      unfold check_upcoming_reminders. cbv zeta.
      now rewrite remind_all_ids. }
    assert (Hc2 : (count_occ Z.eq_dec mails2 i <= 1)%nat).
    { replace mails2 with (snd (check_upcoming_reminders e2 db1))
        by (now rewrite H2).
      now apply sweep_count. }
    destruct (count_occ Z.eq_dec mails1 i) as [|n1] eqn:E1; [lia|].
    destruct (count_occ Z.eq_dec mails2 i) as [|n2] eqn:E2; [lia|].
    exfalso.
    assert (Hin1 : In i mails1) by (apply (count_occ_In Z.eq_dec); lia).
    assert (Hin2 : (count_occ Z.eq_dec
                      (map id (search (reminder_domain
                                         (fst (reminder_window e2))
                                         (snd (reminder_window e2))) db1)) i
                    > 0)%nat).
    { assert (Hle := remind_all_count e2
                       (search (reminder_domain (fst (reminder_window e2))
                                                (snd (reminder_window e2))) db1)
                       db1 i).
      unfold check_upcoming_reminders in H2. cbv zeta in H2.
      unfold reminder_window in Hle |- *. cbn [fst snd] in Hle |- *.
      rewrite H2 in Hle. cbn [snd] in Hle. lia. }
    apply (count_occ_In Z.eq_dec) in Hin2. apply in_map_iff in Hin2.
    destruct Hin2 as (a & Hida & Hina).
    cbn [fst snd] in Hsel.
    destruct (Hsel a Hina) as [_ Hnot]. apply Hnot. now rewrite Hida.
  - intros Ht. unfold check_upcoming_reminders, reminder_window. cbv zeta.
    cbn [fst snd]. apply remind_all_sends; [exact Ht|].
    intros a Ha. unfold search in Ha. apply filter_In in Ha.
    apply in_map. tauto.
Qed.

(** [reminder_sweep_at_most_once] on the sample table, swept twice on
    1970-01-11 at 10:00: appointment 1 is reminded once. *)
Lemma reminder_sweep_witness :
  NoDup (map id reminder_table)
  /\ snd (sweep_twice (sample_env day_before) (sample_env day_before)
            reminder_table) = [1]
  /\ (count_occ Z.eq_dec
        (snd (sweep_twice (sample_env day_before) (sample_env day_before)
                reminder_table)) 1%Z <= 1)%nat.
Proof.
  assert (Hnd : NoDup (map id reminder_table)).
  { simpl. constructor; [simpl; intros [H|[]]; discriminate|].
    constructor; [intros []|constructor]. }
  split; [exact Hnd|]. split; [reflexivity|].
  apply (reminder_sweep_at_most_once (sample_env day_before)
           (sample_env day_before) reminder_table Hnd).
Defined.

End Reminders.

(** ** Sorted lists, ranges and prefixes *)

Section ListFacts.

Lemma In_range (x lo hi : Z) : In x (range lo hi) <-> lo <= x < hi.
Proof.
  unfold range. rewrite in_map_iff. split.
  - intros (k & <- & Hk). apply in_seq in Hk. lia.
  - intros H. exists (Z.to_nat (x - lo)). split; [lia|].
    apply in_seq. lia.
Qed.

Lemma sorted_offsets (lo : Z) (a n : nat) :
  StronglySorted Z.lt (map (fun k => lo + Z.of_nat k) (seq a n)).
Proof.
  revert a. induction n as [|n IH]; intros a; simpl; constructor.
  - apply IH.
  - apply Forall_forall. intros y Hy. apply in_map_iff in Hy.
    destruct Hy as (k & <- & Hk). apply in_seq in Hk. lia.
Qed.

Lemma range_sorted (lo hi : Z) : StronglySorted Z.lt (range lo hi).
Proof. apply sorted_offsets. Qed.

Lemma sorted_app (l1 l2 : list Z) :
  StronglySorted Z.lt l1 -> StronglySorted Z.lt l2 ->
  (forall x y, In x l1 -> In y l2 -> x < y) ->
  StronglySorted Z.lt (l1 ++ l2).
Proof.
  intros H1 H2 Hlt. induction l1 as [|a l1 IH]; simpl; [exact H2|].
  apply StronglySorted_inv in H1. destruct H1 as [Hs Hall].
  constructor.
  - apply IH; [exact Hs|]. intros x y Hx Hy. apply Hlt; [now right | exact Hy].
  - apply Forall_app. split; [exact Hall|].
    apply Forall_forall. intros y Hy. apply Hlt; [now left | exact Hy].
Qed.

Lemma sorted_flat_map (g : Z -> list Z) (ds : list Z) :
  StronglySorted Z.lt ds ->
  (forall d, In d ds -> StronglySorted Z.lt (g d)) ->
  (forall d d' x y, In d ds -> In d' ds -> d < d' ->
                    In x (g d) -> In y (g d') -> x < y) ->
  StronglySorted Z.lt (flat_map g ds).
Proof.
  intros Hds Hg Hcross. induction ds as [|d ds IH]; simpl; [constructor|].
  apply StronglySorted_inv in Hds. destruct Hds as [Hs Hall].
  apply sorted_app.
  - apply Hg. now left.
  - apply IH; [exact Hs | |].
    + intros d' Hd'. apply Hg. now right.
    + intros d1 d2 x y H1 H2. apply Hcross; now right.
  - intros x y Hx Hy. apply in_flat_map in Hy. destruct Hy as (d' & Hd' & Hy).
    apply (Hcross d d'); auto.
    + now left.
    + now right.
    + rewrite Forall_forall in Hall. now apply Hall.
Qed.

Lemma sorted_map (f : Z -> Z) (l : list Z) :
  (forall x y, x < y -> f x < f y) ->
  StronglySorted Z.lt l -> StronglySorted Z.lt (map f l).
Proof.
  intros Hf Hl. induction l as [|a l IH]; simpl; [constructor|].
  apply StronglySorted_inv in Hl. destruct Hl as [Hs Hall].
  constructor; [now apply IH|].
  apply Forall_forall. intros y Hy. apply in_map_iff in Hy.
  destruct Hy as (x & <- & Hx). apply Hf.
  rewrite Forall_forall in Hall. now apply Hall.
Qed.

Lemma sorted_filter (f : Z -> bool) (l : list Z) :
  StronglySorted Z.lt l -> StronglySorted Z.lt (filter f l).
Proof.
  intros Hl. induction l as [|a l IH]; simpl; [constructor|].
  apply StronglySorted_inv in Hl. destruct Hl as [Hs Hall].
  destruct (f a); [|now apply IH].
  constructor; [now apply IH|].
  apply Forall_forall. intros y Hy. apply filter_In in Hy.
  rewrite Forall_forall in Hall. apply Hall. tauto.
Qed.

Lemma In_firstn {A : Type} (n : nat) (l : list A) (x : A) :
  In x (firstn n l) -> In x l.
Proof.
  revert l. induction n as [|n IH]; intros [|a l]; simpl; try tauto.
  intros [H | H]; [now left | right; now apply IH].
Qed.

Lemma sorted_firstn (n : nat) (l : list Z) :
  StronglySorted Z.lt l -> StronglySorted Z.lt (firstn n l).
Proof.
  revert l. induction n as [|n IH]; intros [|a l] Hl; simpl; try constructor.
  - apply IH. now apply StronglySorted_inv in Hl.
  - apply StronglySorted_inv in Hl. destruct Hl as [_ Hall].
    apply Forall_forall. intros y Hy. apply In_firstn in Hy.
    rewrite Forall_forall in Hall. now apply Hall.
Qed.

(** A prefix that is already full is not changed by what follows. *)
Lemma firstn_full {A : Type} (n : nat) (l1 l2 : list A) :
  (n <= length l1)%nat -> firstn n (l1 ++ l2) = firstn n l1.
Proof.
  intros H. rewrite firstn_app.
  replace (n - length l1)%nat with 0%nat by lia.
  simpl. apply app_nil_r.
Qed.

End ListFacts.

(** ** The slot scan computes the first five free candidates *)

Section ScanRefinement.

Variable skip : datetime -> bool.
Variable free : datetime -> bool.

Let keep (s : datetime) : bool := negb (skip s) && free s.

Lemma scan_hours_spec (check_date : datetime) (hs : list Z)
    (slots : list datetime) :
  (length slots < 5)%nat ->
  scan_hours skip free check_date hs slots
  = firstn 5 (slots ++ filter keep
                         (map (fun hour => replace_hour hour check_date) hs)).
Proof.
  revert slots. induction hs as [|hour rest IH]; intros slots Hlen.
  - cbn [scan_hours map filter]. rewrite app_nil_r. symmetry.
    apply firstn_all2. lia.
  - cbn [scan_hours map filter]. unfold keep at 1.
    destruct (skip (replace_hour hour check_date)); cbn [negb andb].
    + now apply IH.
    + destruct (free (replace_hour hour check_date)).
      * replace (slots ++ replace_hour hour check_date :: filter keep
                   (map (fun hour0 => replace_hour hour0 check_date) rest))
          with ((slots ++ [replace_hour hour check_date]) ++ filter keep
                  (map (fun hour0 => replace_hour hour0 check_date) rest))
          by (now rewrite <- app_assoc).
        assert (Hl : length (slots ++ [replace_hour hour check_date])
                     = S (length slots))
          by (rewrite length_app; simpl; lia).
        destruct (5 <=? Z.of_nat (length (slots ++ [replace_hour hour check_date])))
          eqn:Hfull.
        -- apply Z.leb_le in Hfull.
           rewrite firstn_full by lia. symmetry. apply firstn_all2. lia.
        -- apply Z.leb_gt in Hfull. apply IH. lia.
      * now apply IH.
Qed.

Lemma scan_days_spec (start_date : datetime) (ds : list Z)
    (slots : list datetime) :
  (length slots < 5)%nat ->
  scan_days skip free start_date ds slots
  = firstn 5 (slots ++ filter keep (flat_map (day_slots start_date) ds)).
Proof.
  revert slots. induction ds as [|d rest IH]; intros slots Hlen.
  - cbn [scan_days flat_map filter]. rewrite app_nil_r. symmetry.
    apply firstn_all2. lia.
  - cbn [scan_days flat_map]. unfold day_slots at 1. cbv zeta.
    destruct (5 <=? weekday (start_date + days d)).
    + cbn [app]. now apply IH.
    + rewrite filter_app, app_assoc.
      rewrite (scan_hours_spec _ _ _ Hlen).
      set (day := slots ++ filter keep
                    (map (fun hour => replace_hour hour (start_date + days d))
                         (range 8 17))).
      destruct (5 <=? Z.of_nat (length (firstn 5 day))) eqn:Hfull.
      * apply Z.leb_le in Hfull. rewrite length_firstn in Hfull.
        symmetry. apply firstn_full. lia.
      * apply Z.leb_gt in Hfull. rewrite length_firstn in Hfull.
        assert (Hday : firstn 5 day = day) by (apply firstn_all2; lia).
        rewrite Hday. apply IH. lia.
Qed.

(** The two nested loops, started with no slot, return the first five
    candidates of the grid that are kept. *)
Lemma scan_days_first_five (start_date : datetime) :
  scan_days skip free start_date (range 0 7) []
  = first_five skip free start_date.
Proof.
  rewrite scan_days_spec by (simpl; lia). reflexivity.
Qed.

End ScanRefinement.

(** ** The candidates of the slot scan *)

Section Grid.

Variable t : datetime.

Let start_date : datetime := replace_hour_sharp 8 t.

Lemma check_date_day (d : Z) :
  (start_date + days d) / seconds_per_day = t / seconds_per_day + d.
Proof.
  unfold start_date, replace_hour_sharp, midnight, hours, days,
    seconds_per_hour, seconds_per_day.
  symmetry. apply Z.div_unique with (r := 28800); lia.
Qed.

Lemma check_date_sharp (d : Z) :
  (start_date + days d) mod seconds_per_hour = 0.
Proof.
  unfold start_date, replace_hour_sharp, midnight, hours, days,
    seconds_per_hour, seconds_per_day.
  symmetry. apply Z.mod_unique with (q := 24 * (t / 86400 + d) + 8); lia.
Qed.

(** The slot of day [d] and hour [h]. *)
Lemma slot_value (d h : Z) :
  replace_hour h (start_date + days d) = midnight t + days d + hours h.
Proof.
  unfold replace_hour. rewrite check_date_sharp.
  unfold midnight at 1. rewrite check_date_day.
  unfold midnight, days, seconds_per_day. lia.
Qed.

Lemma slot_weekday (d h : Z) :
  0 <= h < 24 ->
  weekday (midnight t + days d + hours h) = weekday (start_date + days d).
Proof.
  intros Hh. unfold weekday. rewrite check_date_day. f_equal. f_equal.
  unfold midnight, hours, days, seconds_per_hour, seconds_per_day.
  symmetry. apply Z.div_unique with (r := h * 3600); lia.
Qed.

Lemma In_slot_grid (s : datetime) :
  In s (slot_grid start_date) <->
  exists d h, 0 <= d < 7 /\ 8 <= h < 17
              /\ weekday (start_date + days d) < 5
              /\ s = midnight t + days d + hours h.
Proof.
  unfold slot_grid. rewrite in_flat_map. split.
  - intros (d & Hd & Hs). apply In_range in Hd.
    unfold day_slots in Hs. cbv zeta in Hs.
    destruct (5 <=? weekday (start_date + days d)) eqn:Hw; [destruct Hs|].
    apply Z.leb_gt in Hw. apply in_map_iff in Hs.
    destruct Hs as (h & <- & Hh). apply In_range in Hh.
    exists d, h. rewrite slot_value. auto.
  - intros (d & h & Hd & Hh & Hw & ->).
    exists d. split; [now apply In_range|].
    unfold day_slots. cbv zeta.
    assert (Hw' : (5 <=? weekday (start_date + days d)) = false)
      by (apply Z.leb_gt; lia).
    rewrite Hw'. apply in_map_iff. exists h.
    split; [apply slot_value | now apply In_range].
Qed.

Lemma In_day_slots (d : Z) (s : datetime) :
  In s (day_slots start_date d) ->
  exists h, 8 <= h < 17 /\ s = midnight t + days d + hours h.
Proof.
  unfold day_slots. cbv zeta.
  destruct (5 <=? weekday (start_date + days d)); [intros []|].
  intros Hs. apply in_map_iff in Hs. destruct Hs as (h & <- & Hh).
  apply In_range in Hh. exists h. rewrite slot_value. auto.
Qed.

Lemma day_slots_sorted (d : Z) : StronglySorted Z.lt (day_slots start_date d).
Proof.
  unfold day_slots. cbv zeta.
  destruct (5 <=? weekday (start_date + days d)); [constructor|].
  apply sorted_map; [|apply range_sorted].
  intros x y Hxy. rewrite !slot_value.
  unfold hours, seconds_per_hour. lia.
Qed.

(** The candidates come in chronological order. *)
Lemma slot_grid_sorted : StronglySorted Z.lt (slot_grid start_date).
Proof.
  unfold slot_grid. apply sorted_flat_map.
  - apply range_sorted.
  - intros d _. apply day_slots_sorted.
  - intros d d' x y _ _ Hdd Hx Hy.
    apply In_day_slots in Hx. apply In_day_slots in Hy.
    destruct Hx as (h & Hh & ->). destruct Hy as (h' & Hh' & ->).
    unfold hours, days, seconds_per_hour, seconds_per_day. lia.
Qed.

(** Every list of the first five kept candidates is a list of suggestions
    as described. *)
Lemma first_five_ok (e : env) (skip free : datetime -> bool) :
  now e = t ->
  suggestions_ok e (fun s => skip s = false /\ free s = true)
                 (first_five skip free start_date).
Proof.
  intros He. unfold suggestions_ok, first_five.
  split; [apply firstn_le_length|].
  split; [apply sorted_firstn, sorted_filter, slot_grid_sorted|].
  intros slot Hin. apply In_firstn in Hin. apply filter_In in Hin.
  destruct Hin as [Hgrid Hkeep]. apply In_slot_grid in Hgrid.
  destruct Hgrid as (d & h & Hd & Hh & Hw & ->).
  apply andb_true_iff in Hkeep. destruct Hkeep as [Hskip Hfree].
  apply negb_true_iff in Hskip. rewrite He.
  split; [exists d, h; auto|].
  split; [rewrite slot_weekday by lia; exact Hw|].
  split; [|auto].
  unfold hours, days, seconds_per_hour, seconds_per_day. lia.
Qed.

End Grid.

(** ** The slot suggestions of the two wizards *)

Section Suggestions.

Import SupportAppointment.

Lemma suggestions_ok_weaken (e : env) (P Q : datetime -> Prop)
    (slots : list datetime) :
  (forall s, P s -> Q s) -> suggestions_ok e P slots -> suggestions_ok e Q slots.
Proof.
  intros HPQ (Hlen & Hsorted & Hall).
  split; [exact Hlen|]. split; [exact Hsorted|].
  intros slot Hin. destruct (Hall slot Hin) as (H1 & H2 & H3 & H4). auto.
Qed.

Lemma search_count_zero {A : Type} (domain : A -> bool) (table : list A) :
  (search_count domain table =? 0) = true <-> search domain table = [].
Proof.
  unfold search_count. rewrite Z.eqb_eq.
  destruct (search domain table); simpl; split; try congruence; lia.
Qed.

(** C4 fails on the code: the scan starts at 08:00 of the current day, not at
    the next full hour from now.  On Monday 1970-01-12 at 15:30, with no
    appointment booked, the five suggestions of the quick-create wizard are
    08:00 to 12:00 of that Monday, all of them before now, and the wizard
    refuses each of them as a date in the past when it is entered on the
    form.  The reschedule wizard, asked at the same time for the confirmed
    appointment of 09:00, suggests 08:00 and 10:00 to 13:00 of that Monday
    and refuses each of them in the same way. *)
Theorem suggestions_before_now_are_refused :
  AppointmentQuickCreateWizard._find_available_slots
    (sample_env monday_afternoon) sample_wizard []
  = [979200; 982800; 986400; 990000; 993600]
  /\ (forall slot,
        In slot (AppointmentQuickCreateWizard._find_available_slots
                   (sample_env monday_afternoon) sample_wizard []) ->
        slot < now (sample_env monday_afternoon)
        /\ AppointmentQuickCreateWizard.action_create_appointment
             (sample_env monday_afternoon)
             (with_scheduled_date slot sample_wizard) []
           = Raise (ValidationError "Cannot schedule appointments in the past."))
  /\ AppointmentReschedule._find_alternative_slots
       (sample_env monday_afternoon) (sample_reschedule 1 1069200) (Some 7)
       [sample 1 confirmed]
     = Ok [979200; 986400; 990000; 993600; 997200]
  /\ (forall slot,
        In slot [979200; 986400; 990000; 993600; 997200] ->
        slot < now (sample_env monday_afternoon)
        /\ AppointmentReschedule.action_reschedule
             (sample_env monday_afternoon)
             (with_new_date slot (sample_reschedule 1 1069200))
             [sample 1 confirmed]
           = Raise (ValidationError "Cannot reschedule to a past date.")).
Proof.
  split; [reflexivity|].
  split.
  - replace (AppointmentQuickCreateWizard._find_available_slots
               (sample_env monday_afternoon) sample_wizard [])
      with [979200; 982800; 986400; 990000; 993600] by reflexivity.
    intros slot H.
    repeat (destruct H as [<- | H]; [split; reflexivity|]).
    destruct H.
  - split; [reflexivity|].
    intros slot H.
    repeat (destruct H as [<- | H]; [split; reflexivity|]).
    destruct H.
Qed.

(** X22: each slot-suggestion search returns the first five free candidates
    of its grid, so a chronologically ordered sequence of at most 5 start
    times, each at a whole hour h with 8 <= h <= 16 of a day with weekday
    index < 5 among today and the six days after, and each such that
    [slot, slot + duration) has no conflict with the confirmed or
    in_progress appointments of the technician; in the reschedule wizard
    the search leaves the rescheduled appointment out and the hour of the
    current date is not suggested. *)
Theorem slot_suggestions (e : env) (db : table)
    (w : AppointmentQuickCreateWizard.wizard)
    (rw : AppointmentReschedule.wizard) (technician : option Z) :
  AppointmentQuickCreateWizard._find_available_slots e w db
  = first_five (fun _ => false) (AppointmentQuickCreateWizard.slot_free db w)
               (replace_hour_sharp 8 (now e))
  /\ suggestions_ok e
       (fun s =>
          find_conflicts db (AppointmentQuickCreateWizard.technician_id w)
            (Some s) (Some (s + AppointmentQuickCreateWizard.duration w)) None
          = [])
       (AppointmentQuickCreateWizard._find_available_slots e w db)
  /\ (forall cd,
        AppointmentReschedule.current_date rw = Some cd ->
        exists slots,
          AppointmentReschedule._find_alternative_slots e rw technician db
          = Ok slots
          /\ slots
             = first_five (fun s => s =? replace_minute0 cd)
                          (AppointmentReschedule.slot_free db rw technician)
                          (replace_hour_sharp 8 (now e))
          /\ suggestions_ok e
               (fun s =>
                  s <> replace_minute0 cd
                  /\ find_conflicts db technician (Some s)
                       (Some (s + AppointmentReschedule.duration db rw))
                       (Some (Some (AppointmentReschedule.appointment_id rw)))
                     = [])
               slots).
Proof.
  split; [|split].
  - unfold AppointmentQuickCreateWizard._find_available_slots. cbv zeta.
    apply scan_days_first_five.
  - unfold AppointmentQuickCreateWizard._find_available_slots. cbv zeta.
    rewrite scan_days_first_five.
    eapply suggestions_ok_weaken; [|apply first_five_ok; reflexivity].
    intros s [_ Hfree].
    unfold AppointmentQuickCreateWizard.slot_free in Hfree. cbv zeta in Hfree.
    now apply search_count_zero in Hfree.
  - intros cd Hcd.
    unfold AppointmentReschedule._find_alternative_slots. cbv zeta.
    rewrite Hcd. eexists. split; [reflexivity|].
    rewrite scan_days_first_five. split; [reflexivity|].
    eapply suggestions_ok_weaken; [|apply first_five_ok; reflexivity].
    intros s [Hskip Hfree]. cbv beta in Hskip. apply Z.eqb_neq in Hskip.
    split; [exact Hskip|].
    unfold AppointmentReschedule.slot_free in Hfree. cbv zeta in Hfree.
    now apply search_count_zero in Hfree.
Qed.

End Suggestions.

(** ** Uniqueness of the settings records *)

Section Settings.

Import AppointmentSettings.

Variable py_int_strip : string -> option Z.

Lemma settings_browse_Some (i : Z) (db : table) (s : settings) :
  browse i db = Some s -> In s db /\ id s = i.
Proof.
  unfold browse. intros H. apply find_some in H.
  destruct H as [Hin Hid]. apply Z.eqb_eq in Hid. auto.
Qed.

Lemma settings_In_update (i : Z) (db : table) (r x : settings) :
  In x (update i r db) ->
  (x = r /\ exists a, In a db /\ id a = i) \/ (In x db /\ id x <> i).
Proof.
  unfold update. intros H. apply in_map_iff in H.
  destruct H as (a & Ha & Hin).
  destruct (id a =? i) eqn:Hi.
  - left. split; [auto|]. exists a. apply Z.eqb_eq in Hi. auto.
  - right. subst x. apply Z.eqb_neq in Hi. auto.
Qed.

Lemma settings_update_ids (i : Z) (r : settings) (db : table) :
  id r = i -> map id (update i r db) = map id db.
Proof.
  intros Hr. unfold update. rewrite map_map. apply map_ext_in.
  intros a _. destruct (id a =? i) eqn:Ha; [|reflexivity].
  apply Z.eqb_eq in Ha. congruence.
Qed.

Lemma next_id_fresh (db : table) (a : settings) :
  In a db -> id a < next_id db.
Proof.
  unfold next_id. induction db as [|x db IH]; cbn [map fold_right In];
    [intros []|].
  intros [-> | H]; [lia|]. specialize (IH H). lia.
Qed.

(** A record that passes [_check_unique_technician] shares its technician
    with no row of another id. *)
Lemma check_unique_technician_Ok (db : table) (r : settings) (t : Z) :
  _check_unique_technician db r = Ok tt ->
  technician_id r = Some t ->
  forall x, In x db -> technician_id x = Some t -> id x = id r.
Proof.
  unfold _check_unique_technician. intros Hchk Ht x Hx Hxt.
  rewrite Ht in Hchk.
  destruct (truthy _) eqn:Hex; [discriminate|].
  apply truthy_false in Hex.
  destruct (Z.eq_dec (id x) (id r)) as [Heq | Hne]; [exact Heq|].
  exfalso.
  assert (Hin : In x (search (other_with_technician t (id r)) db)).
  { unfold search. apply filter_In. split; [exact Hx|].
    unfold other_with_technician. apply andb_true_iff. split.
    - now apply leaf_eq_Some.
    - apply leaf_id_ne_spec. congruence. }
  rewrite Hex in Hin. destruct Hin.
Qed.

Lemma create_Ok (vals : create_vals) (db db' : table) (r : settings) :
  create py_int_strip vals db = Ok (r, db') ->
  db' = db ++ [r] /\ id r = next_id db
  /\ technician_id r = v_technician_id vals
  /\ _check_unique_technician (db ++ [r]) r = Ok tt.
Proof.
  unfold create. cbv zeta. intros H.
  apply bind_Ok in H. destruct H as ([] & _ & H).
  apply bind_Ok in H. destruct H as ([] & _ & H).
  apply bind_Ok in H. destruct H as ([] & _ & H).
  apply bind_Ok in H. destruct H as ([] & Hu & H).
  inversion H; subst. auto.
Qed.

Lemma write_Ok (i : Z) (vals : write_vals) (db db' : table) :
  write py_int_strip i vals db = Ok db' ->
  exists s,
    browse i db = Some s /\ db' = update i (assign vals s) db
    /\ (w_technician_id vals <> None ->
        _check_unique_technician db' (assign vals s) = Ok tt).
Proof.
  unfold write. destruct (browse i db) as [s|] eqn:Hb; [|discriminate].
  cbv zeta. intros H. exists s.
  apply bind_Ok in H. destruct H as ([] & _ & H).
  apply bind_Ok in H. destruct H as ([] & _ & H).
  apply bind_Ok in H. destruct H as ([] & _ & H).
  apply bind_Ok in H. destruct H as ([] & Hu & H).
  inversion H; subst. repeat split; auto.
  intros Hne. destruct (w_technician_id vals); [exact Hu | congruence].
Qed.

Lemma invariant_create (vals : create_vals) (db db' : table) (r : settings) :
  settings_invariant db ->
  create py_int_strip vals db = Ok (r, db') -> settings_invariant db'.
Proof.
  intros [Hnd Hu] Hc. apply create_Ok in Hc.
  destruct Hc as (-> & Hid & _ & Hchk).
  split.
  - rewrite map_app. simpl.
    apply NoDup_app; [exact Hnd | constructor; [intros []|constructor] |].
    intros x Hx [Hr | []]. apply in_map_iff in Hx.
    destruct Hx as (a & Ha & Hin). apply next_id_fresh in Hin. lia.
  - intros a b t Ha Hb Hta Htb.
    apply in_app_iff in Ha. apply in_app_iff in Hb.
    destruct Ha as [Ha | [<- | []]]; destruct Hb as [Hb | [<- | []]].
    + now apply (Hu a b t).
    + apply (check_unique_technician_Ok _ _ t Hchk Htb a); auto.
      apply in_app_iff. now left.
    + symmetry. apply (check_unique_technician_Ok _ _ t Hchk Hta b); auto.
      apply in_app_iff. now left.
    + reflexivity.
Qed.

Lemma invariant_write (i : Z) (vals : write_vals) (db db' : table) :
  settings_invariant db ->
  write py_int_strip i vals db = Ok db' -> settings_invariant db'.
Proof.
  intros [Hnd Hu] Hw. apply write_Ok in Hw.
  destruct Hw as (s & Hb & -> & Hchk).
  destruct (settings_browse_Some _ _ _ Hb) as [Hs Hsid].
  assert (Hrid : id (assign vals s) = i) by (simpl; exact Hsid).
  split; [now rewrite settings_update_ids|].
  assert (Hmixed : forall x t,
            In x db -> id x <> i -> technician_id x = Some t ->
            technician_id (assign vals s) = Some t -> False).
  { intros x t Hx Hne Hxt Hrt.
    destruct (w_technician_id vals) as [t'|] eqn:Hwt.
    - assert (Hne' : Some t' <> (None : option (option Z))) by discriminate.
      specialize (Hchk Hne').
      assert (Hin : In x (update i (assign vals s) db)).
      { unfold update. apply in_map_iff. exists x. split; [|exact Hx].
        apply Z.eqb_neq in Hne. now rewrite Hne. }
      pose proof (check_unique_technician_Ok _ _ t Hchk Hrt x Hin Hxt).
      congruence.
    - assert (Hst : technician_id s = Some t).
      { unfold assign in Hrt. simpl in Hrt. now rewrite Hwt in Hrt. }
      pose proof (Hu x s t Hx Hs Hxt Hst). congruence. }
  intros a b t Ha Hb' Hta Htb.
  apply settings_In_update in Ha. apply settings_In_update in Hb'.
  destruct Ha as [[-> _] | [Ha Hna]]; destruct Hb' as [[-> _] | [Hb' Hnb]].
  - reflexivity.
  - exfalso. exact (Hmixed b t Hb' Hnb Htb Hta).
  - exfalso. exact (Hmixed a t Ha Hna Hta Htb).
  - now apply (Hu a b t).
Qed.

Lemma invariant_reachable (db : table) :
  reachable py_int_strip db -> settings_invariant db.
Proof.
  induction 1 as [|vals db r db' _ IH Hc|i vals db db' _ IH Hw
                  |tech db r db' _ IH Hg].
  - split; [constructor | intros a b t []].
  - exact (invariant_create _ _ _ _ IH Hc).
  - exact (invariant_write _ _ _ _ IH Hw).
  - unfold get_settings_for_technician in Hg.
    destruct (search1 _ db); [inversion Hg; now subst|].
    destruct (search1 _ db); [inversion Hg; now subst|].
    exact (invariant_create _ _ _ _ IH Hg).
Qed.

Lemma same_id_same_row (db : table) (a b : settings) :
  NoDup (map id db) -> In a db -> In b db -> id a = id b -> a = b.
Proof.
  induction db as [|x db IH]; simpl; [intros _ []|].
  intros Hnd Ha Hb Hid. inversion Hnd as [|? ? Hnotin Hnd']; subst.
  destruct Ha as [-> | Ha]; destruct Hb as [-> | Hb].
  - reflexivity.
  - exfalso. apply Hnotin. rewrite Hid. now apply in_map.
  - exfalso. apply Hnotin. rewrite <- Hid. now apply in_map.
  - now apply IH.
Qed.

(** C8 as stated fails on its second half: [_check_unique_technician]
    only looks at records that have a technician, so a second global
    record is accepted by [create]. *)
Lemma two_global_settings :
  reachable digit_int [default_settings 1 None; default_settings 2 None]
  /\ ~ one_global [default_settings 1 None; default_settings 2 None]
  /\ create digit_int (settings_vals None) [default_settings 1 None]
     = Ok (default_settings 2 None,
           [default_settings 1 None; default_settings 2 None]).
Proof.
  split; [|split; [|reflexivity]].
  - apply (reach_create digit_int (settings_vals None)
             [default_settings 1 None] (default_settings 2 None));
      [|reflexivity].
    apply (reach_create digit_int (settings_vals None) []
             (default_settings 1 None)); [|reflexivity].
    apply reach_empty.
  - intros H.
    assert (Heq : default_settings 1 None = default_settings 2 None).
    { apply H; simpl; auto. }
    discriminate Heq.
Qed.

(** C8, amended: in every table of settings the operations can build there
    is at most one record per technician (and the ids are unique): a
    create, and a write of technician_id, that would give a technician a
    second record is rejected.  Records without technician are not checked:
    [create] accepts a second global record; [get_settings_for_technician]
    itself adds a global record only when the table has none. *)
Theorem settings_one_per_technician (db : table) :
  reachable py_int_strip db ->
  one_per_technician db
  /\ NoDup (map id db)
  /\ (forall vals t a,
        v_technician_id vals = Some t ->
        In a db -> technician_id a = Some t ->
        exists x, create py_int_strip vals db = Raise x)
  /\ (forall i vals t a,
        w_technician_id vals = Some (Some t) ->
        In a db -> technician_id a = Some t -> id a <> i ->
        exists x, write py_int_strip i vals db = Raise x)
  /\ (forall tech g,
        In g db -> technician_id g = None ->
        exists s, get_settings_for_technician py_int_strip tech db
                  = Ok (s, db)).
Proof.
  intros Hreach. destruct (invariant_reachable db Hreach) as [Hnd Hu].
  split; [|split; [exact Hnd|split; [|split]]].
  - intros a b t Ha Hb Hta Htb.
    apply (same_id_same_row db); auto. now apply (Hu a b t).
  - intros vals t a Hv Ha Hta.
    destruct (create py_int_strip vals db) as [[r db']|x] eqn:Hc;
      [|now exists x].
    exfalso. apply create_Ok in Hc. destruct Hc as (_ & Hid & Hrt & Hchk).
    rewrite Hv in Hrt.
    assert (Hin : In a (db ++ [r])) by (apply in_app_iff; now left).
    pose proof (check_unique_technician_Ok _ _ t Hchk Hrt a Hin Hta) as Heq.
    apply next_id_fresh in Ha. lia.
  - intros i vals t a Hv Ha Hta Hne.
    destruct (write py_int_strip i vals db) as [db'|x] eqn:Hw;
      [|now exists x].
    exfalso. apply write_Ok in Hw. destruct Hw as (s & Hb & -> & Hchk).
    assert (Hne' : w_technician_id vals <> None) by congruence.
    specialize (Hchk Hne').
    assert (Hrt : technician_id (assign vals s) = Some t)
      by (simpl; now rewrite Hv).
    assert (Hin : In a (update i (assign vals s) db)).
    { unfold update. apply in_map_iff. exists a. split; [|exact Ha].
      apply Z.eqb_neq in Hne. now rewrite Hne. }
    pose proof (check_unique_technician_Ok _ _ t Hchk Hrt a Hin Hta) as Heq.
    destruct (settings_browse_Some _ _ _ Hb) as [_ Hsid].
    simpl in Heq. congruence.
  - intros tech g Hg Hgt. unfold get_settings_for_technician.
    destruct (search1 _ db) as [s|]; [now exists s|].
    destruct (search1 (fun s => leaf_eq (technician_id s) None) db)
      as [s|] eqn:Hfind; [now exists s|].
    exfalso. unfold search1 in Hfind.
    apply (find_none _ _ Hfind) in Hg. rewrite Hgt in Hg. discriminate.
Qed.

End Settings.

Section SettingsWitness.

Import AppointmentSettings.

(** [settings_one_per_technician] on a table built by two creates: the
    settings of technician 7 and a global record. *)
Lemma settings_one_per_technician_witness :
  reachable digit_int [default_settings 1 (Some 7); default_settings 2 None]
  /\ one_per_technician
       [default_settings 1 (Some 7); default_settings 2 None].
Proof.
  assert (H : reachable digit_int
                [default_settings 1 (Some 7); default_settings 2 None]).
  { apply (reach_create digit_int (settings_vals None)
             [default_settings 1 (Some 7)] (default_settings 2 None));
      [|reflexivity].
    apply (reach_create digit_int (settings_vals (Some 7)) []
             (default_settings 1 (Some 7))); [|reflexivity].
    apply reach_empty. }
  split; [exact H|].
  exact (proj1 (settings_one_per_technician digit_int _ H)).
Defined.

End SettingsWitness.

(** * Further properties of the scheduling engine *)

(** ** Creating appointments *)

Section Creation.

Import SupportAppointment.

Lemma appointment_next_id_fresh (db : table) (a : appointment) :
  In a db -> id a < next_id db.
Proof.
  unfold next_id. induction db as [|x db IH]; cbn [map fold_right In];
    [intros []|].
  intros [-> | H]; [lia|]. specialize (IH H). lia.
Qed.

(** Leaving out an id that no row has changes nothing. *)
Lemma find_conflicts_fresh (db : table) (tech : option Z)
    (s1 e1 : option datetime) (i : Z) :
  (forall x, In x db -> id x <> i) ->
  find_conflicts db tech s1 e1 (Some (Some i)) = find_conflicts db tech s1 e1 None.
Proof.
  intros H. unfold find_conflicts, search. apply filter_ext_in.
  intros x Hx. unfold conflict_domain. f_equal. simpl.
  apply negb_true_iff, Z.eqb_neq. now apply H.
Qed.

Lemma find_conflicts_app (db1 db2 : table) (tech : option Z)
    (s1 e1 : option datetime) (excl : option (option Z)) :
  find_conflicts (db1 ++ db2) tech s1 e1 excl
  = find_conflicts db1 tech s1 e1 excl ++ find_conflicts db2 tech s1 e1 excl.
Proof. unfold find_conflicts, search. apply filter_app. Qed.

Lemma find_conflicts_self (r : appointment) (tech : option Z)
    (s1 e1 : option datetime) :
  find_conflicts [r] tech s1 e1 (Some (Some (id r))) = [].
Proof.
  unfold find_conflicts, search. simpl.
  assert (H : conflict_domain tech s1 e1 (Some (Some (id r))) r = false).
  { unfold conflict_domain. simpl. rewrite Z.eqb_refl. simpl.
    now rewrite andb_false_r. }
  now rewrite H.
Qed.

(** The conflict search [create] runs for its new record is the search
    over the table before, with no row left out. *)
Lemma create_conflict_search (db : table) (r : appointment) :
  id r = next_id db ->
  find_conflicts (db ++ [r]) (technician_id r) (scheduled_date r)
                 (end_datetime r) (Some (Some (id r)))
  = find_conflicts db (technician_id r) (scheduled_date r) (end_datetime r) None.
Proof.
  intros Hid. rewrite find_conflicts_app, find_conflicts_self, app_nil_r.
  apply find_conflicts_fresh. intros x Hx.
  apply appointment_next_id_fresh in Hx. lia.
Qed.

(** [create] accepts the values exactly when the customer, the technician
    and the date are given, the date is strictly after now, the technician
    is in the technician group and the conflict search for the new interval
    is empty. *)
Lemma create_accepts_iff (e : env) (vals : create_vals) (db : table) :
  (exists a db', create e vals db = Ok (a, db')) <->
  exists c t s,
    v_customer_id vals = Some c /\ v_technician_id vals = Some t
    /\ v_scheduled_date vals = Some s /\ now e < s
    /\ group_support_technician e t = true
    /\ find_conflicts db (Some t) (Some s)
         (_compute_end_datetime (Some s) (default (hours 1) (v_duration vals)))
         None = [].
Proof.
  unfold create. cbv zeta.
  destruct (v_customer_id vals) as [c|]; cbn [is_some andb negb];
    [|split; [intros (a & db' & H); discriminate
             |intros (c & t & s & H & _); discriminate]].
  destruct (v_technician_id vals) as [t|]; cbn [is_some andb negb];
    [|split; [intros (a & db' & H); discriminate
             |intros (c' & t & s & _ & H & _); discriminate]].
  destruct (v_scheduled_date vals) as [s|]; cbn [is_some andb negb];
    [|split; [intros (a & db' & H); discriminate
             |intros (c' & t' & s & _ & _ & H & _); discriminate]].
  set (dur := default (hours 1) (v_duration vals)).
  set (record := {| id := next_id db; customer_id := Some c;
                    technician_id := Some t; scheduled_date := Some s;
                    duration := dur; status := default draft (v_status vals);
                    send_confirmation_email :=
                      default false (v_send_confirmation_email vals);
                    send_reminder_email :=
                      default false (v_send_reminder_email vals);
                    confirmation_sent := false; reminder_sent := false;
                    end_datetime := _compute_end_datetime (Some s) dur |}).
  assert (Hsearch :
            find_conflicts (db ++ [record]) (Some t) (Some s)
              (_compute_end_datetime (Some s) dur) (Some (Some (next_id db)))
            = find_conflicts db (Some t) (Some s)
                (_compute_end_datetime (Some s) dur) None)
    by (apply (create_conflict_search db record); reflexivity).
  split.
  - intros (a & db' & H).
    apply bind_Ok in H. destruct H as ([] & Hchk & H).
    apply bind_Ok in H. destruct H as ([] & Hgrp & _).
    unfold _check_appointment_validity in Hchk. cbn [scheduled_date record] in Hchk.
    destruct (s <=? now e) eqn:Hs; [discriminate|]. apply Z.leb_gt in Hs.
    cbn [technician_id end_datetime id record] in Hchk.
    rewrite Hsearch in Hchk.
    destruct (truthy _) eqn:Ht in Hchk; [discriminate|].
    apply truthy_false in Ht.
    unfold _check_technician_group in Hgrp. cbn [technician_id record] in Hgrp.
    destruct (group_support_technician e t) eqn:Hg; [|discriminate].
    exists c, t, s. repeat split; auto.
  - intros (c' & t' & s' & Hc & Ht & Hs & Hlt & Hg & Hnil).
    inversion Hc; inversion Ht; inversion Hs; subst c' t' s'.
    unfold _check_appointment_validity. cbn [scheduled_date record].
    assert (Hnow : (s <=? now e) = false) by (apply Z.leb_gt; lia).
    rewrite Hnow. cbn [technician_id end_datetime id record].
    rewrite Hsearch, Hnil. cbn [truthy bind].
    unfold _check_technician_group. cbn [technician_id record].
    rewrite Hg. cbn [negb bind]. eexists. eexists. reflexivity.
Qed.


(** X2: A start that is not strictly after now is rejected whatever the
    duration and whatever the table holds: by [create], by a [write] of
    scheduled_date on an existing record, and by the quick-create wizard
    (there after the stale-conflict test). *)
Theorem past_start_is_rejected (e : env) (db : table) (s : datetime) :
  s <= now e ->
  (forall vals c t,
     v_customer_id vals = Some c -> v_technician_id vals = Some t ->
     v_scheduled_date vals = Some s ->
     create e vals db
     = Raise (ValidationError "Cannot schedule appointments in the past."))
  /\ (forall i vals a,
        browse i db = Some a -> w_scheduled_date vals = Some s ->
        write e i vals db
        = Raise (ValidationError "Cannot schedule appointments in the past."))
  /\ (forall w,
        AppointmentQuickCreateWizard.conflicts_found w = false ->
        AppointmentQuickCreateWizard.scheduled_date w = Some s ->
        AppointmentQuickCreateWizard.action_create_appointment e w db
        = Raise (ValidationError "Cannot schedule appointments in the past.")).
Proof.
  intros Hs. assert (Hnow : (s <=? now e) = true) by (now apply Z.leb_le).
  split; [|split].
  - intros vals c t Hc Ht Hd. unfold create. cbv zeta.
    rewrite Hc, Ht, Hd. cbn [is_some andb negb].
    unfold _check_appointment_validity. cbn [scheduled_date].
    now rewrite Hnow.
  - intros i vals a Hb Hd. unfold write. rewrite Hb. cbv zeta.
    rewrite Hd. cbn [is_some orb].
    unfold _check_appointment_validity.
    replace (scheduled_date (assign vals a)) with (Some s)
      by (unfold assign; cbn [scheduled_date]; now rewrite Hd).
    now rewrite Hnow.
  - intros w Hf Hd.
    unfold AppointmentQuickCreateWizard.action_create_appointment,
      AppointmentQuickCreateWizard._validate_appointment_data.
    now rewrite Hf, Hd, Hnow.
Qed.

(** [past_start_is_rejected] for a start at now itself, on the sample table
    at 09:00 of 1970-01-12. *)
Lemma past_start_is_rejected_witness :
  create (sample_env 982800) (booking_vals 3 7 982800 3600 draft)
    [sample 1 confirmed]
  = Raise (ValidationError "Cannot schedule appointments in the past.").
Proof.
  apply (proj1 (past_start_is_rejected (sample_env 982800)
                  [sample 1 confirmed] 982800 (Z.le_refl _))
           (booking_vals 3 7 982800 3600 draft) 3 7); reflexivity.
Defined.

(** X3: For a start after now, a technician of the group and a duration other
    than 0, [create] accepts the appointment exactly when no confirmed or
    in_progress appointment of the technician overlaps [s, s + d): one
    that ends at s or starts at s + d does not stand in the way. *)
Theorem booking_decided_by_overlap (e : env) (db : table) (c t : Z)
    (s : datetime) (d : Z) (st : appt_status) :
  now e < s -> group_support_technician e t = true -> d <> 0 ->
  ((exists a db', create e (booking_vals c t s d st) db = Ok (a, db')) <->
   forall b sb eb,
     In b db -> technician_id b = Some t -> blocking (status b) = true ->
     scheduled_date b = Some sb -> end_datetime b = Some eb ->
     eb <= s \/ s + d <= sb).
Proof.
  intros Hlt Hg Hd.
  rewrite (create_accepts_iff e (booking_vals c t s d st) db).
  cbn [booking_vals v_customer_id v_technician_id v_scheduled_date v_duration
       default].
  assert (Hend : _compute_end_datetime (Some s) d = Some (s + d)).
  { unfold _compute_end_datetime. apply Z.eqb_neq in Hd. now rewrite Hd. }
  split.
  - intros (c' & t' & s' & Hc & Ht & Hs & _ & _ & Hnil).
    inversion Ht; inversion Hs; subst t' s'. rewrite Hend in Hnil.
    intros b sb eb Hb Htb Hbl Hsb Heb.
    destruct (Z_le_gt_dec eb s) as [H1 | H1]; [now left|].
    destruct (Z_le_gt_dec (s + d) sb) as [H2 | H2]; [now right|].
    exfalso.
    assert (Hin : In b (find_conflicts db (Some t) (Some s) (Some (s + d)) None)).
    { unfold find_conflicts, search. apply filter_In. split; [exact Hb|].
      apply conflict_domain_spec. repeat split; auto.
      - now apply blocking_spec.
      - exists sb, eb. repeat split; auto; lia.
      - discriminate. }
    rewrite Hnil in Hin. destruct Hin.
  - intros Hfree. exists c, t, s. rewrite Hend. repeat split; auto.
    destruct (find_conflicts db (Some t) (Some s) (Some (s + d)) None)
      as [|b rest] eqn:Hf; [reflexivity|].
    exfalso.
    assert (Hin : In b (find_conflicts db (Some t) (Some s) (Some (s + d)) None))
      by (rewrite Hf; now left).
    unfold find_conflicts, search in Hin. apply filter_In in Hin.
    destruct Hin as [Hb Hdom]. apply conflict_domain_spec in Hdom.
    destruct Hdom as (Htb & Hbl & (sb & eb & Hsb & Heb & H1 & H2) & _).
    apply blocking_spec in Hbl.
    destruct (Hfree b sb eb Hb Htb Hbl Hsb Heb); lia.
Qed.

(** [booking_decided_by_overlap] for technician 7 with a confirmed
    appointment from 09:00 to 10:00 on 1970-01-12: the request for 10:00 to
    11:00 is accepted. *)
Lemma booking_decided_by_overlap_witness :
  exists a db',
    create (sample_env 0) (booking_vals 3 7 986400 3600 draft)
      [booked 1 982800 confirmed] = Ok (a, db').
Proof.
  apply (proj2 (booking_decided_by_overlap (sample_env 0)
                  [booked 1 982800 confirmed] 3 7 986400 3600 draft
                  eq_refl eq_refl ltac:(discriminate))).
  intros b sb eb [<- | []] _ _ Hsb Heb.
  inversion Hsb; inversion Heb; subst. left. apply Z.le_refl.
Defined.

End Creation.

(** ** Operations that keep technicians free of double bookings *)

Section BookingInvariant.

Import SupportAppointment.

Lemma leaf_eq_same (x : option Z) : leaf_eq x x = true.
Proof. destruct x; simpl; [apply Z.eqb_refl | reflexivity]. Qed.

(** A record whose conflict search is empty overlaps no confirmed or
    in_progress row of its technician that the search looked at. *)
Lemma empty_search_no_overlap (db : table) (r b : appointment)
    (excl : option (option Z)) (sa ea sb eb : datetime) :
  find_conflicts db (technician_id r) (scheduled_date r) (end_datetime r) excl
  = [] ->
  In b db -> excl <> Some (Some (id b)) ->
  technician_id r = technician_id b -> blocking (status b) = true ->
  scheduled_date r = Some sa -> end_datetime r = Some ea ->
  scheduled_date b = Some sb -> end_datetime b = Some eb ->
  ~ (sa < eb /\ sb < ea).
Proof.
  intros Hnil Hb Hex Ht Hbl Hsa Hea Hsb Heb [H1 H2].
  assert (Hin : In b (find_conflicts db (technician_id r) (scheduled_date r)
                        (end_datetime r) excl)).
  { unfold find_conflicts, search. apply filter_In. split; [exact Hb|].
    unfold conflict_domain.
    rewrite Ht, leaf_eq_same, Hsa, Hea, Hsb, Heb, Hbl. simpl.
    assert (Hlt1 : (sb <? ea) = true) by (now apply Z.ltb_lt).
    assert (Hlt2 : (sa <? eb) = true) by (now apply Z.ltb_lt).
    rewrite Hlt1, Hlt2. simpl.
    destruct excl as [[x|]|]; simpl; auto.
    apply negb_true_iff, Z.eqb_neq. congruence. }
  rewrite Hnil in Hin. destruct Hin.
Qed.

(** What a successful [create] has checked and built. *)
Lemma appointment_create_Ok (e : env) (vals : create_vals) (db db' : table)
    (a : appointment) :
  create e vals db = Ok (a, db') ->
  db' = db ++ [a] /\ id a = next_id db
  /\ (exists s, scheduled_date a = Some s /\ now e < s)
  /\ find_conflicts db (technician_id a) (scheduled_date a) (end_datetime a)
                    None = []
  /\ (forall t, technician_id a = Some t ->
                group_support_technician e t = true)
  /\ end_datetime a = _compute_end_datetime (scheduled_date a) (duration a)
  /\ status a = default draft (v_status vals)
  /\ duration a = default (hours 1) (v_duration vals)
  /\ scheduled_date a = v_scheduled_date vals
  /\ technician_id a = v_technician_id vals.
Proof.
  unfold create. cbv zeta.
  destruct (negb _); [discriminate|].
  set (record := {| id := next_id db; customer_id := v_customer_id vals;
                    technician_id := v_technician_id vals;
                    scheduled_date := v_scheduled_date vals;
                    duration := default (hours 1) (v_duration vals);
                    status := default draft (v_status vals);
                    send_confirmation_email :=
                      default false (v_send_confirmation_email vals);
                    send_reminder_email :=
                      default false (v_send_reminder_email vals);
                    confirmation_sent := false; reminder_sent := false;
                    end_datetime :=
                      _compute_end_datetime (v_scheduled_date vals)
                        (default (hours 1) (v_duration vals)) |}).
  intros H.
  apply bind_Ok in H. destruct H as ([] & Hchk & H).
  apply bind_Ok in H. destruct H as ([] & Hgrp & H).
  apply check_appointment_validity_Ok in Hchk.
  destruct Hchk as (s & Hs & Hlt & Hnil).
  rewrite <- Hs in Hnil.
  rewrite (create_conflict_search db record eq_refl) in Hnil.
  pose proof (proj1 (check_technician_group_Ok e record) Hgrp) as Hg.
  assert (Hsame : forall r : appointment,
            r = record \/ r = _send_confirmation_email e record ->
            id r = id record /\ technician_id r = technician_id record
            /\ scheduled_date r = scheduled_date record
            /\ end_datetime r = end_datetime record
            /\ duration r = duration record /\ status r = status record).
  { intros r [-> | ->]; [repeat split|].
    unfold _send_confirmation_email.
    destruct (negb (confirmation_sent record) && template_confirmation e);
      repeat split. }
  assert (Ha : a = record \/ a = _send_confirmation_email e record).
  { destruct (send_confirmation_email record); inversion H; auto. }
  assert (Hdb : db' = db ++ [a]).
  { destruct (send_confirmation_email record); inversion H; auto. }
  destruct (Hsame a Ha) as (H1 & H2 & H3 & H4 & H5 & H6).
  rewrite H1, H2, H3, H4, H5, H6.
  split; [exact Hdb|]. split; [reflexivity|].
  split; [exists s; auto|]. repeat split; auto.
Qed.

(** What a successful [write] has checked and built. *)
Lemma appointment_write_Ok (e : env) (i : Z) (vals : write_vals)
    (db db' : table) :
  write e i vals db = Ok db' ->
  exists a,
    browse i db = Some a /\ db' = update i (assign vals a) db
    /\ (names_schedule vals = true ->
        _check_appointment_validity e db' (assign vals a) = Ok tt).
Proof.
  unfold write. destruct (browse i db) as [a|] eqn:Hb; [|discriminate].
  cbv zeta. intros H. exists a.
  apply bind_Ok in H. destruct H as ([] & Hchk & H).
  apply bind_Ok in H. destruct H as ([] & _ & H).
  inversion H; subst. repeat split.
  unfold names_schedule. intros Hn. now rewrite Hn in Hchk.
Qed.

Lemma booking_invariant_create (e : env) (vals : create_vals)
    (db db' : table) (a : appointment) :
  booking_invariant db -> create e vals db = Ok (a, db') ->
  booking_invariant db'.
Proof.
  intros [Hnd Hinv] Hc. apply appointment_create_Ok in Hc.
  destruct Hc as (-> & Hid & _ & Hnil & _).
  split.
  - rewrite map_app. simpl.
    apply NoDup_app; [exact Hnd | constructor; [intros []|constructor] |].
    intros x Hx [Hr | []]. apply in_map_iff in Hx.
    destruct Hx as (b & Hb & Hin). apply appointment_next_id_fresh in Hin. lia.
  - intros x y sx ex sy ey Hx Hy Hne Ht Hbx Hby Hsx Hex Hsy Hey.
    apply in_app_iff in Hx. apply in_app_iff in Hy.
    destruct Hx as [Hx | [<- | []]]; destruct Hy as [Hy | [<- | []]].
    + now apply (Hinv x y sx ex sy ey).
    + intros [H1 H2].
      apply (empty_search_no_overlap db a x None sy ey sx ex); auto.
      discriminate.
    + apply (empty_search_no_overlap db a y None sx ex sy ey); auto.
      discriminate.
    + congruence.
Qed.

Lemma booking_invariant_write (e : env) (i : Z) (vals : write_vals)
    (db db' : table) :
  booking_invariant db -> names_schedule vals = true ->
  write e i vals db = Ok db' -> booking_invariant db'.
Proof.
  intros [Hnd Hinv] Hn Hw. apply appointment_write_Ok in Hw.
  destruct Hw as (a & Hb & -> & Hchk). specialize (Hchk Hn).
  destruct (browse_Some _ _ _ Hb) as [_ Hid].
  assert (Hrid : id (assign vals a) = i) by exact Hid.
  apply check_appointment_validity_Ok in Hchk.
  destruct Hchk as (s & Hs & _ & Hnil). rewrite <- Hs, Hrid in Hnil.
  rewrite find_conflicts_update in Hnil by exact Hrid.
  split; [now rewrite update_ids|].
  intros x y sx ex sy ey Hx Hy Hne Ht Hbx Hby Hsx Hex Hsy Hey.
  apply In_update in Hx. apply In_update in Hy.
  destruct Hx as [[-> _] | [Hx Hnx]]; destruct Hy as [[-> _] | [Hy Hny]].
  - congruence.
  - apply (empty_search_no_overlap db (assign vals a) y (Some (Some i))
             sx ex sy ey); auto. congruence.
  - intros [H1 H2].
    apply (empty_search_no_overlap db (assign vals a) x (Some (Some i))
             sy ey sx ex); auto. congruence.
  - now apply (Hinv x y sx ex sy ey).
Qed.

(** X4: On a table with unique ids and no double booking, [create], a [write]
    that names scheduled_date, technician_id or duration, and the
    reschedule wizard all leave a table with unique ids and no double
    booking. *)
Theorem booking_operations_keep_invariant (e : env) (db : table) :
  booking_invariant db ->
  (forall vals a db', create e vals db = Ok (a, db') -> booking_invariant db')
  /\ (forall i vals db',
        names_schedule vals = true -> write e i vals db = Ok db' ->
        booking_invariant db')
  /\ (forall w db',
        AppointmentReschedule.action_reschedule e w db = Ok db' ->
        booking_invariant db').
Proof.
  intros Hinv. split; [|split].
  - intros vals a db'. now apply booking_invariant_create.
  - intros i vals db' Hn. now apply booking_invariant_write.
  - intros w db' Hr. unfold AppointmentReschedule.action_reschedule in Hr.
    destruct (browse (AppointmentReschedule.appointment_id w) db) as [a|];
      [|discriminate].
    apply bind_Ok in Hr. destruct Hr as ([] & Hval & Hw).
    apply validate_reschedule_Ok in Hval.
    destruct Hval as (_ & (nd & Hnd & _) & _).
    apply (booking_invariant_write e _ _ db db' Hinv) in Hw; [exact Hw|].
    unfold names_schedule. simpl. now rewrite Hnd.
Qed.

(** [booking_operations_keep_invariant] on the table with the confirmed
    appointment of 09:00 to 10:00: the draft created for 10:00 to 11:00
    leaves no double booking. *)
Lemma booking_operations_keep_invariant_witness :
  booking_invariant [booked 1 982800 confirmed; booked 2 986400 draft].
Proof.
  assert (H0 : booking_invariant [booked 1 982800 confirmed]).
  { split.
    - constructor; [intros []|constructor].
    - intros a b sa ea sb eb [<- | []] [<- | []] Hne. now elim Hne. }
  apply (proj1 (booking_operations_keep_invariant (sample_env 0)
                  [booked 1 982800 confirmed] H0)
           (booking_vals 3 7 986400 3600 draft) (booked 2 986400 draft)).
  reflexivity.
Defined.

Lemma update_non_blocking (i : Z) (r : appointment) (db : table)
    (tech : option Z) (s1 e1 : option datetime) (excl : option (option Z)) :
  blocking (status r) = false ->
  find_conflicts (update i r db) tech s1 e1 excl
  = filter (fun x => negb (id x =? i)) (find_conflicts db tech s1 e1 excl).
Proof.
  intros Hr. unfold find_conflicts, search, update.
  induction db as [|x db IH]; simpl; [reflexivity|].
  destruct (id x =? i) eqn:Hx.
  - assert (H1 : conflict_domain tech s1 e1 excl r = false).
    { unfold conflict_domain. rewrite Hr.
      now rewrite andb_false_r. }
    rewrite H1.
    destruct (conflict_domain tech s1 e1 excl x); simpl;
      [rewrite Hx; simpl|]; exact IH.
  - destruct (conflict_domain tech s1 e1 excl x); simpl;
      [rewrite Hx; simpl; f_equal|]; exact IH.
Qed.

(** X5: Completing or cancelling an appointment, by the direct actions or by
    the cancellation wizard, frees its slot: every conflict search on the
    table afterwards returns what it returned before without that
    appointment, and a table with unique ids and no double booking stays
    one. *)
Theorem closing_frees_the_slot (e : env) (db db' : table) (i : Z) :
  call action_complete i db = Ok db'
  \/ call action_cancel_direct i db = Ok db'
  \/ (exists w, AppointmentCancel.appointment_id w = i
                /\ AppointmentCancel.action_cancel_appointment e w db = Ok db') ->
  (forall tech s1 e1 excl,
     find_conflicts db' tech s1 e1 excl
     = filter (fun x => negb (id x =? i)) (find_conflicts db tech s1 e1 excl))
  /\ (booking_invariant db -> booking_invariant db').
Proof.
  intros H.
  assert (Hshape : exists a st,
            browse i db = Some a /\ blocking st = false
            /\ db' = update i (with_status st a) db).
  { destruct H as [H | [H | (w & <- & H)]].
    - unfold call in H. destruct (browse i db) as [a|]; [|discriminate].
      inversion H. exists a, completed. auto.
    - unfold call in H. destruct (browse i db) as [a|]; [|discriminate].
      inversion H. exists a, cancelled. auto.
    - unfold AppointmentCancel.action_cancel_appointment in H.
      destruct (browse (AppointmentCancel.appointment_id w) db) as [a|] eqn:Hb;
        [|discriminate].
      apply bind_Ok in H. destruct H as ([] & _ & H).
      rewrite (write_status_only e _ cancelled db a Hb) in H.
      apply bind_Ok in H. destruct H as (db1 & H1 & H).
      apply bind_Ok in H. destruct H as ([] & _ & H).
      inversion H1; inversion H; subst. exists a, cancelled. auto. }
  destruct Hshape as (a & st & Hb & Hst & ->).
  destruct (browse_Some _ _ _ Hb) as [_ Hid].
  assert (Hsearch : forall tech s1 e1 excl,
            find_conflicts (update i (with_status st a) db) tech s1 e1 excl
            = filter (fun x => negb (id x =? i))
                     (find_conflicts db tech s1 e1 excl))
    by (intros; now apply update_non_blocking).
  split; [exact Hsearch|].
  intros [Hnd Hinv]. split; [now rewrite update_ids|].
  intros x y sx ex sy ey Hx Hy Hne Ht Hbx Hby.
  apply In_update in Hx. apply In_update in Hy.
  destruct Hx as [[-> _] | [Hx _]];
    [simpl in Hbx; rewrite Hst in Hbx; discriminate|].
  destruct Hy as [[-> _] | [Hy _]];
    [simpl in Hby; rewrite Hst in Hby; discriminate|].
  now apply (Hinv x y sx ex sy ey).
Qed.

(** [closing_frees_the_slot] on the sample table: once the confirmed
    appointment 1 is cancelled, the search over its hour finds nothing. *)
Lemma closing_frees_the_slot_witness :
  find_conflicts [sample 1 cancelled] (Some 7) (Some 982800) (Some 986400) None
  = [].
Proof.
  rewrite (proj1 (closing_frees_the_slot (sample_env 0) [sample 1 confirmed]
                    [sample 1 cancelled] 1 (or_intror (or_introl eq_refl)))
             (Some 7) (Some 982800) (Some 986400) None).
  reflexivity.
Defined.

End BookingInvariant.

(** ** The quick-create wizard *)

Section QuickCreate.

Import AppointmentQuickCreateWizard.
Import SupportAppointment.

(** The flag the onchange leaves is the truth value of the conflict
    search for the values on the form. *)
Lemma onchange_sets_flag (db : table) (w : wizard) (t : Z) (s : datetime) :
  AppointmentQuickCreateWizard.technician_id w = Some t -> AppointmentQuickCreateWizard.scheduled_date w = Some s -> AppointmentQuickCreateWizard.duration w <> 0 ->
  _onchange_check_conflicts db w
  = set_conflicts_found
      (truthy (find_conflicts db (Some t) (Some s)
                              (Some (s + AppointmentQuickCreateWizard.duration w)) None)) w.
Proof.
  intros Ht Hs Hd. apply Z.eqb_neq in Hd.
  unfold _onchange_check_conflicts, _check_technician_availability.
  rewrite Ht, Hs, Hd. reflexivity.
Qed.

Lemma validate_appointment_data_Ok (e : env) (w : wizard) :
  _validate_appointment_data e w = Ok tt <->
  conflicts_found w = false
  /\ (exists s, AppointmentQuickCreateWizard.scheduled_date w = Some s /\ now e < s)
  /\ (exists t, AppointmentQuickCreateWizard.technician_id w = Some t
                /\ group_support_technician e t = true)
  /\ 0 < AppointmentQuickCreateWizard.duration w.
Proof.
  unfold _validate_appointment_data. split.
  - destruct (conflicts_found w); [discriminate|].
    destruct (AppointmentQuickCreateWizard.scheduled_date w) as [s|]; [|discriminate].
    destruct (s <=? now e) eqn:Hs; [discriminate|].
    destruct (AppointmentQuickCreateWizard.technician_id w) as [t|]; [|discriminate].
    destruct (group_support_technician e t) eqn:Hg; [|discriminate].
    destruct (AppointmentQuickCreateWizard.duration w <=? 0) eqn:Hd; [discriminate|].
    intros _. apply Z.leb_gt in Hs. apply Z.leb_gt in Hd.
    repeat split; eauto.
  - intros (Hf & (s & Hs & Hlt) & (t & Ht & Hg) & Hd).
    rewrite Hf, Hs, Ht, Hg.
    assert (H1 : (s <=? now e) = false) by (apply Z.leb_gt; lia).
    assert (H2 : (AppointmentQuickCreateWizard.duration w <=? 0) = false) by (apply Z.leb_gt; lia).
    now rewrite H1, H2.
Qed.

(** A successful [action_create_appointment], whatever the flag held. *)
Lemma action_create_appointment_Ok (e : env) (w : wizard) (db db' : table)
    (a : appointment) :
  action_create_appointment e w db = Ok (a, db') ->
  conflicts_found w = false
  /\ 0 < AppointmentQuickCreateWizard.duration w
  /\ db' = db ++ [a] /\ id a = next_id db
  /\ status a = draft
  /\ duration a = AppointmentQuickCreateWizard.duration w
  /\ technician_id a = AppointmentQuickCreateWizard.technician_id w
  /\ (forall t, technician_id a = Some t -> group_support_technician e t = true)
  /\ exists s,
       AppointmentQuickCreateWizard.scheduled_date w = Some s /\ scheduled_date a = Some s /\ now e < s
       /\ end_datetime a = Some (s + duration a)
       /\ find_conflicts db (technician_id a) (Some s) (Some (s + duration a))
                         None = [].
Proof.
  unfold action_create_appointment. intros H.
  apply bind_Ok in H. destruct H as ([] & Hval & Hc).
  apply validate_appointment_data_Ok in Hval.
  destruct Hval as (Hf & (s & Hs & Hlt) & _ & Hd).
  apply appointment_create_Ok in Hc.
  destruct Hc as (Hdb & Hid & _ & Hnil & Hg & Hend & Hst & Hdur & Hsd & Htech).
  cbn [_prepare_appointment_values v_status v_duration v_scheduled_date
       v_technician_id default] in Hst, Hdur, Hsd, Htech.
  rewrite Hs in Hsd.
  assert (Hend' : end_datetime a = Some (s + duration a)).
  { rewrite Hend, Hsd. unfold _compute_end_datetime.
    assert (Hz : (duration a =? 0) = false) by (apply Z.eqb_neq; lia).
    now rewrite Hz. }
  rewrite Hsd, Hend' in Hnil.
  repeat split; auto. exists s. repeat split; auto.
Qed.

(** With the flag set by the onchange for the values on the form, the
    wizard creates the appointment as soon as its own tests pass. *)
Lemma fresh_check_creates (e : env) (db : table) (w : wizard) (c t : Z)
    (s : datetime) :
  AppointmentQuickCreateWizard.customer_id w = Some c -> AppointmentQuickCreateWizard.technician_id w = Some t -> AppointmentQuickCreateWizard.scheduled_date w = Some s ->
  now e < s -> group_support_technician e t = true -> 0 < AppointmentQuickCreateWizard.duration w ->
  find_conflicts db (Some t) (Some s) (Some (s + AppointmentQuickCreateWizard.duration w)) None = [] ->
  exists a db',
    action_create_appointment e (_onchange_check_conflicts db w) db
    = Ok (a, db').
Proof.
  intros Hc Ht Hs Hlt Hg Hd Hnil.
  rewrite (onchange_sets_flag db w t s Ht Hs) by lia. rewrite Hnil.
  unfold action_create_appointment.
  assert (Hval : _validate_appointment_data e
                   (set_conflicts_found (truthy (@nil appointment)) w)
                 = Ok tt).
  { apply validate_appointment_data_Ok. simpl.
    repeat split; eauto. }
  rewrite Hval. cbn [bind].
  apply create_accepts_iff. exists c, t, s.
  cbn [_prepare_appointment_values set_conflicts_found v_customer_id
       v_technician_id v_scheduled_date v_duration default
       AppointmentQuickCreateWizard.customer_id
       AppointmentQuickCreateWizard.technician_id
       AppointmentQuickCreateWizard.scheduled_date
       AppointmentQuickCreateWizard.duration].
  repeat split; auto.
  unfold _compute_end_datetime.
  assert (Hz : (AppointmentQuickCreateWizard.duration w =? 0) = false) by (apply Z.eqb_neq; lia).
  now rewrite Hz.
Qed.

(** X6: Once the onchange has run for a technician, a date and a duration
    other than 0, its flag tells whether the conflict search for the form
    returns a row, and the wizard creates the appointment exactly when the
    flag is down, the date is after now, the technician is in the group,
    the duration is positive and a customer is given: the model constraint
    run by [create] rejects nothing the fresh flag let through. *)
Theorem fresh_wizard_check_decides_creation (e : env) (db : table)
    (w : wizard) (t : Z) (s : datetime) :
  AppointmentQuickCreateWizard.technician_id w = Some t -> AppointmentQuickCreateWizard.scheduled_date w = Some s -> AppointmentQuickCreateWizard.duration w <> 0 ->
  conflicts_found (_onchange_check_conflicts db w)
  = truthy (find_conflicts db (Some t) (Some s) (Some (s + AppointmentQuickCreateWizard.duration w)) None)
  /\ ((exists a db',
         action_create_appointment e (_onchange_check_conflicts db w) db
         = Ok (a, db')) <->
      conflicts_found (_onchange_check_conflicts db w) = false
      /\ now e < s /\ group_support_technician e t = true
      /\ 0 < AppointmentQuickCreateWizard.duration w /\ AppointmentQuickCreateWizard.customer_id w <> None).
Proof.
  intros Ht Hs Hd. split.
  - now rewrite (onchange_sets_flag db w t s Ht Hs Hd).
  - split.
    + intros (a & db' & H).
      assert (Hex : exists a db',
                create e (_prepare_appointment_values
                            (_onchange_check_conflicts db w)) db = Ok (a, db')).
      { unfold action_create_appointment in H. apply bind_Ok in H.
        destruct H as (_ & _ & H). eauto. }
      apply create_accepts_iff in Hex.
      destruct Hex as (c & _ & _ & Hc & _).
      apply action_create_appointment_Ok in H.
      destruct H as (Hf & Hdur & _ & _ & _ & _ & Htech & Hg & s' & Hs' & _ & Hlt & _).
      rewrite (onchange_sets_flag db w t s Ht Hs Hd) in Hs', Htech, Hdur, Hc.
      cbn in Hs', Htech, Hdur, Hc.
      rewrite Hs in Hs'. inversion Hs'; subst s'.
      repeat split; auto.
      * apply Hg. now rewrite Htech.
      * congruence.
    + intros (Hf & Hlt & Hg & Hdur & Hc).
      destruct (AppointmentQuickCreateWizard.customer_id w) as [c|] eqn:Hcw; [|congruence].
      apply (fresh_check_creates e db w c t s); auto.
      rewrite (onchange_sets_flag db w t s Ht Hs Hd) in Hf. simpl in Hf.
      now apply truthy_false.
Qed.

(** [fresh_wizard_check_decides_creation] for the sample wizard on the
    empty table: the flag is down after the onchange. *)
Lemma fresh_wizard_check_witness :
  conflicts_found (_onchange_check_conflicts [] sample_wizard) = false.
Proof.
  rewrite (proj1 (fresh_wizard_check_decides_creation (sample_env 0) []
                    sample_wizard 7 982800 eq_refl eq_refl
                    ltac:(discriminate))).
  reflexivity.
Defined.

(** X7: An appointment the wizard has created is a draft of positive duration
    that starts after now and ends at start + duration, for a technician of
    the group, appended to the table with the next id, and its interval
    meets no confirmed or in_progress appointment of the technician. *)
Theorem wizard_created_appointment (e : env) (w : wizard) (db db' : table)
    (a : appointment) :
  action_create_appointment e w db = Ok (a, db') ->
  db' = db ++ [a] /\ id a = next_id db
  /\ status a = draft /\ 0 < duration a
  /\ (exists t, technician_id a = Some t
                /\ group_support_technician e t = true)
  /\ exists s,
       scheduled_date a = Some s /\ now e < s
       /\ end_datetime a = Some (s + duration a)
       /\ find_conflicts db (technician_id a) (Some s) (Some (s + duration a))
                         None = [].
Proof.
  intros H.
  assert (Hex : exists a db',
            create e (_prepare_appointment_values w) db = Ok (a, db')).
  { unfold action_create_appointment in H. apply bind_Ok in H.
    destruct H as (_ & _ & H). eauto. }
  apply create_accepts_iff in Hex. destruct Hex as (_ & t & _ & _ & Ht & _).
  cbn in Ht.
  apply action_create_appointment_Ok in H.
  destruct H as (_ & Hd & Hdb & Hid & Hst & Hdur & Htech & Hg & s & _ & Hs
                 & Hlt & Hend & Hnil).
  repeat split; auto.
  - lia.
  - exists t. rewrite Htech. split; [exact Ht|]. apply Hg. now rewrite Htech.
  - exists s. auto.
Qed.

(** [wizard_created_appointment] for the sample wizard on the empty table:
    the created row is the draft of 09:00 to 10:00 with the id 1. *)
Lemma wizard_created_appointment_witness :
  action_create_appointment (sample_env 0) sample_wizard []
  = Ok (booked 1 982800 draft, [booked 1 982800 draft])
  /\ status (booked 1 982800 draft) = draft
  /\ 0 < duration (booked 1 982800 draft).
Proof.
  split; [reflexivity|].
  destruct (wizard_created_appointment (sample_env 0) sample_wizard []
              [booked 1 982800 draft] (booked 1 982800 draft) eq_refl)
    as (_ & _ & Hst & Hd & _).
  split; [exact Hst | exact Hd].
Defined.

(** Every suggested slot is free for the technician of the wizard. *)
Lemma suggested_slot_is_free (e : env) (db : table) (w : wizard)
    (slot : datetime) :
  In slot (_find_available_slots e w db) ->
  find_conflicts db (AppointmentQuickCreateWizard.technician_id w) (Some slot)
    (Some (slot + AppointmentQuickCreateWizard.duration w)) None = []
  /\ replace_hour_sharp 8 (now e) <= slot.
Proof.
  unfold _find_available_slots. cbv zeta. rewrite scan_days_first_five.
  intros Hin.
  destruct (first_five_ok (now e) e (fun _ => false) (slot_free db w) eq_refl)
    as (_ & _ & Hall).
  destruct (Hall slot Hin) as (_ & _ & Hlo & _ & Hfree).
  split; [|exact Hlo].
  unfold slot_free in Hfree. cbv zeta in Hfree.
  now apply search_count_zero in Hfree.
Qed.

(** X8: A suggested slot that lies after now can be booked: entered on the
    form it leaves the conflict flag down, and the wizard then creates a
    draft at that slot, provided the technician is in the group, the
    duration is positive and a customer is given. *)
Theorem suggested_slot_can_be_booked (e : env) (db : table) (w : wizard)
    (c t : Z) (slot : datetime) :
  In slot (_find_available_slots e w db) ->
  AppointmentQuickCreateWizard.customer_id w = Some c ->
  AppointmentQuickCreateWizard.technician_id w = Some t ->
  group_support_technician e t = true ->
  0 < AppointmentQuickCreateWizard.duration w ->
  now e < slot ->
  conflicts_found (_onchange_check_conflicts db (with_scheduled_date slot w))
  = false
  /\ exists a db',
       action_create_appointment e
         (_onchange_check_conflicts db (with_scheduled_date slot w)) db
       = Ok (a, db')
       /\ scheduled_date a = Some slot /\ status a = draft.
Proof.
  intros Hin Hc Ht Hg Hd Hlt.
  destruct (suggested_slot_is_free e db w slot Hin) as [Hfree _].
  rewrite Ht in Hfree.
  assert (Hflag : _onchange_check_conflicts db (with_scheduled_date slot w)
                  = set_conflicts_found false (with_scheduled_date slot w)).
  { rewrite (onchange_sets_flag db (with_scheduled_date slot w) t slot)
      by (simpl; auto; lia).
    simpl. now rewrite Hfree. }
  split; [now rewrite Hflag|].
  destruct (fresh_check_creates e db (with_scheduled_date slot w) c t slot)
    as (a & db' & Hok); simpl; auto.
  exists a, db'. split; [exact Hok|].
  apply action_create_appointment_Ok in Hok.
  destruct Hok as (_ & _ & _ & _ & Hst & _ & _ & _ & s & Hs & Hsa & _).
  rewrite Hflag in Hs. simpl in Hs. inversion Hs; subst s. auto.
Qed.

(** [suggested_slot_can_be_booked] on Monday 1970-01-12 at 07:00 with no
    appointment booked: the first suggestion, 08:00, leaves the flag
    down. *)
Lemma suggested_slot_can_be_booked_witness :
  In 979200 (_find_available_slots (sample_env monday_morning) sample_wizard [])
  /\ conflicts_found
       (_onchange_check_conflicts [] (with_scheduled_date 979200 sample_wizard))
     = false.
Proof.
  assert (Hin : In 979200 (_find_available_slots (sample_env monday_morning)
                             sample_wizard [])) by (now left).
  split; [exact Hin|].
  apply (proj1 (suggested_slot_can_be_booked (sample_env monday_morning) []
                  sample_wizard 3 7 979200 Hin eq_refl eq_refl eq_refl
                  eq_refl eq_refl)).
Defined.

End QuickCreate.

(** ** The mail flags *)

Section MailFlags.

Import AppointmentReschedule AppointmentCancel SupportAppointment.

Lemma browse_update_other (i j : Z) (r : appointment) (db : table) :
  id r = j -> i <> j -> browse i (update j r db) = browse i db.
Proof.
  intros Hr Hne. unfold browse, update.
  induction db as [|x db IH]; simpl; [reflexivity|].
  destruct (id x =? j) eqn:Hx.
  - apply Z.eqb_eq in Hx.
    assert (H1 : (id r =? i) = false) by (apply Z.eqb_neq; congruence).
    assert (H2 : (id x =? i) = false) by (apply Z.eqb_neq; congruence).
    rewrite H1, H2. exact IH.
  - destruct (id x =? i); [reflexivity | exact IH].
Qed.

(** The row [i] after the row [j] was rewritten by a function that keeps
    the id. *)
Lemma browse_after_update (i j : Z) (f : appointment -> appointment)
    (db : table) (a b : appointment) :
  (forall x, id (f x) = id x) ->
  browse i db = Some a -> browse j db = Some b ->
  browse i (update j (f b) db) = Some (if i =? j then f a else a).
Proof.
  intros Hf Ha Hb.
  destruct (i =? j) eqn:Hij.
  - apply Z.eqb_eq in Hij. rewrite <- Hij in Hb |- *.
    assert (a = b) by congruence. subst b.
    apply (browse_update i db a); [exact Ha|].
    rewrite Hf. now destruct (browse_Some _ _ _ Ha).
  - apply Z.eqb_neq in Hij. rewrite browse_update_other; auto.
    rewrite Hf. now destruct (browse_Some _ _ _ Hb).
Qed.

Lemma remind_all_browse (e : env) (sel : list appointment) (db : table)
    (i : Z) (a : appointment) :
  browse i db = Some a ->
  exists a',
    browse i (fst (remind_all e sel db)) = Some a'
    /\ (reminder_sent a = true -> reminder_sent a' = true)
    /\ confirmation_sent a' = confirmation_sent a.
Proof.
  revert db a. induction sel as [|x rest IH]; intros db a Ha.
  - exists a. auto.
  - rewrite remind_all_cons.
    destruct (browse (id x) db) as [cur|] eqn:Hb; [|now apply IH].
    cbv zeta. cbn [fst].
    pose proof (browse_after_update i (id x)
                  (fun r => fst (_send_reminder_email e r)) db a cur
                  (send_reminder_id e) Ha Hb) as Hnew.
    destruct (IH _ _ Hnew) as (a' & Ha' & Hr & Hc).
    exists a'. split; [exact Ha'|].
    destruct (i =? id x).
    + split.
      * intros Hflag. apply Hr. now apply send_reminder_keeps_flag.
      * rewrite Hc. unfold _send_reminder_email.
        destruct (template_reminder e); reflexivity.
    + auto.
Qed.

Lemma write_keeps_flags (e : env) (i j : Z) (vals : write_vals)
    (db db' : table) (a : appointment) :
  browse i db = Some a -> write e j vals db = Ok db' ->
  exists a',
    browse i db' = Some a'
    /\ reminder_sent a' = reminder_sent a
    /\ confirmation_sent a' = confirmation_sent a.
Proof.
  intros Ha Hw. apply appointment_write_Ok in Hw.
  destruct Hw as (b & Hb & -> & _).
  rewrite (browse_after_update i j (assign vals) db a b) by auto.
  destruct (i =? j); eexists; repeat split.
Qed.

(** X9: No operation of the module resets the flags reminder_sent and
    confirmation_sent of an appointment: the four lifecycle actions, the
    reschedule wizard and the cancellation wizard leave both as they are,
    the reminder sweep can only raise reminder_sent, and
    [_send_confirmation_email] on an appointment already confirmed by mail
    changes nothing. *)
Theorem sent_flags_never_reset (e : env) (db : table) (i : Z)
    (a : appointment) :
  browse i db = Some a ->
  (forall j act db', call (run act) j db = Ok db' ->
     exists a', browse i db' = Some a'
                /\ reminder_sent a' = reminder_sent a
                /\ confirmation_sent a' = confirmation_sent a)
  /\ (forall w db', action_reschedule e w db = Ok db' ->
        exists a', browse i db' = Some a'
                   /\ reminder_sent a' = reminder_sent a
                   /\ confirmation_sent a' = confirmation_sent a)
  /\ (forall w db', action_cancel_appointment e w db = Ok db' ->
        exists a', browse i db' = Some a'
                   /\ reminder_sent a' = reminder_sent a
                   /\ confirmation_sent a' = confirmation_sent a)
  /\ (exists a', browse i (fst (check_upcoming_reminders e db)) = Some a'
                 /\ (reminder_sent a = true -> reminder_sent a' = true)
                 /\ confirmation_sent a' = confirmation_sent a)
  /\ (confirmation_sent a = true -> _send_confirmation_email e a = a).
Proof.
  intros Ha. split; [|split; [|split; [|split]]].
  - intros j act db' Hc. unfold call in Hc.
    destruct (browse j db) as [b|] eqn:Hb; [|discriminate].
    inversion Hc; subst db'.
    rewrite (browse_after_update i j (run act) db a b);
      [|destruct act; reflexivity|exact Ha|exact Hb].
    destruct (i =? j); eexists; repeat split; destruct act; reflexivity.
  - intros w db' Hr. unfold action_reschedule in Hr.
    destruct (browse (AppointmentReschedule.appointment_id w) db);
      [|discriminate].
    apply bind_Ok in Hr. destruct Hr as ([] & _ & Hw).
    now apply (write_keeps_flags e i _ _ db db' a Ha) in Hw.
  - intros w db' Hc. unfold action_cancel_appointment in Hc.
    destruct (browse (AppointmentCancel.appointment_id w) db); [|discriminate].
    apply bind_Ok in Hc. destruct Hc as ([] & _ & Hc).
    apply bind_Ok in Hc. destruct Hc as (db1 & Hw & Hc).
    apply bind_Ok in Hc. destruct Hc as ([] & _ & Hc).
    inversion Hc; subst db1.
    now apply (write_keeps_flags e i _ _ db db' a Ha) in Hw.
  - unfold check_upcoming_reminders. cbv zeta. now apply remind_all_browse.
  - intros Hc. unfold _send_confirmation_email. now rewrite Hc.
Qed.

(** [sent_flags_never_reset] for the reminded appointment 1 of the sample
    table, rescheduled to 10:00: it is still flagged as reminded. *)
Lemma sent_flags_never_reset_witness :
  exists a',
    browse 1 reminded_rescheduled = Some a' /\ reminder_sent a' = true.
Proof.
  destruct (proj1 (proj2
              (sent_flags_never_reset (sample_env 0) [reminded_sample] 1
                 reminded_sample eq_refl))
              (sample_reschedule 1 986400) reminded_rescheduled eq_refl)
    as (a' & Hb & Hr & _).
  exists a'. split; [exact Hb | exact Hr].
Defined.

Lemma appointment_same_id (db : table) (a b : appointment) :
  NoDup (map id db) -> In a db -> In b db -> id a = id b -> a = b.
Proof.
  induction db as [|x db IH]; simpl; [intros _ []|].
  intros Hnd Ha Hb Hid. inversion Hnd as [|? ? Hnotin Hnd']; subst.
  destruct Ha as [-> | Ha]; destruct Hb as [-> | Hb].
  - reflexivity.
  - exfalso. apply Hnotin. rewrite Hid. now apply in_map.
  - exfalso. apply Hnotin. rewrite <- Hid. now apply in_map.
  - now apply IH.
Qed.

(** X10: An appointment that was reminded is not reminded again after it
    was rescheduled or after a lifecycle action: on a table with unique
    ids, no sweep run after the reschedule wizard or after one of the four
    actions sends a mail for an appointment whose reminder_sent was set,
    even when the appointment was moved to a day the sweep looks at. *)
Theorem reminded_once_even_if_rescheduled (e e2 : env) (db : table) (i : Z)
    (a : appointment) :
  NoDup (map id db) -> browse i db = Some a -> reminder_sent a = true ->
  (forall w db', action_reschedule e w db = Ok db' ->
     ~ In i (snd (check_upcoming_reminders e2 db')))
  /\ (forall j act db', call (run act) j db = Ok db' ->
        ~ In i (snd (check_upcoming_reminders e2 db'))).
Proof.
  intros Hnd Ha Hflag.
  assert (Hwrite : forall j vals db', write e j vals db = Ok db' ->
                     ~ In i (snd (check_upcoming_reminders e2 db'))).
  { intros j vals db' Hw Hmail.
    destruct (write_keeps_flags e i j vals db db' a Ha Hw) as (a' & Ha' & Hr & _).
    assert (Hnd' : NoDup (map id db')).
    { apply appointment_write_Ok in Hw. destruct Hw as (b & Hb & -> & _).
      rewrite update_ids; [exact Hnd|]. now destruct (browse_Some _ _ _ Hb). }
    unfold check_upcoming_reminders in Hmail. cbv zeta in Hmail.
    apply (count_occ_In Z.eq_dec) in Hmail.
    pose proof (remind_all_count e2
                  (search (reminder_domain (midnight (now e2 + hours 24))
                             (midnight (now e2 + hours 24) + days 1)) db')
                  db' i) as Hle.
    assert (Hsel : In i (map id (search (reminder_domain
                                           (midnight (now e2 + hours 24))
                                           (midnight (now e2 + hours 24) + days 1))
                                        db')))
      by (apply (count_occ_In Z.eq_dec); lia).
    apply in_map_iff in Hsel. destruct Hsel as (x & Hxi & Hx).
    unfold search in Hx. apply filter_In in Hx. destruct Hx as [Hx Hdom].
    unfold reminder_domain in Hdom. apply andb_true_iff in Hdom.
    destruct Hdom as [_ Hrs]. apply Bool.eqb_prop in Hrs.
    destruct (browse_Some _ _ _ Ha') as [Hin' Hid'].
    assert (x = a') by (apply (appointment_same_id db'); auto; congruence).
    subst x. congruence. }
  split.
  - intros w db' Hr. unfold action_reschedule in Hr.
    destruct (browse (AppointmentReschedule.appointment_id w) db);
      [|discriminate].
    apply bind_Ok in Hr. destruct Hr as ([] & _ & Hw).
    now apply Hwrite in Hw.
  - intros j act db' Hc. unfold call in Hc.
    destruct (browse j db) as [b|] eqn:Hb; [|discriminate].
    apply (Hwrite j {| w_status := Some (target act); w_technician_id := None;
                       w_scheduled_date := None; w_duration := None;
                       w_customer_id := None |} db').
    rewrite (write_status_only e j (target act) db b Hb), <- Hc.
    destruct act; reflexivity.
Qed.

(** [reminded_once_even_if_rescheduled] for the reminded appointment 1,
    moved to 10:00 of 1970-01-12: the sweep of the day before, which looks
    at that day, sends nothing for it. *)
Lemma reminded_once_witness :
  snd (check_upcoming_reminders (sample_env day_before) reminded_rescheduled)
  = []
  /\ ~ In 1 (snd (check_upcoming_reminders (sample_env day_before)
                    reminded_rescheduled)).
Proof.
  split; [reflexivity|].
  assert (Hnd : NoDup (map id [reminded_sample])).
  { constructor; [intros []|constructor]. }
  apply (proj1 (reminded_once_even_if_rescheduled (sample_env 0)
                  (sample_env day_before) [reminded_sample] 1 reminded_sample
                  Hnd eq_refl eq_refl)
           (sample_reschedule 1 986400) reminded_rescheduled eq_refl).
Defined.

End MailFlags.

(** ** Edit permissions and edit warnings *)

Section Editing.

Import SupportAppointment.

Lemma restriction_never_applies (field_name : string) (st : appt_status) :
  field_in field_name (status_restrictions st)
  && negb (String.eqb field_name "status") = false.
Proof.
  destruct st; try reflexivity.
  unfold field_in, status_restrictions. cbn [existsb].
  destruct (String.eqb field_name "status"); reflexivity.
Qed.

(** X11: [can_edit_field] never refuses a field because of the status of the
    appointment: its answer is the same for every status, and for a user
    who may edit the appointment it is a refusal only for scheduled_date
    and technician_id of an appointment that is not in the future, unless
    the user is a manager. *)
Theorem can_edit_field_ignores_status (e : env) (a : appointment)
    (field_name : string) (st : appt_status) :
  can_edit_field e (with_status st a) field_name = can_edit_field e a field_name
  /\ can_edit_field e a field_name
     = if negb (can_edit e a) then Ok false
       else if field_in field_name ["scheduled_date"%string; "technician_id"%string]
       then match scheduled_date a with
            | None => Raise TypeError
            | Some s => if s <=? now e
                        then Ok (group_support_manager e (uid e))
                        else Ok true
            end
       else Ok true.
Proof.
  assert (Hform : forall b,
            can_edit_field e b field_name
            = if negb (can_edit e b) then Ok false
              else if field_in field_name
                        ["scheduled_date"%string; "technician_id"%string]
              then match scheduled_date b with
                   | None => Raise TypeError
                   | Some s => if s <=? now e
                               then Ok (group_support_manager e (uid e))
                               else Ok true
                   end
              else Ok true).
  { intros b. unfold can_edit_field. cbv zeta.
    now rewrite restriction_never_applies. }
  split; [|apply Hform].
  rewrite (Hform (with_status st a)), (Hform a). reflexivity.
Qed.

(** X12: For an appointment with a date, whose stored end is the computed one,
    [get_edit_warnings] returns a list that holds the past warning exactly
    when the date is not after now, the in-progress warning exactly when
    the status is in_progress, and the conflict warning exactly when the
    edit names the date or the technician and the conflict search for the
    edited technician and interval, the appointment itself left out,
    returns a row; when the edited date is after now and the edited
    duration is not 0, that is exactly when the model constraint would
    reject the edit for a conflict. *)
Theorem edit_warnings_match_constraint (e : env) (i : Z) (vals : write_vals)
    (db : table) (a : appointment) (s0 : datetime) :
  browse i db = Some a -> scheduled_date a = Some s0 ->
  end_datetime a = _compute_end_datetime (scheduled_date a) (duration a) ->
  exists ws,
    get_edit_warnings e i vals db = Ok ws
    /\ (In warn_past ws <-> s0 <= now e)
    /\ (In warn_in_progress ws <-> status a = in_progress)
    /\ (In warn_conflict ws <->
        names_date_or_technician vals = true
        /\ find_conflicts db (edited_technician vals a)
             (Some (edited_date vals s0))
             (Some (edited_date vals s0 + edited_duration vals a))
             (Some (Some i)) <> [])
    /\ (names_date_or_technician vals = true ->
        now e < edited_date vals s0 -> edited_duration vals a <> 0 ->
        (In warn_conflict ws <->
         _check_appointment_validity e (update i (assign vals a) db)
                                     (assign vals a)
         = Raise (ValidationError
                    "Technician has conflicting appointments at this time"))).
Proof.
  intros Hb Hs Hend.
  destruct (browse_Some _ _ _ Hb) as [_ Hid].
  set (conflicts := find_conflicts db (edited_technician vals a)
                      (Some (edited_date vals s0))
                      (Some (edited_date vals s0 + edited_duration vals a))
                      (Some (Some i))).
  set (past := if s0 <=? now e then [warn_past] else []).
  set (running := if appt_status_eqb (status a) in_progress
                  then [warn_in_progress] else []).
  assert (Hget : get_edit_warnings e i vals db
                 = Ok (past ++ running
                       ++ (if names_date_or_technician vals
                           then if truthy conflicts then [warn_conflict] else []
                           else []))).
  { unfold get_edit_warnings. rewrite Hb, Hs. cbv zeta.
    fold (names_date_or_technician vals).
    destruct (names_date_or_technician vals); [reflexivity|].
    now rewrite app_nil_r. }
  assert (Hpast : forall w, In w past -> w = warn_past)
    by (unfold past; destruct (s0 <=? now e); intros w H;
        [destruct H as [<- | []]; reflexivity | destruct H]).
  assert (Hrun : forall w, In w running -> w = warn_in_progress)
    by (unfold running; destruct (appt_status_eqb (status a) in_progress);
        intros w H; [destruct H as [<- | []]; reflexivity | destruct H]).
  assert (Hconf : In warn_conflict
                    (past ++ running
                     ++ (if names_date_or_technician vals
                         then if truthy conflicts then [warn_conflict] else []
                         else []))
                  <-> names_date_or_technician vals = true /\ conflicts <> []).
  { rewrite !in_app_iff. split.
    - intros [H | [H | H]].
      + apply Hpast in H. discriminate.
      + apply Hrun in H. discriminate.
      + destruct (names_date_or_technician vals); [|destruct H].
        destruct conflicts; [destruct H|]. split; [reflexivity | discriminate].
    - intros [Hn Hc]. right. right. rewrite Hn.
      destruct conflicts; [congruence | now left]. }
  eexists. split; [exact Hget|].
  split; [|split; [|split; [exact Hconf|]]].
  - rewrite !in_app_iff. unfold past. split.
    + intros [H | [H | H]].
      * destruct (s0 <=? now e) eqn:Hle; [now apply Z.leb_le | destruct H].
      * apply Hrun in H. discriminate.
      * destruct (names_date_or_technician vals); [|destruct H].
        destruct (truthy conflicts); [|destruct H].
        destruct H as [H | []]. discriminate.
    + intros Hle. left. apply Z.leb_le in Hle. rewrite Hle. now left.
  - rewrite !in_app_iff. unfold running. split.
    + intros [H | [H | H]].
      * apply Hpast in H. discriminate.
      * destruct (appt_status_eqb (status a) in_progress) eqn:Hst;
          [now apply appt_status_eqb_spec | destruct H].
      * destruct (names_date_or_technician vals); [|destruct H].
        destruct (truthy conflicts); [|destruct H].
        destruct H as [H | []]. discriminate.
    + intros Hst. right. left. rewrite Hst. now left.
  - intros Hn Hlt Hdur. rewrite Hconf.
    assert (Hsd : scheduled_date (assign vals a) = Some (edited_date vals s0)).
    { unfold assign, edited_date. cbn [scheduled_date].
      rewrite Hs. destruct (w_scheduled_date vals); reflexivity. }
    assert (Het : end_datetime (assign vals a)
                  = Some (edited_date vals s0 + edited_duration vals a)).
    { assert (Hc : _compute_end_datetime (Some (edited_date vals s0))
                     (edited_duration vals a)
                   = Some (edited_date vals s0 + edited_duration vals a)).
      { unfold _compute_end_datetime. apply Z.eqb_neq in Hdur.
        now rewrite Hdur. }
      unfold assign. cbn [end_datetime].
      destruct (is_some (w_scheduled_date vals) || is_some (w_duration vals))
        eqn:Hk.
      - rewrite <- Hc. unfold edited_date, edited_duration. rewrite Hs.
        destruct (w_scheduled_date vals); reflexivity.
      - apply orb_false_iff in Hk. destruct Hk as [Hk1 Hk2].
        rewrite Hend, Hs, <- Hc. unfold edited_date, edited_duration.
        destruct (w_scheduled_date vals); [discriminate|].
        destruct (w_duration vals); [discriminate|]. reflexivity. }
    unfold _check_appointment_validity. rewrite Hsd, Het.
    assert (Hnow : (edited_date vals s0 <=? now e) = false)
      by (apply Z.leb_gt; lia).
    rewrite Hnow.
    replace (technician_id (assign vals a)) with (edited_technician vals a)
      by reflexivity.
    replace (id (assign vals a)) with i by (symmetry; exact Hid).
    rewrite find_conflicts_update by exact Hid.
    fold conflicts. split.
    + intros [_ Hc]. destruct conflicts; [congruence | reflexivity].
    + intros H. split; [exact Hn|].
      destruct conflicts; [discriminate | discriminate].
Qed.

(** [edit_warnings_match_constraint] on a table with two confirmed
    appointments of technician 7: moving the second onto the first is
    warned about as a conflict. *)
Lemma edit_warnings_witness :
  get_edit_warnings (sample_env 0) 2 (move_to 984600)
    [booked 1 982800 confirmed; booked 2 990000 confirmed]
  = Ok [warn_conflict]
  /\ exists ws,
       get_edit_warnings (sample_env 0) 2 (move_to 984600)
         [booked 1 982800 confirmed; booked 2 990000 confirmed] = Ok ws
       /\ (In warn_past ws <-> 990000 <= now (sample_env 0)).
Proof.
  split; [reflexivity|].
  destruct (edit_warnings_match_constraint (sample_env 0) 2 (move_to 984600)
              [booked 1 982800 confirmed; booked 2 990000 confirmed]
              (booked 2 990000 confirmed) 990000 eq_refl eq_refl eq_refl)
    as (ws & Hget & Hpast & _).
  exists ws. split; [exact Hget | exact Hpast].
Defined.

End Editing.

(** ** Availability and calendar queries *)

Section Queries.

Import AppointmentQuickCreateWizard.
Import SupportAppointment.

Lemma In_mapped_technician (t : Z) (records : list appointment) :
  In t (mapped_technician records) <->
  exists a, In a records /\ technician_id a = Some t.
Proof.
  induction records as [|x rest IH]; cbn [mapped_technician].
  - split; [intros [] | intros (a & [] & _)].
  - destruct (technician_id x) as [u|] eqn:Hx.
    + destruct (existsb (Z.eqb u) (mapped_technician rest)) eqn:Hex.
      * rewrite IH. split.
        -- intros (a & Ha & Hta). exists a. split; [now right | exact Hta].
        -- intros (a & [<- | Ha] & Hta); [|now exists a].
           apply existsb_exists in Hex. destruct Hex as (v & Hv & Huv).
           apply Z.eqb_eq in Huv. subst v.
           assert (u = t) by congruence. subst u. now apply IH.
      * cbn [In]. rewrite IH. split.
        -- intros [<- | (a & Ha & Hta)].
           ++ exists x. split; [now left | exact Hx].
           ++ exists a. split; [now right | exact Hta].
        -- intros (a & [<- | Ha] & Hta).
           ++ left. congruence.
           ++ right. now exists a.
    + rewrite IH. split.
      * intros (a & Ha & Hta). exists a. split; [now right | exact Hta].
      * intros (a & [<- | Ha] & Hta); [congruence | now exists a].
Qed.

Lemma busy_is_conflict (u : Z) (date_start date_end : datetime)
    (a : appointment) :
  conflict_domain (Some u) (Some date_start) (Some date_end) None a
  = leaf_eq (technician_id a) (Some u) && busy_domain date_start date_end a.
Proof.
  unfold conflict_domain, busy_domain.
  destruct (leaf_eq (technician_id a) (Some u)),
    (leaf_lt (scheduled_date a) (Some date_end)),
    (leaf_gt (end_datetime a) (Some date_start)), (blocking (status a));
    reflexivity.
Qed.

(** X13: [get_available_technicians] returns exactly the users of the
    technician group for whom the conflict search over [date_start,
    date_end) is empty, in the order of the user table. *)
Theorem available_technicians_are_free (e : env) (users : list Z)
    (date_start date_end : datetime) (db : table) (u : Z) :
  (In u (get_available_technicians e users date_start date_end db) <->
   In u users /\ group_support_technician e u = true
   /\ find_conflicts db (Some u) (Some date_start) (Some date_end) None = [])
  /\ get_available_technicians e users date_start date_end db
     = filter (fun v => group_support_technician e v
                        && negb (truthy (find_conflicts db (Some v)
                                           (Some date_start) (Some date_end)
                                           None)))
              users.
Proof.
  assert (Hbusy : forall v,
            existsb (Z.eqb v)
              (mapped_technician (search (busy_domain date_start date_end) db))
            = truthy (find_conflicts db (Some v) (Some date_start)
                                     (Some date_end) None)).
  { intros v. apply eq_true_iff_eq. rewrite existsb_exists. split.
    - intros (x & Hx & Hvx). apply Z.eqb_eq in Hvx. subst x.
      apply In_mapped_technician in Hx. destruct Hx as (a & Ha & Hta).
      unfold search in Ha. apply filter_In in Ha. destruct Ha as [Ha Hd].
      assert (Hin : In a (find_conflicts db (Some v) (Some date_start)
                                         (Some date_end) None)).
      { unfold find_conflicts, search. apply filter_In. split; [exact Ha|].
        rewrite busy_is_conflict, Hd, Hta. simpl. now rewrite Z.eqb_refl. }
      destruct (find_conflicts db (Some v) (Some date_start) (Some date_end)
                               None); [destruct Hin | reflexivity].
    - intros Ht.
      destruct (find_conflicts db (Some v) (Some date_start) (Some date_end)
                               None) as [|a rest] eqn:Hf; [discriminate|].
      assert (Hin : In a (find_conflicts db (Some v) (Some date_start)
                                         (Some date_end) None))
        by (rewrite Hf; now left).
      unfold find_conflicts, search in Hin. apply filter_In in Hin.
      destruct Hin as [Ha Hd]. rewrite busy_is_conflict in Hd.
      apply andb_true_iff in Hd. destruct Hd as [Hta Hd].
      apply leaf_eq_Some in Hta.
      exists v. split; [|apply Z.eqb_refl].
      apply In_mapped_technician. exists a. split; [|exact Hta].
      unfold search. apply filter_In. auto. }
  assert (Heq : get_available_technicians e users date_start date_end db
                = filter (fun v => group_support_technician e v
                                   && negb (truthy (find_conflicts db (Some v)
                                                      (Some date_start)
                                                      (Some date_end) None)))
                         users).
  { unfold get_available_technicians. cbv zeta.
    induction users as [|v rest IH]; [reflexivity|].
    cbn [filter]. destruct (group_support_technician e v); cbn [filter andb].
    - rewrite Hbusy, IH. reflexivity.
    - exact IH. }
  split; [|exact Heq].
  rewrite Heq, filter_In, andb_true_iff, negb_true_iff, truthy_false. tauto.
Qed.

Lemma Some_length (st st' : list bool) :
  Some (length st) = Some (length st') -> length st = length st'.
Proof. intros H. now inversion H. Qed.

(** Whether a domain is complete, and of how many expressions it is made,
    does not depend on the rows. *)
Lemma domain_stack_shape (v v' : (appointment -> bool) -> bool)
    (domain : list domain_term) :
  option_map (@length bool) (domain_stack v domain)
  = option_map (@length bool) (domain_stack v' domain).
Proof.
  induction domain as [|term rest IH]; [reflexivity|].
  cbn [domain_stack].
  destruct (domain_stack v rest) as [st|], (domain_stack v' rest) as [st'|];
    cbn [option_map] in IH; try discriminate; [|reflexivity].
  apply Some_length in IH.
  destruct term;
    destruct st as [|x [|y st]]; destruct st' as [|x' [|y' st']];
    cbn [length] in IH; try discriminate; cbn [option_map length];
    try reflexivity; f_equal; lia.
Qed.

(** The terms appended to a complete domain are read on their own: they
    never serve as operands of its operators. *)
Lemma domain_stack_app (v : (appointment -> bool) -> bool)
    (domain more : list domain_term) (st st2 : list bool) :
  domain_stack v domain = Some st -> domain_stack v more = Some st2 ->
  domain_stack v (domain ++ more) = Some (st ++ st2).
Proof.
  intros Hd Hm. revert st Hd.
  induction domain as [|term rest IH]; intros st Hd.
  - cbn [domain_stack] in Hd. inversion Hd; subst st. exact Hm.
  - cbn [domain_stack app] in Hd |- *.
    destruct (domain_stack v rest) as [str|]; [|discriminate].
    rewrite (IH str eq_refl).
    destruct term; destruct str as [|x [|y str]];
      cbn [app] in Hd |- *; try discriminate;
      inversion Hd; subst st; reflexivity.
Qed.

Lemma domain_complete_row (domain : list domain_term) (st0 : list bool)
    (a : appointment) :
  domain_stack (fun _ => true) domain = Some st0 ->
  exists st, domain_stack (fun accepts => accepts a) domain = Some st
             /\ length st = length st0.
Proof.
  intros H0.
  pose proof (domain_stack_shape (fun accepts => accepts a) (fun _ => true)
                domain) as Hs.
  rewrite H0 in Hs.
  destruct (domain_stack (fun accepts => accepts a) domain) as [st|];
    [|discriminate].
  exists st. split; [reflexivity|]. now apply Some_length in Hs.
Qed.

(** X14: [get_calendar_data] appends its security leaf to the domain of the
    caller.  When that domain is complete (every operator has its
    operands), the call returns the rows the domain accepts, and for a
    user who is not a manager only those whose technician is the user.
    When the domain of the caller is ['|'] followed by one expression, the
    appended leaf becomes the second operand of the ['|']: a user who is
    not a manager then gets every row the expression accepts, also the
    appointments of other technicians. *)
Theorem calendar_leaf_is_appended (e : env) (domain : list domain_term)
    (db : table) :
  (domain_stack (fun _ => true) domain <> None ->
   exists rows,
     get_calendar_data e domain db = Some rows
     /\ forall a,
          In a rows <->
          In a db /\ domain_accepts domain a = true
          /\ (group_support_manager e (uid e) = true
              \/ technician_id a = Some (uid e)))
  /\ (group_support_manager e (uid e) = false ->
      (exists x, domain_stack (fun _ => true) domain = Some [x]) ->
      exists rows,
        get_calendar_data e (OR_OPERATOR :: domain) db = Some rows
        /\ forall a,
             In a rows <->
             In a db /\ (domain_accepts domain a = true
                         \/ technician_id a = Some (uid e))).
Proof.
  set (own := leaf (fun a => leaf_eq (technician_id a) (Some (uid e)))).
  assert (Happ : forall v st,
            domain_stack v domain = Some st ->
            domain_stack v (domain ++ [own])
            = Some (st ++ [v (fun a => leaf_eq (technician_id a)
                                               (Some (uid e)))])).
  { intros v st Hst. now apply domain_stack_app. }
  split.
  - intros Hc.
    destruct (domain_stack (fun _ => true) domain) as [st0|] eqn:H0;
      [clear Hc|now elim Hc].
    unfold get_calendar_data, search_domain. cbv zeta. fold own.
    destruct (group_support_manager e (uid e)) eqn:Hm; cbn [negb].
    + rewrite H0. eexists. split; [reflexivity|].
      intros a. unfold search. rewrite filter_In. split.
      * intros [Ha Hd]. auto.
      * intros (Ha & Hd & _). auto.
    + rewrite (Happ _ st0 H0).
      eexists. split; [reflexivity|].
      intros a. unfold search. rewrite filter_In.
      destruct (domain_complete_row domain st0 a H0) as (st & Hst & _).
      unfold domain_accepts.
      rewrite (Happ _ st Hst), Hst, forallb_app. cbn [forallb].
      rewrite andb_true_iff, andb_true_r, leaf_eq_Some. split.
      * intros (Ha & Hd & Ht). auto.
      * intros (Ha & Hd & [Hx | Ht]); [discriminate | auto].
  - intros Hm (x & H0).
    unfold get_calendar_data, search_domain. cbv zeta. fold own.
    rewrite Hm. cbn [negb app domain_stack].
    rewrite (Happ _ [x] H0).
    cbn [app]. eexists. split; [reflexivity|].
    intros a. unfold search. rewrite filter_In.
    destruct (domain_complete_row domain [x] a H0) as (st & Hst & Hlen).
    destruct st as [|y [|z st]]; try discriminate.
    unfold domain_accepts at 1. cbn [domain_stack app].
    rewrite (Happ _ [y] Hst).
    cbn [app forallb]. rewrite andb_true_r, orb_true_iff, leaf_eq_Some.
    unfold domain_accepts. rewrite Hst. cbn [forallb].
    rewrite andb_true_r. reflexivity.
Qed.

(** [calendar_leaf_is_appended] for user 8, a technician who is not a
    manager, and the domain ['|', leaf] whose leaf accepts every row: the
    call returns the appointment of technician 7. *)
Lemma calendar_leaf_witness :
  exists rows,
    get_calendar_data (technician_env 0)
      [OR_OPERATOR; leaf (fun _ => true)] [sample 1 confirmed]
    = Some rows
    /\ In (sample 1 confirmed) rows
    /\ technician_id (sample 1 confirmed) <> Some (uid (technician_env 0)).
Proof.
  destruct (proj2 (calendar_leaf_is_appended (technician_env 0)
                     [leaf (fun _ => true)] [sample 1 confirmed])
              eq_refl (ex_intro _ true eq_refl))
    as (rows & Hrows & Hin).
  exists rows. split; [exact Hrows|]. split; [|discriminate].
  apply Hin. split; [now left | now left].
Defined.

End Queries.

(** ** The archival sweep and the weekly statistics *)

Section Sweeps.

Import SupportAppointment.



Lemma filter_split_length {A : Type} (f : A -> bool) (l : list A) :
  Z.of_nat (length l)
  = Z.of_nat (length (filter f l))
    + Z.of_nat (length (filter (fun x => negb (f x)) l)).
Proof.
  induction l as [|x l IH]; [reflexivity|].
  cbn [filter length]. destruct (f x); cbn [negb length]; lia.
Qed.

Lemma filter_length_bound {A : Type} (f : A -> bool) (l : list A) :
  Z.of_nat (length (filter f l)) <= Z.of_nat (length l).
Proof. pose proof (filter_split_length f l). lia. Qed.



Lemma count_by_status (records : list appointment) :
  Z.of_nat (length records)
  = count_status draft records + count_status confirmed records
    + count_status in_progress records + count_status completed records
    + count_status cancelled records.
Proof.
  unfold count_status. induction records as [|a rest IH]; [reflexivity|].
  cbn [filter length]. destruct (status a); cbn [appt_status_eqb length]; lia.
Qed.

(** X16: The figures of [generate_weekly_stats] add up: the total is the number
    of appointments dated from now - 7 days to now, both ends included,
    and equals completed + cancelled + in_progress plus the drafts and the
    confirmed appointments of that week, which the statistics do not
    list; so the three listed figures never exceed the total, and the
    total never exceeds the size of the table. *)
Theorem weekly_stats_add_up (e : env) (db : table) :
  stats_total (generate_weekly_stats e db)
  = Z.of_nat (length (this_week e db))
  /\ stats_total (generate_weekly_stats e db)
     = stats_completed (generate_weekly_stats e db)
       + stats_cancelled (generate_weekly_stats e db)
       + stats_in_progress (generate_weekly_stats e db)
       + count_status draft (this_week e db)
       + count_status confirmed (this_week e db)
  /\ 0 <= stats_completed (generate_weekly_stats e db)
          + stats_cancelled (generate_weekly_stats e db)
          + stats_in_progress (generate_weekly_stats e db)
       <= stats_total (generate_weekly_stats e db)
  /\ stats_total (generate_weekly_stats e db) <= Z.of_nat (length db)
  /\ (forall a, In a (this_week e db) <->
        In a db /\ exists s, scheduled_date a = Some s
                             /\ now e - days 7 <= s <= now e).
Proof.
  unfold generate_weekly_stats. cbv zeta.
  cbn [stats_total stats_completed stats_cancelled stats_in_progress].
  fold (this_week e db).
  pose proof (count_by_status (this_week e db)) as Hsum.
  assert (Hpos : forall s l, 0 <= count_status s l)
    by (intros; unfold count_status; lia).
  pose proof (Hpos draft (this_week e db)).
  pose proof (Hpos confirmed (this_week e db)).
  pose proof (Hpos in_progress (this_week e db)).
  pose proof (Hpos completed (this_week e db)).
  pose proof (Hpos cancelled (this_week e db)).
  split; [reflexivity|]. split; [lia|]. split; [lia|]. split.
  - unfold this_week, search. apply filter_length_bound.
  - intros a. unfold this_week, search. rewrite filter_In, andb_true_iff.
    unfold leaf_ge, leaf_le. split.
    + intros (Ha & Hge & Hle). split; [exact Ha|].
      destruct (scheduled_date a) as [s|]; [|discriminate].
      exists s. apply Z.leb_le in Hge. apply Z.leb_le in Hle. auto.
    + intros (Ha & s & Hs & Hge & Hle). rewrite Hs.
      repeat split; auto; now apply Z.leb_le.
Qed.

End Sweeps.

(** ** The settings records *)

Section SettingsRecords.

Import AppointmentSettings.

Variable py_int_strip : string -> option Z.

(** The two range tests of a working hour let through the numbers from 0
    to 24 and NaN. *)
Lemma float_range (x : pyfloat) :
  float_lt x (Num 0) || float_lt (Num 24) x = false <-> hour_or_nan x.
Proof.
  unfold hour_or_nan. destruct x as [q| | |]; cbn [float_lt orb].
  - split.
    + intros H. apply orb_false_iff in H. destruct H as [H0 H24].
      apply negb_false_iff in H0. apply negb_false_iff in H24.
      apply Qle_bool_iff in H0. apply Qle_bool_iff in H24.
      right. exists q. auto.
    + intros [H | (q' & Hq & H0 & H24)]; [discriminate|].
      inversion Hq; subst q'. apply orb_false_iff.
      split; apply negb_false_iff; now apply Qle_bool_iff.
  - split; [discriminate|].
    intros [H | (q' & Hq & _)]; discriminate.
  - split; [discriminate|].
    intros [H | (q' & Hq & _)]; discriminate.
  - split; [now left | reflexivity].
Qed.

Lemma check_working_hours_Ok (r : settings) :
  _check_working_hours r = Ok tt <->
  hour_or_nan (working_hours_start r)
  /\ hour_or_nan (working_hours_end r)
  /\ (forall p q, working_hours_start r = Num p ->
                  working_hours_end r = Num q -> (p < q)%Q).
Proof.
  unfold _check_working_hours. split.
  - destruct (float_le (working_hours_end r) (working_hours_start r)) eqn:H1;
      [discriminate|].
    destruct (float_lt (working_hours_start r) (Num 0)
              || float_lt (Num 24) (working_hours_start r)) eqn:H2;
      [discriminate|].
    destruct (float_lt (working_hours_end r) (Num 0)
              || float_lt (Num 24) (working_hours_end r)) eqn:H3;
      [discriminate|].
    intros _. apply float_range in H2. apply float_range in H3.
    split; [exact H2|]. split; [exact H3|].
    intros p q Hp Hq. rewrite Hp, Hq in H1. cbn [float_le] in H1.
    apply Qnot_le_lt. intros H. apply Qle_bool_iff in H. congruence.
  - intros (Hs & He & Hlt).
    rewrite (proj2 (float_range _) Hs), (proj2 (float_range _) He).
    assert (H1 : float_le (working_hours_end r) (working_hours_start r)
                 = false).
    { destruct Hs as [Hs | (p & Hs & _)], He as [He | (q & He & _)];
        rewrite Hs, He; try reflexivity.
      cbn [float_le]. destruct (Qle_bool q p) eqn:H; [|reflexivity].
      apply Qle_bool_iff in H. exfalso.
      exact (Qlt_not_le _ _ (Hlt p q Hs He) H). }
    now rewrite H1.
Qed.

Lemma check_positive_values_Ok (r : settings) :
  _check_positive_values r = Ok tt <->
  0 < max_daily_appointments r /\ 0 < advance_booking_days r.
Proof.
  unfold _check_positive_values. split.
  - destruct (max_daily_appointments r <=? 0) eqn:H1; [discriminate|].
    destruct (advance_booking_days r <=? 0) eqn:H2; [discriminate|].
    intros _. apply Z.leb_gt in H1. apply Z.leb_gt in H2. auto.
  - intros [H1 H2].
    assert (H1' : (max_daily_appointments r <=? 0) = false)
      by (apply Z.leb_gt; lia).
    assert (H2' : (advance_booking_days r <=? 0) = false)
      by (apply Z.leb_gt; lia).
    now rewrite H1', H2'.
Qed.

(** The constraints a successful [create] has run. *)
Lemma settings_create_checks (vals : create_vals) (db db' : table)
    (r : settings) :
  create py_int_strip vals db = Ok (r, db') ->
  db' = db ++ [r] /\ valid_settings r
  /\ _check_working_days py_int_strip r = Ok tt.
Proof.
  unfold create. cbv zeta. intros H.
  apply bind_Ok in H. destruct H as ([] & Hh & H).
  apply bind_Ok in H. destruct H as ([] & Hd & H).
  apply bind_Ok in H. destruct H as ([] & Hp & H).
  apply bind_Ok in H. destruct H as ([] & _ & H).
  inversion H; subst. clear H.
  apply check_working_hours_Ok in Hh. apply check_positive_values_Ok in Hp.
  split; [reflexivity|]. split; [|exact Hd].
  unfold valid_settings. tauto.
Qed.

(** The constraints a successful [write] has run. *)
Lemma settings_write_checks (i : Z) (vals : write_vals) (db db' : table) :
  write py_int_strip i vals db = Ok db' ->
  exists s,
    browse i db = Some s /\ db' = update i (assign vals s) db
    /\ (is_some (w_working_hours_start vals)
        || is_some (w_working_hours_end vals) = true ->
        _check_working_hours (assign vals s) = Ok tt)
    /\ (is_some (w_working_days vals) = true ->
        _check_working_days py_int_strip (assign vals s) = Ok tt)
    /\ (is_some (w_max_daily_appointments vals)
        || is_some (w_advance_booking_days vals) = true ->
        _check_positive_values (assign vals s) = Ok tt).
Proof.
  unfold write. destruct (browse i db) as [s|] eqn:Hb; [|discriminate].
  cbv zeta. intros H. exists s.
  apply bind_Ok in H. destruct H as ([] & Hh & H).
  apply bind_Ok in H. destruct H as ([] & Hd & H).
  apply bind_Ok in H. destruct H as ([] & Hp & H).
  apply bind_Ok in H. destruct H as ([] & _ & H).
  inversion H; subst. clear H.
  split; [reflexivity|]. split; [reflexivity|].
  split; [|split].
  - intros Hk. now rewrite Hk in Hh.
  - intros Hk. now rewrite Hk in Hd.
  - intros Hk. now rewrite Hk in Hp.
Qed.

Lemma valid_after_write (i : Z) (vals : write_vals) (db db' : table)
    (x : settings) :
  (forall s, In s db ->
     valid_settings s /\ _check_working_days py_int_strip s = Ok tt) ->
  write py_int_strip i vals db = Ok db' -> In x db' ->
  valid_settings x /\ _check_working_days py_int_strip x = Ok tt.
Proof.
  intros Hall Hw Hx. apply settings_write_checks in Hw.
  destruct Hw as (s & Hb & -> & Hh & Hd & Hp).
  destruct (settings_browse_Some _ _ _ Hb) as [Hs _].
  apply settings_In_update in Hx.
  destruct Hx as [[-> _] | [Hx _]]; [|now apply Hall].
  destruct (Hall s Hs) as [(V1 & V2 & V3 & V4 & V5) Vd].
  split; [unfold valid_settings|].
  - assert (Hhours : hour_or_nan (working_hours_start (assign vals s))
                     /\ hour_or_nan (working_hours_end (assign vals s))
                     /\ (forall p q,
                           working_hours_start (assign vals s) = Num p ->
                           working_hours_end (assign vals s) = Num q ->
                           (p < q)%Q)).
    { destruct (is_some (w_working_hours_start vals)
                || is_some (w_working_hours_end vals)) eqn:Hk.
      - now apply check_working_hours_Ok, Hh.
      - apply orb_false_iff in Hk. destruct Hk as [Hk1 Hk2].
        unfold assign. cbn [working_hours_start working_hours_end].
        destruct (w_working_hours_start vals); [discriminate|].
        destruct (w_working_hours_end vals); [discriminate|].
        cbn [default]. auto. }
    assert (Hpos : 0 < max_daily_appointments (assign vals s)
                   /\ 0 < advance_booking_days (assign vals s)).
    { destruct (is_some (w_max_daily_appointments vals)
                || is_some (w_advance_booking_days vals)) eqn:Hk.
      - now apply check_positive_values_Ok, Hp.
      - apply orb_false_iff in Hk. destruct Hk as [Hk1 Hk2].
        unfold assign. cbn [max_daily_appointments advance_booking_days].
        destruct (w_max_daily_appointments vals); [discriminate|].
        destruct (w_advance_booking_days vals); [discriminate|].
        cbn [default]. auto. }
    tauto.
  - destruct (is_some (w_working_days vals)) eqn:Hk; [now apply Hd|].
    unfold _check_working_days in *. unfold assign. cbn [working_days].
    destruct (w_working_days vals); [discriminate|]. exact Vd.
Qed.

(** A record with NaN among its working hours has no working hour. *)
Lemma nan_hours_never_work (s : settings) (h : pyfloat) :
  working_hours_start s = NaN \/ working_hours_end s = NaN ->
  is_working_hour s h = false.
Proof.
  unfold is_working_hour. intros [H | H]; rewrite H.
  - reflexivity.
  - apply andb_false_iff. right. destruct h; reflexivity.
Qed.

(** X17: Every record of a table the operations can build has passed the
    checks: each of its working hours is a number from 0 to 24 or NaN, the
    start is before the end when both are numbers, its two limits are
    positive, and its working days pass their check.  When both working
    hours are numbers, the two ends are themselves working hours; NaN
    passes every comparison of [_check_working_hours], so a record whose
    start is NaN can be created on every table, and a record with NaN
    among its working hours has no working hour at all. *)
Theorem reachable_settings_are_valid (db : table) :
  reachable py_int_strip db ->
  (forall s, In s db ->
     valid_settings s
     /\ _check_working_days py_int_strip s = Ok tt
     /\ (forall p q, working_hours_start s = Num p ->
                     working_hours_end s = Num q ->
                     is_working_hour s (Num p) = true
                     /\ is_working_hour s (Num q) = true)
     /\ (working_hours_start s = NaN \/ working_hours_end s = NaN ->
         forall h, is_working_hour s h = false))
  /\ exists r db',
       create py_int_strip nan_start_vals db = Ok (r, db')
       /\ working_hours_start r = NaN.
Proof.
  intros Hreach.
  assert (Hall : forall s, In s db ->
            valid_settings s /\ _check_working_days py_int_strip s = Ok tt).
  { induction Hreach as [|vals db r db' _ IH Hc|i vals db db' _ IH Hw
                         |tech db r db' _ IH Hg].
    - intros s [].
    - intros s Hs. apply settings_create_checks in Hc.
      destruct Hc as (-> & Hv & Hd). apply in_app_iff in Hs.
      destruct Hs as [Hs | [<- | []]]; auto.
    - intros s Hs. exact (valid_after_write i vals db db' s IH Hw Hs).
    - unfold get_settings_for_technician in Hg.
      destruct (search1 _ db); [inversion Hg; now subst|].
      destruct (search1 _ db); [inversion Hg; now subst|].
      intros s Hs. apply settings_create_checks in Hg.
      destruct Hg as (-> & Hv & Hd). apply in_app_iff in Hs.
      destruct Hs as [Hs | [<- | []]]; auto. }
  split.
  - intros s Hs. destruct (Hall s Hs) as [Hv Hd].
    split; [exact Hv|]. split; [exact Hd|].
    split; [|intros Hnan h; now apply nan_hours_never_work].
    intros p q Hp Hq. destruct Hv as (_ & _ & Hlt & _).
    pose proof (Hlt p q Hp Hq) as Hpq.
    unfold is_working_hour. rewrite Hp, Hq. cbn [float_le].
    split; apply andb_true_iff; split;
      apply Qle_bool_iff; try apply Qle_refl; now apply Qlt_le_weak.
  - eexists. eexists. split; [reflexivity | reflexivity].
Qed.

End SettingsRecords.

Section SettingsRecordsWitness.

Import AppointmentSettings.

(** [reachable_settings_are_valid] on the table with the default record of
    technician 7. *)
Lemma reachable_settings_are_valid_witness :
  reachable digit_int [default_settings 1 (Some 7)]
  /\ valid_settings (default_settings 1 (Some 7)).
Proof.
  assert (H : reachable digit_int [default_settings 1 (Some 7)]).
  { apply (reach_create digit_int (settings_vals (Some 7)) []
             (default_settings 1 (Some 7))); [|reflexivity].
    apply reach_empty. }
  split; [exact H|].
  exact (proj1 (proj1 (reachable_settings_are_valid digit_int _ H)
                  (default_settings 1 (Some 7)) (or_introl eq_refl))).
Defined.

End SettingsRecordsWitness.

(** ** Resolving the settings of a technician *)

Section SettingsResolution.

Import AppointmentSettings.

Variable py_int_strip : string -> option Z.

Lemma leaf_eq_iff (x y : option Z) : leaf_eq x y = true <-> x = y.
Proof.
  destruct x as [a|], y as [b|]; simpl; split; try congruence.
  - intros H. apply Z.eqb_eq in H. now subst.
  - intros H. inversion H. apply Z.eqb_refl.
Qed.

(** The record [find] returns is the first one of the list that passes
    the test. *)
Lemma find_first {A : Type} (f : A -> bool) (l : list A) (x : A) :
  find f l = Some x ->
  f x = true
  /\ exists before after,
       l = before ++ x :: after /\ forall y, In y before -> f y = false.
Proof.
  induction l as [|y l IH]; [discriminate|]. cbn [find].
  destruct (f y) eqn:Hy.
  - intros H. inversion H; subst y. split; [exact Hy|].
    exists [], l. split; [reflexivity | intros z []].
  - intros H. destruct (IH H) as (Hx & before & after & -> & Hb).
    split; [exact Hx|]. exists (y :: before), after.
    split; [reflexivity|]. intros z [<- | Hz]; [exact Hy | now apply Hb].
Qed.

(** X18: [get_settings_for_technician] returns the first record of the
    technician asked for when the table has one; else the first global
    record when the table has one; in both cases the table is left as it
    is.  When the table has neither, the default global record is
    appended to it with the next id and returned.  The call succeeds on
    every table as soon as the default working days parse. *)
Theorem settings_resolution_order (technician : option Z) (db : table) :
  (forall s db',
     get_settings_for_technician py_int_strip technician db = Ok (s, db') ->
     ((exists r, In r db /\ technician_id r = technician) ->
      db' = db /\ technician_id s = technician
      /\ exists before after,
           db = before ++ s :: after
           /\ forall r, In r before -> technician_id r <> technician)
     /\ ((forall r, In r db -> technician_id r <> technician) ->
         (exists r, In r db /\ technician_id r = None) ->
         db' = db /\ technician_id s = None
         /\ exists before after,
              db = before ++ s :: after
              /\ forall r, In r before -> technician_id r <> None)
     /\ ((forall r, In r db ->
            technician_id r <> technician /\ technician_id r <> None) ->
         db' = db ++ [s] /\ s = default_settings (next_id db) None))
  /\ (parse_days py_int_strip (split_comma "1,2,3,4,5") = Some [1; 2; 3; 4; 5] ->
      exists s db',
        get_settings_for_technician py_int_strip technician db = Ok (s, db')).
Proof.
  unfold get_settings_for_technician, search1. split.
  - intros s db'.
    destruct (find (fun s0 => leaf_eq (technician_id s0) technician) db)
      as [ts|] eqn:Hts.
    + intros H. inversion H; subst. apply find_first in Hts as Hf.
      destruct Hf as (Heq & before & after & Hdb & Hb).
      apply leaf_eq_iff in Heq.
      split; [|split].
      * intros _. split; [reflexivity|]. split; [exact Heq|].
        exists before, after. split; [exact Hdb|].
        intros r Hr Hrt. apply Hb in Hr. apply leaf_eq_iff in Hrt. congruence.
      * intros Hnone _. exfalso. apply find_some in Hts.
        exact (Hnone s (proj1 Hts) Heq).
      * intros Hnone. exfalso. apply find_some in Hts.
        exact (proj1 (Hnone s (proj1 Hts)) Heq).
    + destruct (find (fun s0 => leaf_eq (technician_id s0) None) db)
        as [gs|] eqn:Hgs.
      * intros H. inversion H; subst. apply find_first in Hgs as Hf.
        destruct Hf as (Heq & before & after & Hdb & Hb).
        apply leaf_eq_iff in Heq.
        split; [|split].
        -- intros (r & Hr & Hrt). exfalso.
           apply (find_none _ _ Hts) in Hr. apply leaf_eq_iff in Hrt.
           congruence.
        -- intros _ _. split; [reflexivity|]. split; [exact Heq|].
           exists before, after. split; [exact Hdb|].
           intros r Hr Hrt. apply Hb in Hr. apply leaf_eq_iff in Hrt.
           congruence.
        -- intros Hnone. exfalso. apply find_some in Hgs.
           exact (proj2 (Hnone s (proj1 Hgs)) Heq).
      * intros H.
        split; [|split].
        -- intros (r & Hr & Hrt). exfalso.
           apply (find_none _ _ Hts) in Hr. apply leaf_eq_iff in Hrt.
           congruence.
        -- intros _ (r & Hr & Hrt). exfalso.
           apply (find_none _ _ Hgs) in Hr. apply leaf_eq_iff in Hrt.
           congruence.
        -- intros _. unfold create in H. cbv zeta in H.
           apply bind_Ok in H. destruct H as ([] & _ & H).
           apply bind_Ok in H. destruct H as ([] & _ & H).
           apply bind_Ok in H. destruct H as ([] & _ & H).
           apply bind_Ok in H. destruct H as ([] & _ & H).
           inversion H; subst. split; reflexivity.
  - intros Hparse.
    destruct (find (fun s0 => leaf_eq (technician_id s0) technician) db)
      as [ts|]; [eauto|].
    destruct (find (fun s0 => leaf_eq (technician_id s0) None) db)
      as [gs|]; [eauto|].
    unfold create. cbv zeta. cbn [v_technician_id v_working_hours_start
      v_working_hours_end v_working_days v_max_daily_appointments
      v_default_duration v_advance_booking_days v_buffer_time default].
    unfold _check_working_hours. cbn [working_hours_start working_hours_end].
    replace (float_le (Num 17) (Num 8)) with false by reflexivity.
    replace (float_lt (Num 8) (Num 0)) with false by reflexivity.
    replace (float_lt (Num 24) (Num 8)) with false by reflexivity.
    replace (float_lt (Num 17) (Num 0)) with false by reflexivity.
    replace (float_lt (Num 24) (Num 17)) with false by reflexivity.
    cbn [orb bind].
    unfold _check_working_days. cbn [working_days]. rewrite Hparse.
    cbn [existsb Z.ltb Z.compare Pos.compare Pos.compare_cont orb bind].
    eexists. eexists. reflexivity.
Qed.

(** X19: A settings record whose working days are left empty, or are the
    default Monday to Friday, has the working days of the slot scan:
    [is_working_day] holds of a date exactly when the scan of the
    suggestion wizards does not skip its day as a weekend. *)
Theorem default_working_days_match_scan (s : settings) (date : datetime) :
  get_working_days_list py_int_strip s = Some [1; 2; 3; 4; 5] ->
  is_working_day py_int_strip s date = Some (negb (5 <=? weekday date))
  /\ (working_days s = None \/ working_days s = Some EmptyString ->
      get_working_days_list py_int_strip s = Some [1; 2; 3; 4; 5]).
Proof.
  intros Hlist. split.
  - unfold is_working_day. rewrite Hlist. f_equal. unfold isoweekday.
    assert (Hw : 0 <= weekday date < 7)
      by (unfold weekday; apply Z.mod_pos_bound; lia).
    assert (Hcases : weekday date = 0 \/ weekday date = 1 \/ weekday date = 2
                     \/ weekday date = 3 \/ weekday date = 4
                     \/ weekday date = 5 \/ weekday date = 6) by lia.
    destruct Hcases as [H | [H | [H | [H | [H | [H | H]]]]]];
      rewrite H; reflexivity.
  - intros [H | H]; unfold get_working_days_list; now rewrite H.
Qed.

End SettingsResolution.

Section SettingsResolutionWitness.

Import AppointmentSettings.

(** [settings_resolution_order] on a table with two global records, asked
    for technician 7: the first global record is returned, and no global
    record comes before it. *)
Lemma settings_resolution_witness :
  get_settings_for_technician digit_int (Some 7)
    [default_settings 1 None; default_settings 2 None]
  = Ok (default_settings 1 None,
        [default_settings 1 None; default_settings 2 None])
  /\ exists before after,
       [default_settings 1 None; default_settings 2 None]
       = before ++ default_settings 1 None :: after
       /\ forall r, In r before -> technician_id r <> None.
Proof.
  split; [reflexivity|].
  assert (Hnone : forall r,
            In r [default_settings 1 None; default_settings 2 None] ->
            technician_id r <> Some 7).
  { intros r [<- | [<- | []]]; discriminate. }
  assert (Hglobal : exists r,
            In r [default_settings 1 None; default_settings 2 None]
            /\ technician_id r = None).
  { exists (default_settings 1 None). split; [now left | reflexivity]. }
  destruct (proj1 (proj2 (proj1 (settings_resolution_order digit_int (Some 7)
                                   [default_settings 1 None;
                                    default_settings 2 None])
                            (default_settings 1 None)
                            [default_settings 1 None; default_settings 2 None]
                            eq_refl))
              Hnone Hglobal) as (_ & _ & H).
  exact H.
Defined.

(** [default_working_days_match_scan] for the default record and Saturday
    1970-01-17: not a working day. *)
Lemma default_working_days_witness :
  is_working_day digit_int (default_settings 1 None) 1382400 = Some false.
Proof.
  exact (proj1 (default_working_days_match_scan digit_int
                  (default_settings 1 None) 1382400 eq_refl)).
Defined.

End SettingsResolutionWitness.

(** ** The stored end of an appointment *)

Section StoredEnd.

Import AppointmentReschedule AppointmentCancel SupportAppointment.

Lemma assign_keeps_end (vals : write_vals) (a : appointment) :
  end_datetime a = _compute_end_datetime (scheduled_date a) (duration a) ->
  end_datetime (assign vals a)
  = _compute_end_datetime (scheduled_date (assign vals a))
                          (duration (assign vals a)).
Proof.
  intros Ha. unfold assign. cbn [end_datetime scheduled_date duration].
  destruct (w_scheduled_date vals) as [s|], (w_duration vals) as [d|];
    cbn [is_some orb default]; try reflexivity. exact Ha.
Qed.

Lemma ends_consistent_update (i : Z) (f : appointment -> appointment)
    (db : table) (b : appointment) :
  (forall a, end_datetime a
             = _compute_end_datetime (scheduled_date a) (duration a) ->
             end_datetime (f a)
             = _compute_end_datetime (scheduled_date (f a)) (duration (f a))) ->
  ends_consistent db -> browse i db = Some b ->
  ends_consistent (update i (f b) db).
Proof.
  intros Hf Hdb Hb x Hx. apply In_update in Hx.
  destruct Hx as [[-> _] | [Hx _]]; [|now apply Hdb].
  apply Hf. apply Hdb. now destruct (browse_Some _ _ _ Hb).
Qed.

Lemma ends_consistent_write (e : env) (i : Z) (vals : write_vals)
    (db db' : table) :
  ends_consistent db -> write e i vals db = Ok db' -> ends_consistent db'.
Proof.
  intros Hdb Hw. apply appointment_write_Ok in Hw.
  destruct Hw as (b & Hb & -> & _).
  apply (ends_consistent_update i (assign vals) db b); auto.
  intros a. apply assign_keeps_end.
Qed.

Lemma ends_consistent_remind (e : env) (sel : list appointment) (db : table) :
  ends_consistent db -> ends_consistent (fst (remind_all e sel db)).
Proof.
  revert db. induction sel as [|x rest IH]; intros db Hdb; [exact Hdb|].
  rewrite remind_all_cons.
  destruct (browse (id x) db) as [cur|] eqn:Hb; [|now apply IH].
  cbv zeta. cbn [fst]. apply IH.
  apply (ends_consistent_update (id x)
           (fun r => fst (_send_reminder_email e r)) db cur); auto.
  intros a Ha. unfold _send_reminder_email.
  destruct (template_reminder e); exact Ha.
Qed.

(** X20: The operations of the module never let the stored end of an
    appointment drift from its start and duration: on a table where every
    end is the computed one, the quick-create wizard, the four lifecycle
    actions, the reschedule wizard, the cancellation wizard and the
    reminder sweep all leave such a table. *)
Theorem stored_end_stays_consistent (e : env) (db : table) :
  ends_consistent db ->
  (forall w a db',
     AppointmentQuickCreateWizard.action_create_appointment e w db
     = Ok (a, db') ->
     ends_consistent db')
  /\ (forall i act db', call (run act) i db = Ok db' -> ends_consistent db')
  /\ (forall w db', action_reschedule e w db = Ok db' -> ends_consistent db')
  /\ (forall w db', action_cancel_appointment e w db = Ok db' ->
                    ends_consistent db')
  /\ ends_consistent (fst (check_upcoming_reminders e db)).
Proof.
  intros Hdb. split; [|split; [|split; [|split]]].
  - intros w a db' Hc.
    unfold AppointmentQuickCreateWizard.action_create_appointment in Hc.
    apply bind_Ok in Hc. destruct Hc as ([] & _ & Hc).
    apply appointment_create_Ok in Hc.
    destruct Hc as (-> & _ & _ & _ & _ & Hend & _).
    intros x Hx. apply in_app_iff in Hx.
    destruct Hx as [Hx | [<- | []]]; [now apply Hdb | exact Hend].
  - intros i act db' Hc. unfold call in Hc.
    destruct (browse i db) as [b|] eqn:Hb; [|discriminate].
    inversion Hc; subst db'.
    apply (ends_consistent_update i (run act) db b); auto.
    intros a Ha. destruct act; exact Ha.
  - intros w db' Hr. unfold action_reschedule in Hr.
    destruct (browse (AppointmentReschedule.appointment_id w) db);
      [|discriminate].
    apply bind_Ok in Hr. destruct Hr as ([] & _ & Hw).
    now apply (ends_consistent_write e _ _ db db' Hdb) in Hw.
  - intros w db' Hc. unfold action_cancel_appointment in Hc.
    destruct (browse (AppointmentCancel.appointment_id w) db); [|discriminate].
    apply bind_Ok in Hc. destruct Hc as ([] & _ & Hc).
    apply bind_Ok in Hc. destruct Hc as (db1 & Hw & Hc).
    apply bind_Ok in Hc. destruct Hc as ([] & _ & Hc).
    inversion Hc; subst db1.
    now apply (ends_consistent_write e _ _ db db' Hdb) in Hw.
  - unfold check_upcoming_reminders. cbv zeta.
    now apply ends_consistent_remind.
Qed.

(** [stored_end_stays_consistent] from the empty table: the draft the
    wizard creates for 09:00 ends at 10:00. *)
Lemma stored_end_witness :
  ends_consistent [booked 1 982800 draft].
Proof.
  assert (H0 : ends_consistent []) by (intros a []).
  apply (proj1 (stored_end_stays_consistent (sample_env 0) [] H0)
           sample_wizard (booked 1 982800 draft)).
  reflexivity.
Defined.

Lemma Ok_injective {A : Type} (x y : A) : Ok x = Ok y -> x = y.
Proof. intros H. now inversion H. Qed.

(** Every alternative slot is free for the technician, the rescheduled
    appointment left out. *)
Lemma alternative_slot_is_free (e : env) (db : table) (w : AppointmentReschedule.wizard)
    (technician : option Z) (slots : list datetime) (slot : datetime) :
  _find_alternative_slots e w technician db = Ok slots -> In slot slots ->
  find_conflicts db technician (Some slot)
    (Some (slot + AppointmentReschedule.duration db w))
    (Some (Some (AppointmentReschedule.appointment_id w))) = [].
Proof.
  unfold _find_alternative_slots. cbv zeta.
  destruct (current_date w) as [cd|]; [|discriminate].
  intros H Hin. apply Ok_injective in H. subst slots.
  rewrite scan_days_first_five in Hin.
  destruct (first_five_ok (now e) e
              (fun slot_start => slot_start =? replace_minute0 cd)
              (AppointmentReschedule.slot_free db w technician) eq_refl)
    as (_ & _ & Hall).
  destruct (Hall slot Hin) as (_ & _ & _ & _ & Hfree).
  unfold AppointmentReschedule.slot_free in Hfree. cbv zeta in Hfree.
  now apply search_count_zero in Hfree.
Qed.

(** X21: An alternative slot that lies after now can be taken: for an
    appointment that is neither completed nor cancelled and has a duration
    other than 0, a user who may edit it reschedules it to any slot
    suggested for its technician, and the appointment then starts at that
    slot and ends at slot + duration. *)
Theorem alternative_slot_can_be_taken (e : env) (db : table) (w : AppointmentReschedule.wizard)
    (a : appointment) (slots : list datetime) (slot : datetime) :
  browse (AppointmentReschedule.appointment_id w) db = Some a ->
  _find_alternative_slots e w (technician_after w a) db = Ok slots ->
  In slot slots -> now e < slot ->
  conflicts_found w = false ->
  status a <> completed -> status a <> cancelled -> can_edit e a = true ->
  (forall t, new_technician_id w = Some t ->
             group_support_technician e t = true) ->
  duration a <> 0 ->
  exists db' a',
    action_reschedule e (with_new_date slot w) db = Ok db'
    /\ browse (AppointmentReschedule.appointment_id w) db' = Some a'
    /\ scheduled_date a' = Some slot
    /\ end_datetime a' = Some (slot + duration a)
    /\ technician_id a' = technician_after w a.
Proof.
  intros Hb Hslots Hin Hlt Hf Hc Hx Hedit Hgrp Hdur.
  pose proof (alternative_slot_is_free e db w _ slots slot Hslots Hin) as Hfree.
  assert (Hd : AppointmentReschedule.duration db w = duration a)
    by (unfold AppointmentReschedule.duration; now rewrite Hb).
  rewrite Hd in Hfree.
  destruct (browse_Some _ _ _ Hb) as [_ Hid]. rewrite <- Hid in Hfree.
  assert (Hend : _compute_end_datetime (Some slot) (duration a)
                 = Some (slot + duration a)).
  { unfold _compute_end_datetime. apply Z.eqb_neq in Hdur. now rewrite Hdur. }
  assert (Hok : action_reschedule e (with_new_date slot w) db
                = Ok (update (id a) (assign (update_vals (with_new_date slot w)) a)
                             db)).
  { apply (action_reschedule_Ok e (with_new_date slot w) db _ a Hb).
    repeat split; auto. exists slot. rewrite Hend. repeat split; auto. }
  destruct (assign_update_vals (with_new_date slot w) a slot eq_refl)
    as (Ha1 & Ha2 & Ha3 & Ha4 & _).
  eexists. eexists. split; [exact Hok|].
  split; [|split; [exact Ha2 | split; [now rewrite Ha4, Hend | exact Ha3]]].
  rewrite Hid. apply (browse_update _ db a); [exact Hb|].
  now rewrite Ha1.
Qed.

(** [alternative_slot_can_be_taken] on Monday 1970-01-12 at 07:00 for the
    confirmed appointment of 09:00: it can be moved to 08:00. *)
Lemma alternative_slot_witness :
  exists db' a',
    action_reschedule (sample_env monday_morning)
      (with_new_date 979200 (sample_reschedule 1 986400)) [sample 1 confirmed]
    = Ok db'
    /\ browse 1 db' = Some a'
    /\ scheduled_date a' = Some 979200
    /\ end_datetime a' = Some (979200 + 3600)
    /\ technician_id a' = Some 7.
Proof.
  apply (alternative_slot_can_be_taken (sample_env monday_morning)
           [sample 1 confirmed] (sample_reschedule 1 986400)
           (sample 1 confirmed) _ 979200 eq_refl eq_refl);
    try reflexivity; try discriminate.
  now left.
Defined.

End StoredEnd.
